(** * Tablet reconciliation of a Vitess shard

    A shallow embedding of [pkg/controller/vitessshard/reconcile_tablets.go]:
    the compiler of desired tablets ([vttabletSpecs]), the callbacks that
    [reconcileTablets] hands to the object-set reconciler for volume claims
    and pods, the primary lookup, the availability check and the propagation
    of a pending filesystem resize.

    Go values are modelled as the code has them: [int32] and [int64] as [Z]
    with the wrap-around written out, [map[string]string] objects as cells of
    a heap where the code allocates and fills them, and as [gmap] values
    where it only reads them, structs as records, the mutable state that the
    callbacks close over as an explicit state record. *)

From Stdlib Require Import ZArith String Ascii List Bool Lia.
From stdpp Require Import base option list gmap strings pretty fin_maps.

Local Open Scope string_scope.
Local Open Scope list_scope.
Local Open Scope Z_scope.

(** ** Go primitives *)

Module Go.

(** [int32] arithmetic wraps around. *)
Definition MaxInt32 : Z := 2147483647.
Definition MinInt32 : Z := -2147483648.
Definition MaxInt64 : Z := 9223372036854775807.
Definition MinInt64 : Z := -9223372036854775808.

Definition wrap32 (z : Z) : Z := (z + 2 ^ 31) mod 2 ^ 32 - 2 ^ 31.
Definition inInt32 (z : Z) : Prop := MinInt32 <= z <= MaxInt32.

(** [uint32(x)] for an [int32] x. *)
Definition uint32 (z : Z) : Z := z mod 2 ^ 32.

(** [for i := start; i <= n; i++ { s = body i s }] over [int32].  The
    increment wraps, so the loop need not end: [fuel] bounds the number of
    tests of the condition, and [None] means the bound was reached. *)
Fixpoint forInt32 {St : Type} (fuel : nat) (i n : Z) (body : Z -> St -> St)
  (s : St) : option St :=
  match fuel with
  | O => None
  | S fuel' =>
      if i <=? n then forInt32 fuel' (wrap32 (i + 1)) n body (body i s)
      else Some s
  end.

(** [m[k]] on a [map[string]string]: the zero value for a missing key. *)
Definition index (m : gmap string string) (k : string) : string :=
  default "" (m !! k).

(** [time.Duration] is an [int64] count of nanoseconds. *)
Definition Duration : Type := Z.
Definition Nanosecond : Duration := 1.
Definition Second : Duration := 1000000000.
(** The conversion [time.Duration(n)] of an integer constant. *)
Definition toDuration (n : Z) : Duration := n.

(** *** strconv *)

Definition digitOf (c : ascii) : option Z :=
  let n := Z.of_N (N_of_ascii c) in
  if (48 <=? n) && (n <=? 57) then Some (n - 48) else None.

(** The digits of a base-10 literal, most significant first; [None] on any
    other character. *)
Fixpoint parseDigits (acc : Z) (s : string) : option Z :=
  match s with
  | EmptyString => Some acc
  | String c rest =>
      match digitOf c with
      | Some d => parseDigits (10 * acc + d) rest
      | None => None
      end
  end.

(** [strconv.ParseInt(s, 10, 64)]: an optional sign, then one or more
    decimal digits, the value within [int64]; [None] stands for the syntax
    and range errors. *)
Definition ParseInt (s : string) : option Z :=
  match s with
  | EmptyString => None
  | String c rest =>
      let '(neg, body) :=
        if Ascii.eqb c "+"%char then (false, rest)
        else if Ascii.eqb c "-"%char then (true, rest)
        else (false, s) in
      match body with
      | EmptyString => None
      | _ =>
          match parseDigits 0 body with
          | Some un =>
              let n := if neg then - un else un in
              if (MinInt64 <=? n) && (n <=? MaxInt64) then Some n else None
          | None => None
          end
      end
  end.

(** [strconv.FormatInt(n, 10)] and [strconv.FormatUint(n, 10)]. *)
Definition FormatInt (n : Z) : string := pretty n.
Definition FormatUint (n : Z) : string := pretty (Z.to_N n).

End Go.

(** ** Kubernetes core types, as far as this file reads them *)

(** [corev1.ConditionStatus] is a string type; its zero value is the empty
    string, which is none of the three constants. *)
Definition ConditionStatus : Type := string.
Definition ConditionTrue : ConditionStatus := "True".
Definition ConditionFalse : ConditionStatus := "False".
Definition ConditionUnknown : ConditionStatus := "Unknown".

(** Instants ([metav1.Time]) as nanoseconds since the epoch. *)
Definition Timestamp : Type := Z.

(** [corev1.PodPhase], a string type. *)
Definition PodPhase : Type := string.
Definition PodPending : PodPhase := "Pending".
Definition PodRunning : PodPhase := "Running".

Record PodCondition := {
  pcType : string;
  pcStatus : ConditionStatus;
  pcLastTransitionTime : Timestamp;
}.

(** [client.ObjectKey]. *)
Record ObjectKey := { Namespace : string; Name : string }.

#[global] Instance ObjectKey_eq_dec : EqDecision ObjectKey.
Proof. solve_decision. Defined.

(** A pod.  [podAnnotations] is [None] for Go's nil map. *)
Record Pod := {
  podKey : ObjectKey;
  podLabels : gmap string string;
  podAnnotations : option (gmap string string);
  podDeletionTimestamp : option Timestamp;
  podPhase : PodPhase;
  podConditions : list PodCondition;
}.

(** [pod.Annotations[k]]: reading a nil map gives the zero value. *)
Definition podAnnotation (pod : Pod) (k : string) : string :=
  match podAnnotations pod with
  | Some m => Go.index m k
  | None => ""
  end.

(** What this file observes of a [resource.Quantity]: [Value()] and
    [String()]. *)
Record Quantity := { qValue : Z; qString : string }.

(** The zero [Quantity], which indexing a [ResourceList] gives for a missing
    entry. *)
Definition zeroQuantity : Quantity := {| qValue := 0; qString := "0" |}.

Definition ResourceStorage : string := "storage".

(** [corev1.PersistentVolumeClaimPhase], a string type. *)
Definition ClaimPhase : Type := string.
Definition ClaimPending : ClaimPhase := "Pending".
Definition ClaimBound : ClaimPhase := "Bound".

Definition PersistentVolumeClaimResizing : string := "Resizing".
Definition PersistentVolumeClaimFileSystemResizePending : string :=
  "FileSystemResizePending".

Record PVCCondition := {
  ccType : string;
  ccStatus : ConditionStatus;
}.

(** [corev1.PersistentVolumeClaimSpec]: the resource requests, and the rest
    of the template, which is copied and never inspected. *)
Record PVCSpec := {
  pvcRequests : gmap string Quantity;
  pvcTemplateRest : string;
}.

Record PersistentVolumeClaim := {
  pvcKey : ObjectKey;
  pvcSpec : PVCSpec;
  pvcPhase : ClaimPhase;
  pvcConditions : list PVCCondition;
}.

(** Errors of the API client; [apierrors.IsNotFound] recognises one kind. *)
Inductive APIError := ErrNotFound | ErrOther (reason : string).

Definition IsNotFound (e : APIError) : bool :=
  match e with ErrNotFound => true | ErrOther _ => false end.

(** The cluster as [r.client.Get] shows it. *)
Record Client := {
  getPod : ObjectKey -> APIError + Pod;
  getPVC : ObjectKey -> APIError + PersistentVolumeClaim;
}.

Example ParseInt_examples :
  Go.ParseInt "5" = Some 5 /\ Go.ParseInt "-12" = Some (-12) /\
  Go.ParseInt "+007" = Some 7 /\ Go.ParseInt "" = None /\
  Go.ParseInt "-" = None /\ Go.ParseInt "1_0" = None /\
  Go.ParseInt "9223372036854775807" = Some Go.MaxInt64 /\
  Go.ParseInt "9223372036854775808" = None /\
  Go.ParseInt "-9223372036854775808" = Some Go.MinInt64 /\
  Go.FormatInt 42 = "42" /\ Go.FormatInt (-3) = "-3" /\ Go.FormatUint 10 = "10".
Proof. vm_compute. repeat split. Qed.

#[global] Instance ObjectKey_countable : Countable ObjectKey.
Proof.
  refine (inj_countable' (fun k => (Namespace k, Name k))
            (fun p => {| Namespace := p.1; Name := p.2 |}) _).
  by intros [].
Defined.

(** ** Go maps as heap objects

    A Go map is a reference.  The maps that [vttabletSpecs] allocates, fills
    and hands out, and the maps of its inputs, live in a heap addressed by
    position; a reference is an address or nil. *)

Abbreviation Heap := (list (gmap string string)).
Definition MapRef : Type := option nat.

(** Reading through a reference; a nil map reads as empty. *)
Definition deref (h : Heap) (r : MapRef) : gmap string string :=
  match r with
  | Some l => default ∅ (h !! l)
  | None => ∅
  end.

(** [make(map[string]string)] and map literals: a new object at the next
    free address. *)
Definition make (m : gmap string string) (h : Heap) : nat * Heap :=
  (List.length h, h ++ [m]).

(** [m[k] = v] on the map at address [l]. *)
Definition assign (l : nat) (k v : string) (h : Heap) : Heap :=
  alter (insert k v) l h.

(** [for k, v := range src { m[k] = v }] on the map at address [l]. *)
Definition assignAll (l : nat) (src : gmap string string) (h : Heap) : Heap :=
  alter (fun dst => src ∪ dst) l h.

(** Configuration blocks whose types are declared outside this file and
    which the code copies without inspecting them. *)
Definition Blob : Type := string.

Module topodatapb.

(** [Uid] is a [uint32]. *)
Record TabletAlias := { Cell : string; Uid : Z }.

#[global] Instance TabletAlias_eq_dec : EqDecision TabletAlias.
Proof. solve_decision. Defined.

End topodatapb.

Module planetscalev2.

Record VitessKeyRange := { krStart : string; krEnd : string }.

Record VttabletSpec := {
  ExtraFlags : MapRef;
  vttabletRest : Blob;
}.

Record VitessBackupLocation := {
  blName : string;
  blAnnotations : MapRef;
  blRest : Blob;
}.

(** [Replicas] is an [int32]. *)
Record VitessShardTabletPool := {
  Cell : string;
  Type_ : string;
  Replicas : Z;
  DataVolumeClaimTemplate : option PVCSpec;
  BackupLocationName : string;
  Vttablet : VttabletSpec;
  Mysqld : Blob;
  ExternalDatastore : Blob;
  Affinity : Blob;
  Annotations : MapRef;
  ExtraLabels : MapRef;
  ExtraEnv : Blob;
  ExtraVolumes : Blob;
  ExtraVolumeMounts : Blob;
  InitContainers : Blob;
  SidecarContainers : Blob;
  Tolerations : Blob;
  TopologySpreadConstraints : Blob;
}.

Record VitessShardSpec := {
  Name : string;
  KeyRange : VitessKeyRange;
  TabletPools : list VitessShardTabletPool;
  BackupLocations : list VitessBackupLocation;
  ExtraVitessFlags : MapRef;
  ZoneMap : MapRef;
  GlobalLockserver : Blob;
  Images : Blob;
  ImagePullPolicies : Blob;
  ImagePullSecrets : Blob;
  DatabaseName : string;
  DatabaseInitScriptSecret : Blob;
  BackupEngine : Blob;
}.

Record OrphanStatus := { Reason : string; Message : string }.

Record VitessTabletStatus := {
  PoolType : string;
  Index : Z;
  Running : ConditionStatus;
  Ready : ConditionStatus;
  Available : ConditionStatus;
  DataVolumeBound : ConditionStatus;
  PendingChanges : string;
}.

(** [LowestPodGeneration] is an [int64]. *)
Record VitessShardStatus := {
  Tablets : gmap string VitessTabletStatus;
  OrphanedTablets : gmap string OrphanStatus;
  LowestPodGeneration : Z;
  Cells : list string;
}.

(** The shard object, without its status, which the pass state carries. *)
Record VitessShard := {
  vtsNamespace : string;
  Labels : MapRef;
  Generation : Z;
  Spec : VitessShardSpec;
}.

(** Modelled from the spec: the constructor [NewOrphanStatus], declared with
    the API types.  "OrphanStatus: {reason, message} attached to an object
    that exists but is not desired and is currently blocked from deletion". *)
Definition NewOrphanStatus (reason message : string) : OrphanStatus :=
  {| Reason := reason; Message := message |}.

(** Modelled from the spec: the method [BackupLocation] of the shard spec,
    declared with the API types.  It "resolves the pool's backup location by
    name lookup against the shard's backup-location list"; nil when no
    location has the name. *)
Definition BackupLocation (spec : VitessShardSpec) (name : string)
  : option VitessBackupLocation :=
  List.find (fun bl => String.eqb (blName bl) name) (BackupLocations spec).

End planetscalev2.

#[global] Instance VitessTabletStatus_eq_dec : EqDecision planetscalev2.VitessTabletStatus.
Proof. solve_decision. Defined.

Module vttablet.

(** [vttablet.Spec], field by field as [vttabletSpecs] fills it, and
    [DataVolumePVCName], which [reconcileTablets] sets afterwards. *)
Record Spec := {
  GlobalLockserver : Blob;
  Labels : MapRef;
  Images : Blob;
  ImagePullPolicies : Blob;
  ImagePullSecrets : Blob;
  Index : Z;
  KeyRange : planetscalev2.VitessKeyRange;
  Alias : topodatapb.TabletAlias;
  AliasStr : string;
  Zone : string;
  Vttablet : planetscalev2.VttabletSpec;
  Mysqld : Blob;
  ExternalDatastore : Blob;
  Type_ : string;
  DataVolumePVCSpec : option PVCSpec;
  DataVolumePVCName : string;
  KeyspaceName : string;
  DatabaseName : string;
  DatabaseInitScriptSecret : Blob;
  Annotations : MapRef;
  BackupLocation : option planetscalev2.VitessBackupLocation;
  BackupEngine : Blob;
  Affinity : Blob;
  ExtraEnv : Blob;
  ExtraVolumes : Blob;
  ExtraLabels : MapRef;
  InitContainers : Blob;
  SidecarContainers : Blob;
  ExtraVolumeMounts : Blob;
  Tolerations : Blob;
  TopologySpreadConstraints : Blob;
}.

End vttablet.

(** ** What the file calls and does not define

    Functions and constants of other packages of the operator, of Vitess and
    of Kubernetes.  The development holds for every choice of them. *)

Class Externals := {
  (** [vttablet.UID(cell, keyspace, keyRange, poolType, index)], a [uint32]. *)
  vttablet_UID :
    string -> string -> planetscalev2.VitessKeyRange -> string -> Z -> Z;
  (** [vttablet.PodName(clusterName, alias)]. *)
  vttablet_PodName : string -> topodatapb.TabletAlias -> string;
  (** [vttablet.AliasFromPod(pod)]. *)
  vttablet_AliasFromPod : Pod -> topodatapb.TabletAlias;
  (** The builders of package [vttablet]; they read the spec and its maps. *)
  vttablet_NewPVC : ObjectKey -> vttablet.Spec -> Heap -> PersistentVolumeClaim;
  vttablet_UpdatePVCInPlace :
    PersistentVolumeClaim -> vttablet.Spec -> Heap -> PersistentVolumeClaim;
  vttablet_NewPod : ObjectKey -> vttablet.Spec -> Heap -> Pod;
  vttablet_UpdatePodInPlace : Pod -> vttablet.Spec -> Heap -> Pod;
  vttablet_UpdatePod : Pod -> vttablet.Spec -> Heap -> Pod;
  (** [topoproto.TabletAliasString(alias)]. *)
  TabletAliasString : topodatapb.TabletAlias -> string;
  (** [planetscalev2.NewVitessTabletStatus(poolType, index)]. *)
  NewVitessTabletStatus : string -> Z -> planetscalev2.VitessTabletStatus;
  (** [drain.Finished(pod)] and [drain.Start(pod, reason)], which changes
      the pod. *)
  drain_Finished : Pod -> bool;
  drain_Start : Pod -> string -> Pod;
  (** [podutils.IsPodReady(pod)] and
      [podutils.IsPodAvailable(pod, minReadySeconds, now)]. *)
  IsPodReady : Pod -> bool;
  IsPodAvailable : Pod -> Z -> Timestamp -> bool;
  (** Label and annotation keys. *)
  ClusterLabel : string;
  KeyspaceLabel : string;
  CellLabel : string;
  TabletUidLabel : string;
  TabletTypeLabel : string;
  TabletIndexLabel : string;
  drain_SupportedAnnotation : string;
  rollout_ScheduledAnnotation : string;
  pvcFilesystemResizeAnnotation : string;
  ComponentLabel : string;
  ShardLabel : string;
  VttabletComponentName : string;
  (** The method [SafeName] of a key range. *)
  KeyRange_SafeName : planetscalev2.VitessKeyRange -> string;
}.

(** Modelled from the spec: [update.StringMap(&dst, src)] and
    [update.Annotations(&dst, src)] of package [update], for a [dst] that is
    not nil.  The compiler "merges global extra flags with pool-level extra
    flags (pool overrides global, keys are exact string matches)" by two
    calls, global first: a call writes every entry of [src] into [dst] and
    removes nothing. *)
Definition update_StringMap (dst : nat) (src : MapRef) (h : Heap) : Heap :=
  assignAll dst (deref h src) h.

Definition update_Annotations (dst : nat) (src : MapRef) (h : Heap) : Heap :=
  assignAll dst (deref h src) h.

(** Modelled from the spec: [k8s.ConditionStatus(b)] of package [k8s], which
    turns a Go boolean into one of the "running/ready/available/volume-bound
    conditions": true for [true], false for [false]. *)
Definition k8s_ConditionStatus (b : bool) : ConditionStatus :=
  if b then ConditionTrue else ConditionFalse.

(** ** Constants of this file *)

Definition tabletAvailableSeconds : Z := 30.

Definition observedShardGenerationAnnotationKey : string :=
  "planetscale.com/observed-shard-generation".

(** ** The desired-state compiler *)

Section Compiler.
Context {E : Externals}.

(** The struct literal that [vttabletSpecs] appends: the spec of tablet
    [tabletIndex] of [pool], given the zone read from the zone map and the
    three maps built for it. *)
Definition tabletRecord (vts : planetscalev2.VitessShard)
  (keyspaceName : string) (pool : planetscalev2.VitessShardTabletPool)
  (backupLocation : option planetscalev2.VitessBackupLocation)
  (tabletIndex : Z) (zone : string) (labels extraFlags annotations : MapRef)
  : vttablet.Spec :=
  let spec := planetscalev2.Spec vts in
  let tabletAlias :=
    {| topodatapb.Cell := planetscalev2.Cell pool;
       topodatapb.Uid :=
         vttablet_UID (planetscalev2.Cell pool) keyspaceName
           (planetscalev2.KeyRange spec) (planetscalev2.Type_ pool)
           (Go.uint32 tabletIndex) |} in
  (* Make shallow copy of pool.Vttablet to avoid mutating input. *)
  let vttabletcpy := planetscalev2.Vttablet pool in
  let vttabletcpy :=
    {| planetscalev2.ExtraFlags := extraFlags;
       planetscalev2.vttabletRest := planetscalev2.vttabletRest vttabletcpy |} in
  {| vttablet.GlobalLockserver := planetscalev2.GlobalLockserver spec;
     vttablet.Labels := labels;
     vttablet.Images := planetscalev2.Images spec;
     vttablet.ImagePullPolicies := planetscalev2.ImagePullPolicies spec;
     vttablet.ImagePullSecrets := planetscalev2.ImagePullSecrets spec;
     vttablet.Index := tabletIndex;
     vttablet.KeyRange := planetscalev2.KeyRange spec;
     vttablet.Alias := tabletAlias;
     vttablet.AliasStr := TabletAliasString tabletAlias;
     vttablet.Zone := zone;
     vttablet.Vttablet := vttabletcpy;
     vttablet.Mysqld := planetscalev2.Mysqld pool;
     vttablet.ExternalDatastore := planetscalev2.ExternalDatastore pool;
     vttablet.Type_ := planetscalev2.Type_ pool;
     vttablet.DataVolumePVCSpec := planetscalev2.DataVolumeClaimTemplate pool;
     vttablet.DataVolumePVCName := "";
     vttablet.KeyspaceName := keyspaceName;
     vttablet.DatabaseName := planetscalev2.DatabaseName spec;
     vttablet.DatabaseInitScriptSecret :=
       planetscalev2.DatabaseInitScriptSecret spec;
     vttablet.Annotations := annotations;
     vttablet.BackupLocation := backupLocation;
     vttablet.BackupEngine := planetscalev2.BackupEngine spec;
     vttablet.Affinity := planetscalev2.Affinity pool;
     vttablet.ExtraEnv := planetscalev2.ExtraEnv pool;
     vttablet.ExtraVolumes := planetscalev2.ExtraVolumes pool;
     vttablet.ExtraLabels := planetscalev2.ExtraLabels pool;
     vttablet.InitContainers := planetscalev2.InitContainers pool;
     vttablet.SidecarContainers := planetscalev2.SidecarContainers pool;
     vttablet.ExtraVolumeMounts := planetscalev2.ExtraVolumeMounts pool;
     vttablet.Tolerations := planetscalev2.Tolerations pool;
     vttablet.TopologySpreadConstraints :=
       planetscalev2.TopologySpreadConstraints pool |}.

(** The body of the inner loop of [vttabletSpecs]: one tablet of [pool],
    appended to [tablets]; its three maps are new objects of the heap. *)
Definition tabletSpec (vts : planetscalev2.VitessShard) (parentLabels : MapRef)
  (keyspaceName : string) (pool : planetscalev2.VitessShardTabletPool)
  (backupLocation : option planetscalev2.VitessBackupLocation)
  (tabletIndex : Z) (st : list vttablet.Spec * Heap)
  : list vttablet.Spec * Heap :=
  let '(tablets, h) := st in
  let spec := planetscalev2.Spec vts in
  let cell := planetscalev2.Cell pool in
  let uid :=
    vttablet_UID cell keyspaceName (planetscalev2.KeyRange spec)
      (planetscalev2.Type_ pool) (Go.uint32 tabletIndex) in
  (* Copy parent labels map and add tablet-specific labels. *)
  let '(labels, h) := make ∅ h in
  let h := assignAll labels (deref h parentLabels) h in
  let h := assign labels CellLabel cell h in
  let h := assign labels TabletUidLabel (Go.FormatUint uid) h in
  let h := assign labels TabletTypeLabel (planetscalev2.Type_ pool) h in
  let h := assign labels TabletIndexLabel
             (Go.FormatUint (tabletIndex mod 2 ^ 64)) h in
  (* Merge ExtraVitessFlags into the tablet spec ExtraFlags field. *)
  let '(extraFlags, h) := make ∅ h in
  let h := update_StringMap extraFlags (planetscalev2.ExtraVitessFlags spec) h in
  let h := update_StringMap extraFlags
             (planetscalev2.ExtraFlags (planetscalev2.Vttablet pool)) h in
  let '(annotations, h) :=
    make {[ drain_SupportedAnnotation :=
              "ensure that the tablet is not a primary" ]} h in
  let h := update_Annotations annotations (planetscalev2.Annotations pool) h in
  let h :=
    match backupLocation with
    | Some bl => update_Annotations annotations (planetscalev2.blAnnotations bl) h
    | None => h
    end in
  (tablets ++
   [ tabletRecord vts keyspaceName pool backupLocation tabletIndex
       (Go.index (deref h (planetscalev2.ZoneMap spec)) cell)
       (Some labels) (Some extraFlags) (Some annotations) ],
   h).

(** The outer loop of [vttabletSpecs], over the pools in their order; within
    each pool, tablets are assigned a 1-based index. *)
Fixpoint poolSpecs (fuel : nat) (vts : planetscalev2.VitessShard)
  (parentLabels : MapRef) (keyspaceName : string)
  (pools : list planetscalev2.VitessShardTabletPool)
  (st : list vttablet.Spec * Heap) : option (list vttablet.Spec * Heap) :=
  match pools with
  | [] => Some st
  | pool :: rest =>
      (* Find the backup location for this pool. *)
      let backupLocation :=
        planetscalev2.BackupLocation (planetscalev2.Spec vts)
          (planetscalev2.BackupLocationName pool) in
      match Go.forInt32 fuel 1 (planetscalev2.Replicas pool)
              (tabletSpec vts parentLabels keyspaceName pool backupLocation) st
      with
      | Some st' => poolSpecs fuel vts parentLabels keyspaceName rest st'
      | None => None
      end
  end.

(** [vttabletSpecs] creates a list of vttablet Specs for a VitessShard.
    [None]: the bound [fuel] on the iterations of an inner loop was reached. *)
Definition vttabletSpecs (fuel : nat) (vts : planetscalev2.VitessShard)
  (parentLabels : MapRef) (h : Heap) : option (list vttablet.Spec * Heap) :=
  let keyspaceName := Go.index (deref h (planetscalev2.Labels vts)) KeyspaceLabel in
  poolSpecs fuel vts parentLabels keyspaceName
    (planetscalev2.TabletPools (planetscalev2.Spec vts)) ([], h).

End Compiler.

(** ** The topology service and the result builder *)

(** Go's [error], as its message. *)
Definition error : Type := string.

Record ShardInfo := { PrimaryAlias : option topodatapb.TabletAlias }.

(** An open connection: [ts.GetShard(ctx, keyspace, shard)]. *)
Record TopoConn := {
  GetShard : string -> string -> error + ShardInfo;
}.

(** [toposerver.Open(ctx, globalLockserver)]. *)
Record Toposerver := {
  Open : Blob -> error + TopoConn;
}.

(** The calls made to the topology service, in order. *)
Inductive TopoCall :=
  | CallOpen (lockserver : Blob)
  | CallGetShard (keyspace shard : string)
  | CallClose.

(** [topoproto.TabletAliasEqual(left, &right)]: a nil alias equals no
    alias that is set. *)
Definition TabletAliasEqual (left : option topodatapb.TabletAlias)
  (right : topodatapb.TabletAlias) : bool :=
  match left with
  | Some a => bool_decide (a = right)
  | None => false
  end.

(** [results.Builder] is defined in another package; what this file does to
    it is the sequence of calls it makes, so the builder is that sequence:
    the delays passed to [RequeueAfter] and the errors passed to [Error]. *)
Record Builder := {
  requeueAfterCalls : list Go.Duration;
  errorCalls : list error;
}.

Definition emptyBuilder : Builder :=
  {| requeueAfterCalls := []; errorCalls := [] |}.

Definition Builder_RequeueAfter (delay : Go.Duration) (b : Builder) : Builder :=
  {| requeueAfterCalls := requeueAfterCalls b ++ [delay];
     errorCalls := errorCalls b |}.

(** ** The state of one pass

    What the callbacks of [reconcileTablets] close over and change: the heap
    with the maps of the tablet specs, [tabletMap], the status of the shard,
    [deployedCells], [resultBuilder], and the record of the calls to the
    topology service. *)
Record PassState := {
  heap : Heap;
  tabletMap : gmap ObjectKey vttablet.Spec;
  status : planetscalev2.VitessShardStatus;
  deployedCells : gset string;
  resultBuilder : Builder;
  topoCalls : list TopoCall;
}.

Definition setHeap (h : Heap) (st : PassState) : PassState :=
  {| heap := h; tabletMap := tabletMap st; status := status st;
     deployedCells := deployedCells st; resultBuilder := resultBuilder st;
     topoCalls := topoCalls st |}.

Definition setTabletMap (m : gmap ObjectKey vttablet.Spec) (st : PassState)
  : PassState :=
  {| heap := heap st; tabletMap := m; status := status st;
     deployedCells := deployedCells st; resultBuilder := resultBuilder st;
     topoCalls := topoCalls st |}.

Definition setStatus (s : planetscalev2.VitessShardStatus) (st : PassState)
  : PassState :=
  {| heap := heap st; tabletMap := tabletMap st; status := s;
     deployedCells := deployedCells st; resultBuilder := resultBuilder st;
     topoCalls := topoCalls st |}.

Definition setDeployedCells (c : gset string) (st : PassState) : PassState :=
  {| heap := heap st; tabletMap := tabletMap st; status := status st;
     deployedCells := c; resultBuilder := resultBuilder st;
     topoCalls := topoCalls st |}.

Definition setResultBuilder (b : Builder) (st : PassState) : PassState :=
  {| heap := heap st; tabletMap := tabletMap st; status := status st;
     deployedCells := deployedCells st; resultBuilder := b;
     topoCalls := topoCalls st |}.

Definition setTopoCalls (l : list TopoCall) (st : PassState) : PassState :=
  {| heap := heap st; tabletMap := tabletMap st; status := status st;
     deployedCells := deployedCells st; resultBuilder := resultBuilder st;
     topoCalls := l |}.

(** Assignments to the fields of the shard status. *)
Definition setTablets (m : gmap string planetscalev2.VitessTabletStatus)
  (s : planetscalev2.VitessShardStatus) : planetscalev2.VitessShardStatus :=
  {| planetscalev2.Tablets := m;
     planetscalev2.OrphanedTablets := planetscalev2.OrphanedTablets s;
     planetscalev2.LowestPodGeneration := planetscalev2.LowestPodGeneration s;
     planetscalev2.Cells := planetscalev2.Cells s |}.

Definition setOrphanedTablets (m : gmap string planetscalev2.OrphanStatus)
  (s : planetscalev2.VitessShardStatus) : planetscalev2.VitessShardStatus :=
  {| planetscalev2.Tablets := planetscalev2.Tablets s;
     planetscalev2.OrphanedTablets := m;
     planetscalev2.LowestPodGeneration := planetscalev2.LowestPodGeneration s;
     planetscalev2.Cells := planetscalev2.Cells s |}.

Definition setLowestPodGeneration (g : Z)
  (s : planetscalev2.VitessShardStatus) : planetscalev2.VitessShardStatus :=
  {| planetscalev2.Tablets := planetscalev2.Tablets s;
     planetscalev2.OrphanedTablets := planetscalev2.OrphanedTablets s;
     planetscalev2.LowestPodGeneration := g;
     planetscalev2.Cells := planetscalev2.Cells s |}.

(** The zero value of [VitessTabletStatus], which reading a missing entry of
    [vts.Status.Tablets] gives. *)
Definition zeroTabletStatus : planetscalev2.VitessTabletStatus :=
  {| planetscalev2.PoolType := ""; planetscalev2.Index := 0;
     planetscalev2.Running := ""; planetscalev2.Ready := "";
     planetscalev2.Available := ""; planetscalev2.DataVolumeBound := "";
     planetscalev2.PendingChanges := "" |}.

(** [vts.Status.Tablets[aliasStr]]. *)
Definition tabletStatusOf (st : PassState) (aliasStr : string)
  : planetscalev2.VitessTabletStatus :=
  default zeroTabletStatus
    (planetscalev2.Tablets (status st) !! aliasStr).

(** [vts.Status.Tablets[aliasStr] = s]. *)
Definition putTabletStatus (aliasStr : string)
  (s : planetscalev2.VitessTabletStatus) (st : PassState) : PassState :=
  setStatus
    (setTablets (<[aliasStr := s]> (planetscalev2.Tablets (status st)))
       (status st)) st.

(** Assignments to the fields of a tablet status. *)
Definition setRunning (c : ConditionStatus)
  (s : planetscalev2.VitessTabletStatus) : planetscalev2.VitessTabletStatus :=
  {| planetscalev2.PoolType := planetscalev2.PoolType s;
     planetscalev2.Index := planetscalev2.Index s;
     planetscalev2.Running := c;
     planetscalev2.Ready := planetscalev2.Ready s;
     planetscalev2.Available := planetscalev2.Available s;
     planetscalev2.DataVolumeBound := planetscalev2.DataVolumeBound s;
     planetscalev2.PendingChanges := planetscalev2.PendingChanges s |}.

Definition setReady (c : ConditionStatus)
  (s : planetscalev2.VitessTabletStatus) : planetscalev2.VitessTabletStatus :=
  {| planetscalev2.PoolType := planetscalev2.PoolType s;
     planetscalev2.Index := planetscalev2.Index s;
     planetscalev2.Running := planetscalev2.Running s;
     planetscalev2.Ready := c;
     planetscalev2.Available := planetscalev2.Available s;
     planetscalev2.DataVolumeBound := planetscalev2.DataVolumeBound s;
     planetscalev2.PendingChanges := planetscalev2.PendingChanges s |}.

Definition setAvailable (c : ConditionStatus)
  (s : planetscalev2.VitessTabletStatus) : planetscalev2.VitessTabletStatus :=
  {| planetscalev2.PoolType := planetscalev2.PoolType s;
     planetscalev2.Index := planetscalev2.Index s;
     planetscalev2.Running := planetscalev2.Running s;
     planetscalev2.Ready := planetscalev2.Ready s;
     planetscalev2.Available := c;
     planetscalev2.DataVolumeBound := planetscalev2.DataVolumeBound s;
     planetscalev2.PendingChanges := planetscalev2.PendingChanges s |}.

Definition setDataVolumeBound (c : ConditionStatus)
  (s : planetscalev2.VitessTabletStatus) : planetscalev2.VitessTabletStatus :=
  {| planetscalev2.PoolType := planetscalev2.PoolType s;
     planetscalev2.Index := planetscalev2.Index s;
     planetscalev2.Running := planetscalev2.Running s;
     planetscalev2.Ready := planetscalev2.Ready s;
     planetscalev2.Available := planetscalev2.Available s;
     planetscalev2.DataVolumeBound := c;
     planetscalev2.PendingChanges := planetscalev2.PendingChanges s |}.

Definition setPendingChanges (p : string)
  (s : planetscalev2.VitessTabletStatus) : planetscalev2.VitessTabletStatus :=
  {| planetscalev2.PoolType := planetscalev2.PoolType s;
     planetscalev2.Index := planetscalev2.Index s;
     planetscalev2.Running := planetscalev2.Running s;
     planetscalev2.Ready := planetscalev2.Ready s;
     planetscalev2.Available := planetscalev2.Available s;
     planetscalev2.DataVolumeBound := planetscalev2.DataVolumeBound s;
     planetscalev2.PendingChanges := p |}.

(** [tablet.DataVolumePVCName = name]. *)
Definition setDataVolumePVCName (name : string) (t : vttablet.Spec)
  : vttablet.Spec :=
  {| vttablet.GlobalLockserver := vttablet.GlobalLockserver t;
     vttablet.Labels := vttablet.Labels t;
     vttablet.Images := vttablet.Images t;
     vttablet.ImagePullPolicies := vttablet.ImagePullPolicies t;
     vttablet.ImagePullSecrets := vttablet.ImagePullSecrets t;
     vttablet.Index := vttablet.Index t;
     vttablet.KeyRange := vttablet.KeyRange t;
     vttablet.Alias := vttablet.Alias t;
     vttablet.AliasStr := vttablet.AliasStr t;
     vttablet.Zone := vttablet.Zone t;
     vttablet.Vttablet := vttablet.Vttablet t;
     vttablet.Mysqld := vttablet.Mysqld t;
     vttablet.ExternalDatastore := vttablet.ExternalDatastore t;
     vttablet.Type_ := vttablet.Type_ t;
     vttablet.DataVolumePVCSpec := vttablet.DataVolumePVCSpec t;
     vttablet.DataVolumePVCName := name;
     vttablet.KeyspaceName := vttablet.KeyspaceName t;
     vttablet.DatabaseName := vttablet.DatabaseName t;
     vttablet.DatabaseInitScriptSecret := vttablet.DatabaseInitScriptSecret t;
     vttablet.Annotations := vttablet.Annotations t;
     vttablet.BackupLocation := vttablet.BackupLocation t;
     vttablet.BackupEngine := vttablet.BackupEngine t;
     vttablet.Affinity := vttablet.Affinity t;
     vttablet.ExtraEnv := vttablet.ExtraEnv t;
     vttablet.ExtraVolumes := vttablet.ExtraVolumes t;
     vttablet.ExtraLabels := vttablet.ExtraLabels t;
     vttablet.InitContainers := vttablet.InitContainers t;
     vttablet.SidecarContainers := vttablet.SidecarContainers t;
     vttablet.ExtraVolumeMounts := vttablet.ExtraVolumeMounts t;
     vttablet.Tolerations := vttablet.Tolerations t;
     vttablet.TopologySpreadConstraints :=
       vttablet.TopologySpreadConstraints t |}.

(** [pod.Annotations[k] = v], after the nil check of the caller. *)
Definition setPodAnnotation (k v : string) (pod : Pod) : Pod :=
  {| podKey := podKey pod; podLabels := podLabels pod;
     podAnnotations := Some (<[k := v]> (default ∅ (podAnnotations pod)));
     podDeletionTimestamp := podDeletionTimestamp pod;
     podPhase := podPhase pod; podConditions := podConditions pod |}.

(** ** The functions of the pass *)

Section Reconcile.
Context {E : Externals}.

(** [isTabletPrimary]: only the global shard record is checked for the
    primary alias.  The result is the pair that the Go function returns,
    with the calls it made appended to [calls]. *)
Definition isTabletPrimary (topo : Toposerver) (vts : planetscalev2.VitessShard)
  (h : Heap) (tabletAlias : topodatapb.TabletAlias) (calls : list TopoCall)
  : bool * option error * list TopoCall :=
  let lockserver := planetscalev2.GlobalLockserver (planetscalev2.Spec vts) in
  let calls := calls ++ [CallOpen lockserver] in
  match Open topo lockserver with
  | inl err => (true, Some err, calls)
  | inr ts =>
      (* defer ts.Close() *)
      let keyspaceName :=
        Go.index (deref h (planetscalev2.Labels vts)) KeyspaceLabel in
      let shardName := planetscalev2.Name (planetscalev2.Spec vts) in
      let calls := calls ++ [CallGetShard keyspaceName shardName] in
      match GetShard ts keyspaceName shardName with
      | inl err => (true, Some err, calls ++ [CallClose])
      | inr shard =>
          (TabletAliasEqual (PrimaryAlias shard) tabletAlias, None,
           calls ++ [CallClose])
      end
  end.

(** [tabletAvailableStatus]; [now] is the reading of [metav1.Now()]. *)
Definition tabletAvailableStatus (resultBuilder : Builder) (pod : Pod)
  (now : Timestamp) : ConditionStatus * Builder :=
  (* If the Pod is being deleted, we immediately mark it unavailable. *)
  match podDeletionTimestamp pod with
  | Some _ => (ConditionFalse, resultBuilder)
  | None =>
      (* A tablet is Available if it's been consistently Ready for long
         enough. *)
      if IsPodAvailable pod tabletAvailableSeconds now then
        (ConditionTrue, resultBuilder)
      else
        (* The Pod is Ready now, but it hasn't been Ready for long enough:
           request a manual requeue to check again later. *)
        (ConditionFalse,
         Builder_RequeueAfter (Go.toDuration tabletAvailableSeconds)
           resultBuilder)
  end.

(** [checkPVCFileSystemResizeCondition]: the first condition of the type
    decides. *)
Fixpoint checkConditions (conditions : list PVCCondition) : bool :=
  match conditions with
  | [] => false
  | condition :: rest =>
      if negb (String.eqb (ccType condition)
                 PersistentVolumeClaimFileSystemResizePending)
      then checkConditions rest
      else String.eqb (ccStatus condition) ConditionTrue
  end.

Definition checkPVCFileSystemResizeCondition (pvc : PersistentVolumeClaim)
  : bool :=
  checkConditions (pvcConditions pvc).

(** [updatePVCFilesystemResizeAnnotation].  It returns nothing; its effect
    is on the annotations map of the tablet spec, in the heap.  [None] is the
    panic of an assignment into a nil map. *)
Definition updatePVCFilesystemResizeAnnotation (client : Client)
  (tabletSpec : vttablet.Spec) (pod : Pod) (h : Heap) : option Heap :=
  (* If no PVC is configured for this tablet pod, bail out. *)
  match vttablet.DataVolumePVCSpec tabletSpec with
  | None => Some h
  | Some dataVolumePVCSpec =>
      let pvcKey :=
        {| Namespace := Namespace (podKey pod);
           Name := vttablet.DataVolumePVCName tabletSpec |} in
      (* If a matching PVC doesn't exist for this tablet pod, bail out. *)
      match getPVC client pvcKey with
      | inl _ => Some h
      | inr pvc =>
          (* Check that the ResourceStorage entry is there in the tablet
             spec. *)
          match pvcRequests dataVolumePVCSpec !! ResourceStorage with
          | None => Some h
          | Some requestedDiskQuantity =>
              (* If the PVC's spec has not been updated to equal the desired
                 size, bail. *)
              let currentDiskQuantity :=
                default zeroQuantity
                  (pvcRequests (pvcSpec pvc) !! ResourceStorage) in
              if negb (qValue currentDiskQuantity =? qValue requestedDiskQuantity)
              then Some h
              else if negb (checkPVCFileSystemResizeCondition pvc) then Some h
              else
                (* If all checks pass, set the resize annotation. *)
                match vttablet.Annotations tabletSpec with
                | Some l =>
                    Some (assign l pvcFilesystemResizeAnnotation
                            (qString requestedDiskQuantity) h)
                | None => None
                end
          end
      end
  end.

(** *** The strategy for volume claims

    A callback that dereferences [tabletMap[key]] panics when the key is not
    in the map; [None] stands for that panic. *)

Definition pvcNew (key : ObjectKey) (st : PassState)
  : option (PersistentVolumeClaim * PassState) :=
  tablet ← tabletMap st !! key;
  (* The PVC doesn't exist, so it can't be bound. *)
  let status := tabletStatusOf st (vttablet.AliasStr tablet) in
  let status := setDataVolumeBound ConditionFalse status in
  let st := putTabletStatus (vttablet.AliasStr tablet) status st in
  Some (vttablet_NewPVC key tablet (heap st), st).

Definition pvcUpdateInPlace (key : ObjectKey) (curObj : PersistentVolumeClaim)
  (st : PassState) : option PersistentVolumeClaim :=
  tablet ← tabletMap st !! key;
  Some (vttablet_UpdatePVCInPlace curObj tablet (heap st)).

Definition pvcStatus (key : ObjectKey) (curObj : PersistentVolumeClaim)
  (st : PassState) : option PassState :=
  tablet ← tabletMap st !! key;
  let status := tabletStatusOf st (vttablet.AliasStr tablet) in
  let status :=
    setDataVolumeBound
      (k8s_ConditionStatus (bool_decide (pvcPhase curObj = ClaimBound))) status in
  Some (putTabletStatus (vttablet.AliasStr tablet) status st).

(** [PrepareForTurndown] of the claims: gated on whether the Pod of the same
    key still exists. *)
Definition pvcPrepareForTurndown (client : Client) (key : ObjectKey)
  (obj : PersistentVolumeClaim) : option planetscalev2.OrphanStatus :=
  match getPod client key with
  | inr _ =>
      (* If the get was successful, the Pod exists. *)
      Some (planetscalev2.NewOrphanStatus "PodExists"
              "not deleting tablet PVC because tablet Pod still exists")
  | inl getErr =>
      if negb (IsNotFound getErr) then
        (* If the get failed for any reason other than NotFound, we don't
           know if it's safe. *)
        Some (planetscalev2.NewOrphanStatus "PodExists"
                "not deleting tablet PVC because tablet Pod still exists")
      else None
  end.

(** *** The strategy for pods *)

Definition podNew (key : ObjectKey) (st : PassState) : option (Pod * PassState) :=
  tablet ← tabletMap st !! key;
  (* The Pod doesn't exist, so it can't be running or ready. *)
  let tabletStatus := tabletStatusOf st (vttablet.AliasStr tablet) in
  let tabletStatus := setRunning ConditionFalse tabletStatus in
  let tabletStatus := setReady ConditionFalse tabletStatus in
  let tabletStatus := setAvailable ConditionFalse tabletStatus in
  let st := putTabletStatus (vttablet.AliasStr tablet) tabletStatus st in
  Some (vttablet_NewPod key tablet (heap st), st).

Definition podUpdateInPlace (vts : planetscalev2.VitessShard) (key : ObjectKey)
  (newObj : Pod) (st : PassState) : option Pod :=
  tablet ← tabletMap st !! key;
  let newObj := vttablet_UpdatePodInPlace newObj tablet (heap st) in
  Some (setPodAnnotation observedShardGenerationAnnotationKey
          (Go.FormatInt (planetscalev2.Generation vts)) newObj).

Definition podUpdateRollingRecreate (client : Client) (key : ObjectKey)
  (newObj : Pod) (st : PassState) : option (Pod * PassState) :=
  tablet ← tabletMap st !! key;
  h ← updatePVCFilesystemResizeAnnotation client tablet newObj (heap st);
  Some (vttablet_UpdatePod newObj tablet h, setHeap h st).

Definition podStatus (now : Timestamp) (key : ObjectKey) (pod : Pod)
  (st : PassState) : option PassState :=
  tablet ← tabletMap st !! key;
  let tabletStatus := tabletStatusOf st (vttablet.AliasStr tablet) in
  let tabletStatus :=
    setRunning
      (k8s_ConditionStatus (bool_decide (podPhase pod = PodRunning)))
      tabletStatus in
  let '(tabletStatus, rb) :=
    if IsPodReady pod then
      let '(available, rb) := tabletAvailableStatus (resultBuilder st) pod now in
      (setAvailable available (setReady ConditionTrue tabletStatus), rb)
    else (tabletStatus, resultBuilder st) in
  let tabletStatus :=
    setPendingChanges (podAnnotation pod rollout_ScheduledAnnotation)
      tabletStatus in
  let st :=
    putTabletStatus (vttablet.AliasStr tablet) tabletStatus
      (setResultBuilder rb st) in
  let observedShardGenerationVal :=
    podAnnotation pod observedShardGenerationAnnotationKey in
  if String.eqb observedShardGenerationVal "" then Some st
  else
    match Go.ParseInt observedShardGenerationVal with
    | None => Some st
    | Some observedShardGeneration =>
        let lowest := planetscalev2.LowestPodGeneration (status st) in
        if (lowest =? 0) || (observedShardGeneration <? lowest) then
          Some (setStatus
                  (setLowestPodGeneration observedShardGeneration (status st))
                  st)
        else Some st
    end.

Definition podOrphanStatus (key : ObjectKey) (curObj : Pod)
  (orphanStatus : planetscalev2.OrphanStatus) (st : PassState) : PassState :=
  let tabletAlias := vttablet_AliasFromPod curObj in
  let tabletAliasStr := TabletAliasString tabletAlias in
  let st :=
    setStatus
      (setOrphanedTablets
         (<[tabletAliasStr := orphanStatus]>
            (planetscalev2.OrphanedTablets (status st)))
         (status st)) st in
  (* Since we're keeping this tablet, remember that we're still in that
     cell. *)
  setDeployedCells ({[ topodatapb.Cell tabletAlias ]} ∪ deployedCells st) st.

(** The loop over [vts.Status.Tablets] in [PrepareForTurndown]: it returns at
    the first tablet that is not Ready, in whatever order the map is ranged
    over, so it falls through exactly when every tablet is Ready. *)
Definition allTabletsReady (st : PassState) : bool :=
  bool_decide
    (map_Forall (fun _ tablet => planetscalev2.Ready tablet = ConditionTrue)
       (planetscalev2.Tablets (status st))).

(** [PrepareForTurndown] of the pods.  The result is the orphan status (nil
    authorizes the deletion), the pod, which [drain.Start] may have changed,
    and the state. *)
Definition podPrepareForTurndown (topo : Toposerver)
  (vts : planetscalev2.VitessShard) (key : ObjectKey) (curObj : Pod)
  (st : PassState) : option planetscalev2.OrphanStatus * Pod * PassState :=
  let tabletAlias := vttablet_AliasFromPod curObj in
  (* Drain before turn-down. *)
  if negb (drain_Finished curObj) then
    let curObj := drain_Start curObj "turning down unwanted tablet" in
    (Some (planetscalev2.NewOrphanStatus "Draining"
             "waiting for the tablet to be drained before turn-down"),
     curObj, st)
  else
    (* Make sure the tablet is not the primary. *)
    let '(isPrimary, err, calls) :=
      isTabletPrimary topo vts (heap st) tabletAlias (topoCalls st) in
    let st := setTopoCalls calls st in
    match err with
    | Some _ =>
        (Some (planetscalev2.NewOrphanStatus "PrimaryUnknown"
                 "unable to determine whether this tablet is the primary"),
         curObj, st)
    | None =>
        if isPrimary then
          (Some (planetscalev2.NewOrphanStatus "Primary"
                   "this tablet is the primary"),
           curObj, st)
        else if negb (allTabletsReady st) then
          (* Make sure the desired tablets are healthy before removing
             one. *)
          (Some (planetscalev2.NewOrphanStatus "ShardNotHealthy"
                   "the remaining, desired tablets in the shard are not all healthy"),
           curObj, st)
        else (None, curObj, st)
    end.

(** *** The start of [reconcileTablets] *)

(** The body of the loop over the desired tablets: the keys of the pod and
    of its claim, [tabletMap], [deployedCells], and a status entry for every
    desired tablet. *)
Definition registerTablet (clusterName namespace : string)
  (acc : list ObjectKey * list ObjectKey * PassState) (tablet : vttablet.Spec)
  : list ObjectKey * list ObjectKey * PassState :=
  let '(pvcKeys, podKeys, st) := acc in
  let podName := vttablet_PodName clusterName (vttablet.Alias tablet) in
  let key := {| Namespace := namespace; Name := podName |} in
  let '(tablet, pvcKeys) :=
    match vttablet.DataVolumePVCSpec tablet with
    | Some _ =>
        (* We use the same name for the Pod and the main data volume PVC. *)
        (setDataVolumePVCName podName tablet, pvcKeys ++ [key])
    | None => (tablet, pvcKeys)
    end in
  let podKeys := podKeys ++ [key] in
  let st := setTabletMap (<[key := tablet]> (tabletMap st)) st in
  let st :=
    setDeployedCells
      ({[ topodatapb.Cell (vttablet.Alias tablet) ]} ∪ deployedCells st) st in
  (* Initialize a status entry for every desired tablet, so it will be
     listed even if we end up not having anything to report about it. *)
  let st :=
    putTabletStatus (vttablet.AliasStr tablet)
      (NewVitessTabletStatus (vttablet.Type_ tablet) (vttablet.Index tablet))
      st in
  (pvcKeys, podKeys, st).

(** [reconcileTablets] up to the loop over the desired tablets: the cluster
    name, the labels, and the set of all desired tablets. *)
Definition desiredTablets (fuel : nat) (vts : planetscalev2.VitessShard)
  (h : Heap) : option (string * list vttablet.Spec * Heap) :=
  let vtsLabels := deref h (planetscalev2.Labels vts) in
  let clusterName := Go.index vtsLabels ClusterLabel in
  let '(labels, h) :=
    make
      (<[ShardLabel :=
           KeyRange_SafeName (planetscalev2.KeyRange (planetscalev2.Spec vts))]>
         (<[KeyspaceLabel := Go.index vtsLabels KeyspaceLabel]>
            (<[ClusterLabel := Go.index vtsLabels ClusterLabel]>
               {[ ComponentLabel := VttabletComponentName ]}))) h in
  (* Compute the set of all desired tablets based on the config. *)
  '(tablets, h) ← vttabletSpecs fuel vts (Some labels) h;
  Some (clusterName, tablets, h).

(** The state a pass starts from: nothing registered, no call made. *)
Definition startState (status0 : planetscalev2.VitessShardStatus) (h : Heap)
  : PassState :=
  {| heap := h; tabletMap := ∅; status := status0; deployedCells := ∅;
     resultBuilder := emptyBuilder; topoCalls := [] |}.

(** [reconcileTablets] up to the first call of the reconciler.  Its inputs
    are the shard, the status the pass starts from and the heap: no object
    of the cluster has been read yet. *)
Definition reconcileTabletsStart (fuel : nat) (vts : planetscalev2.VitessShard)
  (status0 : planetscalev2.VitessShardStatus) (h : Heap)
  : option (list ObjectKey * list ObjectKey * PassState) :=
  '(clusterName, tablets, h) ← desiredTablets fuel vts h;
  Some
    (fold_left (registerTablet clusterName (planetscalev2.vtsNamespace vts))
       tablets ([], [], startState status0 h)).

End Reconcile.

(** ** Views and drivers used by the statements *)

(** Modelled from the spec: what the object-set reconciler, whose code is in
    package [reconciler], does with a live object that is not desired.  It
    "calls PrepareForTurndown — if it returns a non-nil orphan status, the
    object is left alone and OrphanStatus is invoked to record the reason;
    if it returns nil, the object is deleted". *)
Inductive Disposition :=
  | Retained (reason : planetscalev2.OrphanStatus)
  | Deleted.

Definition disposition (r : option planetscalev2.OrphanStatus) : Disposition :=
  match r with
  | Some o => Retained o
  | None => Deleted
  end.

(** What a tablet spec holds once its maps are read through the heap: the
    spec with the addresses erased, and the contents of its four maps. *)
Definition eraseRefs (t : vttablet.Spec) : vttablet.Spec :=
  {| vttablet.GlobalLockserver := vttablet.GlobalLockserver t;
     vttablet.Labels := None;
     vttablet.Images := vttablet.Images t;
     vttablet.ImagePullPolicies := vttablet.ImagePullPolicies t;
     vttablet.ImagePullSecrets := vttablet.ImagePullSecrets t;
     vttablet.Index := vttablet.Index t;
     vttablet.KeyRange := vttablet.KeyRange t;
     vttablet.Alias := vttablet.Alias t;
     vttablet.AliasStr := vttablet.AliasStr t;
     vttablet.Zone := vttablet.Zone t;
     vttablet.Vttablet :=
       {| planetscalev2.ExtraFlags := None;
          planetscalev2.vttabletRest :=
            planetscalev2.vttabletRest (vttablet.Vttablet t) |};
     vttablet.Mysqld := vttablet.Mysqld t;
     vttablet.ExternalDatastore := vttablet.ExternalDatastore t;
     vttablet.Type_ := vttablet.Type_ t;
     vttablet.DataVolumePVCSpec := vttablet.DataVolumePVCSpec t;
     vttablet.DataVolumePVCName := vttablet.DataVolumePVCName t;
     vttablet.KeyspaceName := vttablet.KeyspaceName t;
     vttablet.DatabaseName := vttablet.DatabaseName t;
     vttablet.DatabaseInitScriptSecret := vttablet.DatabaseInitScriptSecret t;
     vttablet.Annotations := None;
     vttablet.BackupLocation :=
       (fun bl =>
          {| planetscalev2.blName := planetscalev2.blName bl;
             planetscalev2.blAnnotations := None;
             planetscalev2.blRest := planetscalev2.blRest bl |})
       <$> vttablet.BackupLocation t;
     vttablet.BackupEngine := vttablet.BackupEngine t;
     vttablet.Affinity := vttablet.Affinity t;
     vttablet.ExtraEnv := vttablet.ExtraEnv t;
     vttablet.ExtraVolumes := vttablet.ExtraVolumes t;
     vttablet.ExtraLabels := None;
     vttablet.InitContainers := vttablet.InitContainers t;
     vttablet.SidecarContainers := vttablet.SidecarContainers t;
     vttablet.ExtraVolumeMounts := vttablet.ExtraVolumeMounts t;
     vttablet.Tolerations := vttablet.Tolerations t;
     vttablet.TopologySpreadConstraints :=
       vttablet.TopologySpreadConstraints t |}.

Record SpecContent := {
  scFields : vttablet.Spec;
  scLabels : gmap string string;
  scExtraFlags : gmap string string;
  scAnnotations : gmap string string;
  scExtraLabels : gmap string string;
  scBackupAnnotations : gmap string string;
}.

Definition content (h : Heap) (t : vttablet.Spec) : SpecContent :=
  {| scFields := eraseRefs t;
     scLabels := deref h (vttablet.Labels t);
     scExtraFlags :=
       deref h (planetscalev2.ExtraFlags (vttablet.Vttablet t));
     scAnnotations := deref h (vttablet.Annotations t);
     scExtraLabels := deref h (vttablet.ExtraLabels t);
     scBackupAnnotations :=
       deref h
         (bl ← vttablet.BackupLocation t; planetscalev2.blAnnotations bl) |}.

(** A reference that is nil or an address of the heap. *)
Definition validRef (h : Heap) (r : MapRef) : Prop :=
  match r with
  | Some l => (l < List.length h)%nat
  | None => True
  end.

(** The references that [vttabletSpecs] reads through are valid: no input
    points outside the heap. *)
Definition validPool (h : Heap) (pool : planetscalev2.VitessShardTabletPool)
  : Prop :=
  validRef h (planetscalev2.ExtraFlags (planetscalev2.Vttablet pool)) /\
  validRef h (planetscalev2.Annotations pool) /\
  validRef h (planetscalev2.ExtraLabels pool).

Definition validInputs (h : Heap) (vts : planetscalev2.VitessShard)
  (parentLabels : MapRef) : Prop :=
  validRef h parentLabels /\
  validRef h (planetscalev2.Labels vts) /\
  validRef h (planetscalev2.ExtraVitessFlags (planetscalev2.Spec vts)) /\
  validRef h (planetscalev2.ZoneMap (planetscalev2.Spec vts)) /\
  Forall (validPool h) (planetscalev2.TabletPools (planetscalev2.Spec vts)) /\
  Forall (fun bl => validRef h (planetscalev2.blAnnotations bl))
    (planetscalev2.BackupLocations (planetscalev2.Spec vts)).

(** Every pool asks for fewer than [MaxInt32] replicas, and [fuel] exceeds
    each count: the inner loops end within the bound. *)
Definition replicasBelow (fuel : nat) (vts : planetscalev2.VitessShard) : Prop :=
  Forall
    (fun pool =>
       planetscalev2.Replicas pool < Go.MaxInt32 /\
       0 `max` planetscalev2.Replicas pool < Z.of_nat fuel)
    (planetscalev2.TabletPools (planetscalev2.Spec vts)).

(** What [checkPVCFileSystemResizeCondition] is to decide: the claim's
    condition of type FileSystemResizePending, the first of that type in the
    list of its conditions, has status True. *)
Definition resizePendingCondition (pvc : PersistentVolumeClaim)
  : option PVCCondition :=
  List.find
    (fun c => String.eqb (ccType c) PersistentVolumeClaimFileSystemResizePending)
    (pvcConditions pvc).

Definition resizePending (pvc : PersistentVolumeClaim) : Prop :=
  exists c, resizePendingCondition pvc = Some c /\ ccStatus c = ConditionTrue.

(** The storage size a claim requests now; a claim with no request reads as
    the zero quantity. *)
Definition currentDiskQuantity (pvc : PersistentVolumeClaim) : Quantity :=
  default zeroQuantity (pvcRequests (pvcSpec pvc) !! ResourceStorage).

(** The five conditions under which a rolling recreate of [pod] arms the
    resize: the tablet spec configures a data volume, the paired claim is
    fetched, the spec requests storage ([requested]), the claim requests the
    same size, and the claim's resize is pending on the filesystem. *)
Definition resizeReady (client : Client) (tabletSpec : vttablet.Spec)
  (pod : Pod) (requested : Quantity) : Prop :=
  exists dataVolumePVCSpec pvc,
    vttablet.DataVolumePVCSpec tabletSpec = Some dataVolumePVCSpec /\
    getPVC client
      {| Namespace := Namespace (podKey pod);
         Name := vttablet.DataVolumePVCName tabletSpec |} = inr pvc /\
    pvcRequests dataVolumePVCSpec !! ResourceStorage = Some requested /\
    qValue (currentDiskQuantity pvc) = qValue requested /\
    resizePending pvc.

(** The minimum of a list of generations; 0, the unset sentinel, for none. *)
Definition lowestOf (gens : list Z) : Z :=
  match gens with
  | [] => 0
  | g :: rest => fold_left Z.min rest g
  end.

Section Drivers.
Context {E : Externals}.

(** The [Status] callback of the pods, called for each of [pods] in turn, as
    the reconciler does for the desired pods that exist. *)
Fixpoint podStatusAll (now : Timestamp) (pods : list (ObjectKey * Pod))
  (st : PassState) : option PassState :=
  match pods with
  | [] => Some st
  | (key, pod) :: rest =>
      match podStatus now key pod st with
      | Some st' => podStatusAll now rest st'
      | None => None
      end
  end.

(** The generations that [Status] reads off pods: the annotations that are
    set and parse. *)
Definition observedGenerations (pods : list (ObjectKey * Pod)) : list Z :=
  omap
    (fun kp =>
       Go.ParseInt (podAnnotation kp.2 observedShardGenerationAnnotationKey))
    pods.

(** One invocation of a callback that changes the state of the pass, by the
    reconciler, on any key and object it chooses. *)
Inductive callbackStep (client : Client) (topo : Toposerver)
  (vts : planetscalev2.VitessShard) (now : Timestamp)
  : PassState -> PassState -> Prop :=
  | step_pvcNew key obj st st' :
      pvcNew key st = Some (obj, st') -> callbackStep client topo vts now st st'
  | step_pvcStatus key obj st st' :
      pvcStatus key obj st = Some st' -> callbackStep client topo vts now st st'
  | step_podNew key obj st st' :
      podNew key st = Some (obj, st') -> callbackStep client topo vts now st st'
  | step_podUpdateRollingRecreate key obj obj' st st' :
      podUpdateRollingRecreate client key obj st = Some (obj', st') ->
      callbackStep client topo vts now st st'
  | step_podStatus key obj st st' :
      podStatus now key obj st = Some st' -> callbackStep client topo vts now st st'
  | step_podOrphanStatus key obj orphanStatus st :
      callbackStep client topo vts now st
        (podOrphanStatus key obj orphanStatus st)
  | step_podPrepareForTurndown key obj st :
      callbackStep client topo vts now st
        (podPrepareForTurndown topo vts key obj st).2.

(** The states of a pass: the state after the start of [reconcileTablets],
    and any state reached from it by callbacks. *)
Inductive passState (client : Client) (topo : Toposerver)
  (vts : planetscalev2.VitessShard) (now : Timestamp) (st0 : PassState)
  : PassState -> Prop :=
  | pass_start : passState client topo vts now st0 st0
  | pass_step st st' :
      passState client topo vts now st0 st ->
      callbackStep client topo vts now st st' ->
      passState client topo vts now st0 st'.

(** The tablets that [vttabletSpecs] emits, as a list comprehension over the
    pools: the indices of a pool and the UID of each.  Used to state what the
    loops compute. *)
Definition poolIndices (pool : planetscalev2.VitessShardTabletPool) : list Z :=
  seqZ 1 (planetscalev2.Replicas pool).

Definition poolUIDs (keyspaceName : string)
  (keyRange : planetscalev2.VitessKeyRange)
  (pool : planetscalev2.VitessShardTabletPool) : list Z :=
  (fun i =>
     vttablet_UID (planetscalev2.Cell pool) keyspaceName keyRange
       (planetscalev2.Type_ pool) i) <$> poolIndices pool.

(** The loops of [vttabletSpecs] as folds: over the indices of a pool, and
    over the pools. *)
Definition poolFold (vts : planetscalev2.VitessShard) (parentLabels : MapRef)
  (keyspaceName : string) (st : list vttablet.Spec * Heap)
  (pool : planetscalev2.VitessShardTabletPool) : list vttablet.Spec * Heap :=
  fold_left
    (fun s i =>
       tabletSpec vts parentLabels keyspaceName pool
         (planetscalev2.BackupLocation (planetscalev2.Spec vts)
            (planetscalev2.BackupLocationName pool)) i s)
    (poolIndices pool) st.

Definition shardFold (vts : planetscalev2.VitessShard) (parentLabels : MapRef)
  (keyspaceName : string) (pools : list planetscalev2.VitessShardTabletPool)
  (st : list vttablet.Spec * Heap) : list vttablet.Spec * Heap :=
  fold_left (poolFold vts parentLabels keyspaceName) pools st.

(** The identity that the compiler gives tablet [i] of [pool]: cell, type,
    index and UID. *)
Definition identityOf (keyspaceName : string)
  (keyRange : planetscalev2.VitessKeyRange)
  (pool : planetscalev2.VitessShardTabletPool) (i : Z)
  : string * string * Z * Z :=
  (planetscalev2.Cell pool, planetscalev2.Type_ pool, i,
   vttablet_UID (planetscalev2.Cell pool) keyspaceName keyRange
     (planetscalev2.Type_ pool) i).

Definition identity (t : vttablet.Spec) : string * string * Z * Z :=
  (topodatapb.Cell (vttablet.Alias t), vttablet.Type_ t, vttablet.Index t,
   topodatapb.Uid (vttablet.Alias t)).

(** No UID assigned in one pool is assigned in another pool of the list. *)
Definition noReuseAcrossPools (keyspaceName : string)
  (keyRange : planetscalev2.VitessKeyRange)
  (pools : list planetscalev2.VitessShardTabletPool) : Prop :=
  forall (i j : nat) p q u,
    i <> j -> pools !! i = Some p -> pools !! j = Some q ->
    u ∈ poolUIDs keyspaceName keyRange p ->
    u ∉ poolUIDs keyspaceName keyRange q.

(** [vttablet.UID] does not collide on the identities of the shard. *)
Definition uidInjectiveOn (keyspaceName : string)
  (keyRange : planetscalev2.VitessKeyRange)
  (pools : list planetscalev2.VitessShardTabletPool) : Prop :=
  forall p q i j,
    p ∈ pools -> q ∈ pools -> i ∈ poolIndices p -> j ∈ poolIndices q ->
    vttablet_UID (planetscalev2.Cell p) keyspaceName keyRange
      (planetscalev2.Type_ p) i =
    vttablet_UID (planetscalev2.Cell q) keyspaceName keyRange
      (planetscalev2.Type_ q) j ->
    planetscalev2.Cell p = planetscalev2.Cell q /\
    planetscalev2.Type_ p = planetscalev2.Type_ q /\ i = j.

(** The contents of the spec of tablet [i] of [pool], from the contents that
    the inputs have in heap [h]: the labels are the parent labels with the
    four tablet labels set, the extra flags the global flags overridden by
    the pool's, the annotations the drain annotation overridden by the
    pool's and then by the backup location's. *)
Definition tabletContent (h : Heap) (vts : planetscalev2.VitessShard)
  (parentLabels : MapRef) (keyspaceName : string)
  (pool : planetscalev2.VitessShardTabletPool)
  (backupLocation : option planetscalev2.VitessBackupLocation) (i : Z)
  : SpecContent :=
  let spec := planetscalev2.Spec vts in
  let cell := planetscalev2.Cell pool in
  let uid :=
    vttablet_UID cell keyspaceName (planetscalev2.KeyRange spec)
      (planetscalev2.Type_ pool) (Go.uint32 i) in
  let poolAnnotations :=
    deref h (planetscalev2.Annotations pool) ∪
    {[ drain_SupportedAnnotation := "ensure that the tablet is not a primary" ]} in
  {| scFields :=
       eraseRefs
         (tabletRecord vts keyspaceName pool backupLocation i
            (Go.index (deref h (planetscalev2.ZoneMap spec)) cell)
            None None None);
     scLabels :=
       <[TabletIndexLabel := Go.FormatUint (i mod 2 ^ 64)]>
         (<[TabletTypeLabel := planetscalev2.Type_ pool]>
            (<[TabletUidLabel := Go.FormatUint uid]>
               (<[CellLabel := cell]> (deref h parentLabels ∪ ∅))));
     scExtraFlags :=
       deref h (planetscalev2.ExtraFlags (planetscalev2.Vttablet pool)) ∪
       (deref h (planetscalev2.ExtraVitessFlags spec) ∪ ∅);
     scAnnotations :=
       match backupLocation with
       | Some bl => deref h (planetscalev2.blAnnotations bl) ∪ poolAnnotations
       | None => poolAnnotations
       end;
     scExtraLabels := deref h (planetscalev2.ExtraLabels pool);
     scBackupAnnotations :=
       deref h (bl ← backupLocation; planetscalev2.blAnnotations bl) |}.

(** The contents of all the specs of a shard, pool by pool, index by
    index. *)
Definition expectedContents (h : Heap) (vts : planetscalev2.VitessShard)
  (parentLabels : MapRef) : list SpecContent :=
  let keyspaceName :=
    Go.index (deref h (planetscalev2.Labels vts)) KeyspaceLabel in
  pool ← planetscalev2.TabletPools (planetscalev2.Spec vts);
  tabletContent h vts parentLabels keyspaceName pool
    (planetscalev2.BackupLocation (planetscalev2.Spec vts)
       (planetscalev2.BackupLocationName pool))
  <$> poolIndices pool.

(** The references of a spec are valid. *)
Definition validSpec (h : Heap) (t : vttablet.Spec) : Prop :=
  validRef h (vttablet.Labels t) /\
  validRef h (planetscalev2.ExtraFlags (vttablet.Vttablet t)) /\
  validRef h (vttablet.Annotations t) /\
  validRef h (vttablet.ExtraLabels t) /\
  validRef h (bl ← vttablet.BackupLocation t; planetscalev2.blAnnotations bl).

(** The references that the body of the loop reads through. *)
Definition stepInputsValid (h : Heap) (vts : planetscalev2.VitessShard)
  (parentLabels : MapRef) (pool : planetscalev2.VitessShardTabletPool)
  (backupLocation : option planetscalev2.VitessBackupLocation) : Prop :=
  validRef h parentLabels /\
  validRef h (planetscalev2.ExtraVitessFlags (planetscalev2.Spec vts)) /\
  validRef h (planetscalev2.ZoneMap (planetscalev2.Spec vts)) /\
  validPool h pool /\
  validRef h (bl ← backupLocation; planetscalev2.blAnnotations bl).

(** What the compiler keeps of the template of a tablet's pool: the backup
    location found for the pool, the template's other fields, and extra
    flags in a map that did not exist in heap [h]. *)
Definition copiedFrom (h : Heap) (vts : planetscalev2.VitessShard)
  (pools : list planetscalev2.VitessShardTabletPool) (t : vttablet.Spec)
  : Prop :=
  exists pool,
    pool ∈ pools /\
    vttablet.BackupLocation t =
    planetscalev2.BackupLocation (planetscalev2.Spec vts)
      (planetscalev2.BackupLocationName pool) /\
    planetscalev2.vttabletRest (vttablet.Vttablet t) =
    planetscalev2.vttabletRest (planetscalev2.Vttablet pool) /\
    exists l,
      planetscalev2.ExtraFlags (vttablet.Vttablet t) = Some l /\
      (List.length h <= l)%nat.

(** What one [Status] call does to the lowest observed generation, given
    the parse of the pod's annotation. *)
Definition observeGeneration (lowest : Z) (g : Z) : Z :=
  if (lowest =? 0) || (g <? lowest) then g else lowest.

(** The statement that the lowest observed generation recorded after the
    [Status] calls on [pods] is the minimum of the generations read. *)
Definition lowestIsMinimum (now : Timestamp) (pods : list (ObjectKey * Pod))
  (st : PassState) : Prop :=
  exists st',
    podStatusAll now pods st = Some st' /\
    planetscalev2.LowestPodGeneration (status st') =
    lowestOf (observedGenerations pods).

End Drivers.


(** ** The functions of [podutils]

    [k8s.io/kubectl/pkg/util/podutils], a library of Kubernetes, as the
    library has them.  A zero [metav1.Time] is instant 0. *)

Module podutils.

(** [corev1.PodReady]. *)
Definition PodReady : string := "Ready".

(** [GetPodReadyCondition]: the first condition of type Ready in the status
    of the pod, or nil. *)
Definition GetPodReadyCondition (pod : Pod) : option PodCondition :=
  List.find (fun c => String.eqb (pcType c) PodReady) (podConditions pod).

(** [IsPodReady]: the Ready condition is there and its status is True. *)
Definition IsPodReady (pod : Pod) : bool :=
  match GetPodReadyCondition pod with
  | Some c => String.eqb (pcStatus c) ConditionTrue
  | None => false
  end.

(** [IsPodAvailable]: the pod is Ready and, unless [minReadySeconds] is 0,
    the last transition of its Ready condition is set and
    [c.LastTransitionTime.Add(minReadySecondsDuration).Before(now)]. *)
Definition IsPodAvailable (pod : Pod) (minReadySeconds : Z) (now : Timestamp)
  : bool :=
  if negb (IsPodReady pod) then false
  else
    match GetPodReadyCondition pod with
    | Some c =>
        let minReadySecondsDuration :=
          Go.toDuration minReadySeconds * Go.Second in
        (minReadySeconds =? 0) ||
        (negb (pcLastTransitionTime c =? 0) &&
         (pcLastTransitionTime c + minReadySecondsDuration <? now))
    | None => false
    end.

End podutils.

(** ** What it is for a pod to have been Ready for some time

    [c] is the Ready condition of the pod: the first of its conditions of
    type Ready. *)
Definition isReadyConditionOf (pod : Pod) (c : PodCondition) : Prop :=
  exists before after,
    podConditions pod = before ++ c :: after /\
    Forall (fun c' => pcType c' <> "Ready") before /\
    pcType c = "Ready".

(** The pod has been Ready for more than [d]: its Ready condition is True
    since an instant that is set and lies more than [d] before [now]. *)
Definition readyForMoreThan (pod : Pod) (d : Go.Duration) (now : Timestamp)
  : Prop :=
  exists c,
    isReadyConditionOf pod c /\ pcStatus c = ConditionTrue /\
    pcLastTransitionTime c <> 0 /\ pcLastTransitionTime c + d < now.

(** The pod has been Ready for at least [d]. *)
Definition readyForAtLeast (pod : Pod) (d : Go.Duration) (now : Timestamp)
  : Prop :=
  exists c,
    isReadyConditionOf pod c /\ pcStatus c = ConditionTrue /\
    pcLastTransitionTime c <> 0 /\ pcLastTransitionTime c + d <= now.

(** ** Further views used by the statements *)

Section FurtherViews.
Context {E : Externals}.

(** The key that [reconcileTablets] gives the pod of a tablet, and its data
    volume claim. *)
Definition podKeyOf (clusterName namespace : string) (tablet : vttablet.Spec)
  : ObjectKey :=
  {| Namespace := namespace;
     Name := vttablet_PodName clusterName (vttablet.Alias tablet) |}.

(** The tablets that have a data volume claim. *)
Definition hasDataVolume (tablet : vttablet.Spec) : Prop :=
  is_Some (vttablet.DataVolumePVCSpec tablet).

(** The number of tablets that the pools ask for: a pool with no replica,
    or fewer, asks for none. *)
Definition replicaCount (pools : list planetscalev2.VitessShardTabletPool) : nat :=
  sum_list ((fun pool => Z.to_nat (planetscalev2.Replicas pool)) <$> pools).

(** The labels of a tablet, key by key: the four tablet labels, the index
    assigned last, over the parent labels. *)
Definition tabletLabel (parent : gmap string string) (t : vttablet.Spec)
  (k : string) : option string :=
  if decide (k = TabletIndexLabel) then
    Some (Go.FormatUint (vttablet.Index t mod 2 ^ 64))
  else if decide (k = TabletTypeLabel) then Some (vttablet.Type_ t)
  else if decide (k = TabletUidLabel) then
    Some (Go.FormatUint (topodatapb.Uid (vttablet.Alias t)))
  else if decide (k = CellLabel) then Some (topodatapb.Cell (vttablet.Alias t))
  else parent !! k.

(** The pool of each tablet of the shard, in the order of the specs. *)
Definition tabletPools (pools : list planetscalev2.VitessShardTabletPool)
  : list planetscalev2.VitessShardTabletPool :=
  pool ← pools; (fun _ : Z => pool) <$> poolIndices pool.

(** The annotation of key [k] for a tablet of [pool]: the one of the pool's
    backup location, else the pool's, else the drain annotation. *)
Definition mergedAnnotation (h : Heap) (vts : planetscalev2.VitessShard)
  (pool : planetscalev2.VitessShardTabletPool) (k : string) : option string :=
  let backupLocation :=
    planetscalev2.BackupLocation (planetscalev2.Spec vts)
      (planetscalev2.BackupLocationName pool) in
  match deref h (bl ← backupLocation; planetscalev2.blAnnotations bl) !! k with
  | Some v => Some v
  | None =>
      match deref h (planetscalev2.Annotations pool) !! k with
      | Some v => Some v
      | None =>
          if decide (k = drain_SupportedAnnotation)
          then Some "ensure that the tablet is not a primary" else None
      end
  end.

(** The extra flag of key [k] for a tablet of [pool]: the pool's, else the
    shard's. *)
Definition mergedFlag (h : Heap) (vts : planetscalev2.VitessShard)
  (pool : planetscalev2.VitessShardTabletPool) (k : string) : option string :=
  match deref h (planetscalev2.ExtraFlags (planetscalev2.Vttablet pool)) !! k with
  | Some v => Some v
  | None =>
      deref h (planetscalev2.ExtraVitessFlags (planetscalev2.Spec vts)) !! k
  end.

(** The cells of the pools that ask for at least one tablet. *)
Definition populatedCells (pools : list planetscalev2.VitessShardTabletPool)
  : gset string :=
  list_to_set
    (planetscalev2.Cell
       <$> filter (fun pool => 0 < planetscalev2.Replicas pool) pools).

(** The environment's [IsPodAvailable] is the one of [podutils]. *)
Definition followsPodutils : Prop :=
  forall pod minReadySeconds now,
    IsPodAvailable pod minReadySeconds now =
    podutils.IsPodAvailable pod minReadySeconds now.

(** The statement that a pod is Available exactly when it is not being
    deleted and has been Ready for at least the 30 seconds of the
    threshold. *)
Definition availableAtThreshold : Prop :=
  forall resultBuilder pod now,
    (tabletAvailableStatus resultBuilder pod now).1 = ConditionTrue <->
    podDeletionTimestamp pod = None /\
    readyForAtLeast pod (30 * Go.Second) now.

End FurtherViews.

(** ** A sample environment

    One choice of the external functions and constants, to run the
    definitions on concrete shards, pods and claims.  The identifiers stand
    in for the operator's hash-based ones; readiness and availability follow
    the contract that [podutils] documents (the Ready condition is true, and
    its last transition plus the minimum is before now). *)

Module Sample.

Fixpoint zeros (n : nat) : string :=
  match n with
  | O => ""
  | S n' => String "0"%char (zeros n')
  end.

Definition aliasString (a : topodatapb.TabletAlias) : string :=
  let digits := pretty (Z.to_N (topodatapb.Uid a)) in
  (topodatapb.Cell a +:+ "-" +:+ zeros (10 - String.length digits) +:+ digits)%string.

Definition uid (cell keyspace : string) (kr : planetscalev2.VitessKeyRange)
  (poolType : string) (index : Z) : Z :=
  (Z.of_nat (String.length cell) * 1000003
   + Z.of_nat (String.length keyspace) * 10007
   + Z.of_nat (String.length (planetscalev2.krStart kr)) * 101
   + Z.of_nat (String.length poolType) * 1009
   + index) mod 2 ^ 32.

Definition readyCondition (pod : Pod) : option PodCondition :=
  List.find (fun c => String.eqb (pcType c) "Ready") (podConditions pod).

Definition isPodReady (pod : Pod) : bool :=
  match readyCondition pod with
  | Some c => String.eqb (pcStatus c) ConditionTrue
  | None => false
  end.

Definition isPodAvailable (pod : Pod) (minReadySeconds : Z) (now : Timestamp)
  : bool :=
  match readyCondition pod with
  | Some c =>
      String.eqb (pcStatus c) ConditionTrue &&
      ((minReadySeconds =? 0) ||
       (negb (pcLastTransitionTime c =? 0) &&
        (pcLastTransitionTime c + minReadySeconds * Go.Second <? now)))
  | None => false
  end.

Definition blankPVC (key : ObjectKey) (t : vttablet.Spec) : PersistentVolumeClaim :=
  {| pvcKey := key;
     pvcSpec :=
       default {| pvcRequests := ∅; pvcTemplateRest := "" |}
         (vttablet.DataVolumePVCSpec t);
     pvcPhase := ClaimPending; pvcConditions := [] |}.

Definition blankPod (key : ObjectKey) (t : vttablet.Spec) (h : Heap) : Pod :=
  {| podKey := key; podLabels := deref h (vttablet.Labels t);
     podAnnotations := Some (deref h (vttablet.Annotations t));
     podDeletionTimestamp := None; podPhase := PodPending;
     podConditions := [] |}.

#[local] Instance externals : Externals := {|
  vttablet_UID := uid;
  vttablet_PodName := fun cluster a => (cluster +:+ "-vttablet-" +:+ aliasString a)%string;
  vttablet_AliasFromPod := fun pod =>
    {| topodatapb.Cell := Go.index (podLabels pod) "planetscale.com/cell";
       topodatapb.Uid :=
         default 0 (Go.ParseInt (Go.index (podLabels pod) "planetscale.com/tablet-uid")) |};
  vttablet_NewPVC := fun key t _ => blankPVC key t;
  vttablet_UpdatePVCInPlace := fun obj _ _ => obj;
  vttablet_NewPod := blankPod;
  vttablet_UpdatePodInPlace := fun obj _ _ => obj;
  vttablet_UpdatePod := fun obj _ _ => obj;
  TabletAliasString := aliasString;
  NewVitessTabletStatus := fun poolType index =>
    {| planetscalev2.PoolType := poolType; planetscalev2.Index := index;
       planetscalev2.Running := ConditionUnknown;
       planetscalev2.Ready := ConditionUnknown;
       planetscalev2.Available := ConditionUnknown;
       planetscalev2.DataVolumeBound := ConditionUnknown;
       planetscalev2.PendingChanges := "" |};
  drain_Finished := fun pod =>
    negb (String.eqb (podAnnotation pod "drain.planetscale.com/finished") "");
  drain_Start := fun pod reason =>
    if String.eqb (podAnnotation pod "drain.planetscale.com/started") ""
    then setPodAnnotation "drain.planetscale.com/started" reason pod
    else pod;
  IsPodReady := isPodReady;
  IsPodAvailable := isPodAvailable;
  ClusterLabel := "planetscale.com/cluster";
  KeyspaceLabel := "planetscale.com/keyspace";
  CellLabel := "planetscale.com/cell";
  TabletUidLabel := "planetscale.com/tablet-uid";
  TabletTypeLabel := "planetscale.com/tablet-type";
  TabletIndexLabel := "planetscale.com/tablet-index";
  drain_SupportedAnnotation := "drain.planetscale.com/supported";
  rollout_ScheduledAnnotation := "rollout.planetscale.com/scheduled";
  pvcFilesystemResizeAnnotation := "planetscale.com/pvc-filesystem-resize";
  ComponentLabel := "planetscale.com/component";
  ShardLabel := "planetscale.com/shard";
  VttabletComponentName := "vttablet";
  KeyRange_SafeName := fun kr =>
    (planetscalev2.krStart kr +:+ "-" +:+ planetscalev2.krEnd kr)%string;
|}.

(** A pool of [replicas] tablets of a cell and type, with no maps of its
    own. *)
Definition pool (cell poolType : string) (replicas : Z)
  : planetscalev2.VitessShardTabletPool :=
  {| planetscalev2.Cell := cell; planetscalev2.Type_ := poolType;
     planetscalev2.Replicas := replicas;
     planetscalev2.DataVolumeClaimTemplate :=
       Some {| pvcRequests := {[ ResourceStorage := {| qValue := 10737418240; qString := "10Gi" |} ]};
               pvcTemplateRest := "" |};
     planetscalev2.BackupLocationName := "";
     planetscalev2.Vttablet :=
       {| planetscalev2.ExtraFlags := Some 2%nat;
          planetscalev2.vttabletRest := "resources" |};
     planetscalev2.Mysqld := ""; planetscalev2.ExternalDatastore := "";
     planetscalev2.Affinity := ""; planetscalev2.Annotations := None;
     planetscalev2.ExtraLabels := None; planetscalev2.ExtraEnv := "";
     planetscalev2.ExtraVolumes := ""; planetscalev2.ExtraVolumeMounts := "";
     planetscalev2.InitContainers := ""; planetscalev2.SidecarContainers := "";
     planetscalev2.Tolerations := "";
     planetscalev2.TopologySpreadConstraints := "" |}.

(** A shard with the given pools.  Its labels are the map at address 0, its
    global flags the map at address 1; the pools' flags are at address 2. *)
Definition shard (pools : list planetscalev2.VitessShardTabletPool)
  : planetscalev2.VitessShard :=
  {| planetscalev2.vtsNamespace := "default";
     planetscalev2.Labels := Some 0%nat;
     planetscalev2.Generation := 4;
     planetscalev2.Spec :=
       {| planetscalev2.Name := "x-80";
          planetscalev2.KeyRange :=
            {| planetscalev2.krStart := ""; planetscalev2.krEnd := "80" |};
          planetscalev2.TabletPools := pools;
          planetscalev2.BackupLocations := [];
          planetscalev2.ExtraVitessFlags := Some 1%nat;
          planetscalev2.ZoneMap := None;
          planetscalev2.GlobalLockserver := "global";
          planetscalev2.Images := ""; planetscalev2.ImagePullPolicies := "";
          planetscalev2.ImagePullSecrets := "";
          planetscalev2.DatabaseName := "db";
          planetscalev2.DatabaseInitScriptSecret := "";
          planetscalev2.BackupEngine := "" |} |}.

Definition heap0 : Heap :=
  [ {[ "planetscale.com/cluster" := "example";
       "planetscale.com/keyspace" := "commerce" ]};
    {[ "v" := "1"; "log_dir" := "/global" ]};
    {[ "log_dir" := "/pool" ]} ].

Definition emptyStatus : planetscalev2.VitessShardStatus :=
  {| planetscalev2.Tablets := ∅; planetscalev2.OrphanedTablets := ∅;
     planetscalev2.LowestPodGeneration := 0; planetscalev2.Cells := [] |}.

(** A pod of the given key whose Ready condition became true at
    [readySince], with an optional observed-generation annotation and
    deletion timestamp. *)
Definition pod (name : string) (readySince : Timestamp)
  (generation : option string) (deleted : option Timestamp)
  (labels : gmap string string) (annotations : gmap string string) : Pod :=
  {| podKey := {| Namespace := "default"; Name := name |};
     podLabels := labels;
     podAnnotations :=
       Some (match generation with
             | Some g => <[observedShardGenerationAnnotationKey := g]> annotations
             | None => annotations
             end);
     podDeletionTimestamp := deleted; podPhase := PodRunning;
     podConditions :=
       [ {| pcType := "Initialized"; pcStatus := ConditionTrue;
            pcLastTransitionTime := 1 |};
         {| pcType := "Ready"; pcStatus := ConditionTrue;
            pcLastTransitionTime := readySince |} ] |}.

(** Topology services: one that cannot be opened, one whose shard record
    cannot be read, one that records [primary] as the shard's primary. *)
Definition topoDown : Toposerver :=
  {| Open := fun _ => inl "context deadline exceeded" |}.

Definition topoNoShard : Toposerver :=
  {| Open := fun _ =>
       inr {| GetShard := fun _ _ => inl "node doesn't exist" |} |}.

Definition topoWith (primary : option topodatapb.TabletAlias) : Toposerver :=
  {| Open := fun _ =>
       inr {| GetShard := fun _ _ => inr {| PrimaryAlias := primary |} |} |}.

Definition alias1 : topodatapb.TabletAlias :=
  {| topodatapb.Cell := "us-east"; topodatapb.Uid := 7087141 |}.

Definition tabletLabels : gmap string string :=
  {[ "planetscale.com/cell" := "us-east";
     "planetscale.com/tablet-uid" := "7087141" ]}.

(** A pod of tablet [alias1], ready since instant 10 s, still draining. *)
Definition drainingPod : Pod :=
  pod "example-vttablet-us-east-0007087141" (10 * Go.Second) (Some "4") None
    tabletLabels ∅.

(** The same pod once its drain has finished. *)
Definition drainedPod : Pod :=
  pod "example-vttablet-us-east-0007087141" (10 * Go.Second) (Some "4") None
    tabletLabels
    {[ "drain.planetscale.com/started" := "turning down unwanted tablet";
       "drain.planetscale.com/finished" := "true" ]}.

(** A cluster with no object at all, and one where every pod is found. *)
Definition emptyCluster : Client :=
  {| getPod := fun _ => inl ErrNotFound; getPVC := fun _ => inl ErrNotFound |}.

Definition clusterWithPod (p : Pod) : Client :=
  {| getPod := fun _ => inr p; getPVC := fun _ => inl ErrNotFound |}.

Definition unreachableCluster : Client :=
  {| getPod := fun _ => inl (ErrOther "Timeout");
     getPVC := fun _ => inl (ErrOther "Timeout") |}.

(** The shard of the end-to-end example: one pool of two replicas in
    us-east; and one with four replicas. *)
Definition shard2 : planetscalev2.VitessShard := shard [pool "us-east" "replica" 2].
Definition shard4 : planetscalev2.VitessShard := shard [pool "us-east" "replica" 4].

(** A shard whose two pools have the same cell and type. *)
Definition duplicatePools : list planetscalev2.VitessShardTabletPool :=
  [pool "us-east" "replica" 1; pool "us-east" "replica" 1].

(** A shard with pools in two cells. *)
Definition twoCells : list planetscalev2.VitessShardTabletPool :=
  [pool "us-east" "replica" 2; pool "eu-west-1" "rdonly" 1].

Definition tablets2 : list vttablet.Spec :=
  match desiredTablets 5 shard2 heap0 with
  | Some (_, tablets, _) => tablets
  | None => []
  end.

Definition heap2 : Heap :=
  match desiredTablets 5 shard2 heap0 with
  | Some (_, _, h) => h
  | None => []
  end.

(** The states after the start of [reconcileTablets] on these shards. *)
Definition started (vts : planetscalev2.VitessShard) : PassState :=
  match reconcileTabletsStart 5 vts emptyStatus heap0 with
  | Some (_, _, st) => st
  | None => startState emptyStatus heap0
  end.

Definition key (n : string) : ObjectKey :=
  {| Namespace := "default"; Name := "example-vttablet-us-east-000708714" +:+ n |}.

(** A pod of the shard, Ready since instant 10 s, with the given
    observed-generation annotation. *)
Definition tabletPod (n : string) (generation : option string) : ObjectKey * Pod :=
  (key n,
   pod ("example-vttablet-us-east-000708714" +:+ n) (10 * Go.Second)
     generation None tabletLabels ∅).

(** The first tablet of [shard2], as registered. *)
Definition tablet1 : vttablet.Spec :=
  default
    (tabletRecord shard2 "" (pool "" "" 0) None 0 "" None None None)
    (tabletMap (started shard2) !! key "1").

(** The claim of [tablet1] with the given requested size and conditions. *)
Definition claim (size : Quantity) (conditions : list PVCCondition)
  : PersistentVolumeClaim :=
  {| pvcKey := key "1";
     pvcSpec := {| pvcRequests := {[ ResourceStorage := size ]};
                   pvcTemplateRest := "" |};
     pvcPhase := ClaimBound; pvcConditions := conditions |}.

Definition clusterWithClaim (c : PersistentVolumeClaim) : Client :=
  {| getPod := fun _ => inl ErrNotFound; getPVC := fun _ => inr c |}.

Definition tenGi : Quantity := {| qValue := 10737418240; qString := "10Gi" |}.
Definition fiveGi : Quantity := {| qValue := 5368709120; qString := "5Gi" |}.

Definition resizePendingTrue : list PVCCondition :=
  [ {| ccType := PersistentVolumeClaimResizing; ccStatus := ConditionFalse |};
    {| ccType := PersistentVolumeClaimFileSystemResizePending;
       ccStatus := ConditionTrue |} ].

(** The state once the [Status] callback has seen both pods of [shard2]
    Ready, at instant 60 s. *)
Definition observed : PassState :=
  default (started shard2)
    (podStatusAll (60 * Go.Second)
       [tabletPod "1" (Some "4"); tabletPod "2" (Some "4")] (started shard2)).

End Sample.

(** * Properties *)

Section Properties.
Context {E : Externals}.

(** ** Turndown of volume claims *)

(** C10: an undesired claim is authorized for deletion only when the Get of
    the pod of the same key fails with NotFound; when the pod exists, or the
    Get fails otherwise, the callback answers the orphan status PodExists
    and the claim is retained. *)
Theorem pvc_turndown_only_when_pod_not_found (client : Client)
  (key : ObjectKey) (obj : PersistentVolumeClaim) :
  let podExists :=
    planetscalev2.NewOrphanStatus "PodExists"
      "not deleting tablet PVC because tablet Pod still exists" in
  (pvcPrepareForTurndown client key obj = None <->
   exists getErr, getPod client key = inl getErr /\ IsNotFound getErr = true) /\
  (forall pod, getPod client key = inr pod ->
     pvcPrepareForTurndown client key obj = Some podExists) /\
  (forall getErr, getPod client key = inl getErr -> IsNotFound getErr = false ->
     pvcPrepareForTurndown client key obj = Some podExists) /\
  (disposition (pvcPrepareForTurndown client key obj) = Deleted \/
   disposition (pvcPrepareForTurndown client key obj) = Retained podExists).
Proof.
  intros podExists. unfold pvcPrepareForTurndown.
  destruct (getPod client key) as [getErr | pod] eqn:Hget.
  - destruct (IsNotFound getErr) eqn:Hnf; cbn.
    + repeat split; eauto; try congruence.
    + repeat split; try congruence; auto.
      intros (e & He & Hne). congruence.
  - cbn. repeat split; try congruence; auto.
    intros (e & He & _). congruence.
Qed.

(** ** Turndown of pods *)

(** The primary lookup opens the topology service first, and its result is
    decided by the two calls. *)
Lemma isTabletPrimary_cases (topo : Toposerver) (vts : planetscalev2.VitessShard)
  (h : Heap) (a : topodatapb.TabletAlias) (calls : list TopoCall) :
  let ls := planetscalev2.GlobalLockserver (planetscalev2.Spec vts) in
  let ks := Go.index (deref h (planetscalev2.Labels vts)) KeyspaceLabel in
  let name := planetscalev2.Name (planetscalev2.Spec vts) in
  match Open topo ls with
  | inl err => isTabletPrimary topo vts h a calls = (true, Some err, calls ++ [CallOpen ls])
  | inr ts =>
      match GetShard ts ks name with
      | inl err =>
          isTabletPrimary topo vts h a calls =
          (true, Some err, calls ++ [CallOpen ls] ++ [CallGetShard ks name; CallClose])
      | inr shard =>
          isTabletPrimary topo vts h a calls =
          (TabletAliasEqual (PrimaryAlias shard) a, None,
           calls ++ [CallOpen ls] ++ [CallGetShard ks name; CallClose])
      end
  end.
Proof.
  intros ls ks name. unfold isTabletPrimary. fold ls ks name.
  destruct (Open topo ls) as [err | ts]; [done |].
  destruct (GetShard ts ks name) as [err | shard];
    by rewrite <- !(assoc_L (++)).
Qed.



(** C2: when the lookup of the shard's primary alias fails, at the opening
    of the topology service or at the reading of the shard record,
    [isTabletPrimary] returns an error, [PrepareForTurndown] answers with a
    non-nil orphan status, PrimaryUnknown once the drain has finished, so the
    pod is retained; the result builder is as it was: no error is recorded
    for the pass. *)
Theorem primary_lookup_failure_fails_closed (topo : Toposerver)
  (vts : planetscalev2.VitessShard) (key : ObjectKey) (curObj : Pod)
  (st : PassState)
  (Hfail :
     let ls := planetscalev2.GlobalLockserver (planetscalev2.Spec vts) in
     (exists err, Open topo ls = inl err) \/
     (exists ts err,
        Open topo ls = inr ts /\
        GetShard ts
          (Go.index (deref (heap st) (planetscalev2.Labels vts)) KeyspaceLabel)
          (planetscalev2.Name (planetscalev2.Spec vts)) = inl err)) :
  let r := podPrepareForTurndown topo vts key curObj st in
  let lookup :=
    isTabletPrimary topo vts (heap st) (vttablet_AliasFromPod curObj)
      (topoCalls st) in
  let unknown :=
    planetscalev2.NewOrphanStatus "PrimaryUnknown"
      "unable to determine whether this tablet is the primary" in
  (exists err, lookup.1 = (true, Some err)) /\
  (exists reason, disposition r.1.1 = Retained reason) /\
  (drain_Finished curObj = true ->
   r.1.1 = Some unknown /\ disposition r.1.1 = Retained unknown /\
   r.1.2 = curObj) /\
  resultBuilder r.2 = resultBuilder st /\
  status r.2 = status st.
Proof.
  intros r lookup unknown. subst r. unfold podPrepareForTurndown. fold lookup.
  pose proof (isTabletPrimary_cases topo vts (heap st)
                (vttablet_AliasFromPod curObj) (topoCalls st)) as Hc.
  cbv zeta in Hc, Hfail. fold lookup in Hc.
  assert (exists err, lookup.1 = (true, Some err)) as [err Herr].
  { destruct Hfail as [[err Ho] | (ts & err & Ho & Hg)].
    - rewrite Ho in Hc. rewrite Hc. by exists err.
    - rewrite Ho, Hg in Hc. rewrite Hc. by exists err. }
  split; [by exists err |].
  destruct lookup as [[isPrimary e] calls]. cbn in Herr. inversion Herr; subst.
  destruct (drain_Finished curObj); cbn.
  - repeat split; eauto.
  - repeat split; eauto; discriminate.
Qed.

(** ** Availability *)

(** The Available condition that [tabletAvailableStatus] computes, over the
    answer of [podutils.IsPodAvailable]: True exactly when the pod has no
    deletion timestamp and the library finds it available at the threshold;
    never anything but True or False. *)
Lemma tabletAvailableStatus_true_iff (resultBuilder : Builder) (pod : Pod)
  (now : Timestamp) :
  let available := (tabletAvailableStatus resultBuilder pod now).1 in
  tabletAvailableSeconds = 30 /\
  (available = ConditionTrue <->
   podDeletionTimestamp pod = None /\
   IsPodAvailable pod tabletAvailableSeconds now = true) /\
  (podDeletionTimestamp pod <> None -> available = ConditionFalse) /\
  (podDeletionTimestamp pod = None ->
   IsPodAvailable pod 30 now = true -> available = ConditionTrue) /\
  (available = ConditionTrue \/ available = ConditionFalse).
Proof.
  intros available. subst available. unfold tabletAvailableStatus.
  split; [reflexivity |].
  destruct (podDeletionTimestamp pod) as [ts |]; cbn.
  - repeat split; auto; try discriminate. intros [? _]. discriminate.
  - change tabletAvailableSeconds with 30.
    destruct (IsPodAvailable pod 30 now); cbn;
      repeat split; auto; try discriminate; try congruence.
    intros [_ ?]. discriminate.
Qed.

(** The first element of a list that a test accepts. *)
Lemma find_first {A : Type} (f : A -> bool) (l : list A) (c : A) :
  List.find f l = Some c <->
  exists before after,
    l = before ++ c :: after /\ Forall (fun x => f x = false) before /\
    f c = true.
Proof.
  induction l as [| x l IH]; cbn.
  - split; [discriminate |]. intros (before & after & Hl & _).
    by destruct before.
  - destruct (f x) eqn:Hx.
    + split.
      * intros [= <-]. by exists [], l.
      * intros ([| y before] & after & Hl & Hall & Hc).
        -- by injection Hl as ->.
        -- injection Hl as <- _. apply Forall_cons in Hall as [Hy _]. congruence.
    + rewrite IH. split.
      * intros (before & after & -> & Hall & Hc).
        exists (x :: before), after. split; [done |]. split; [| done].
        by constructor.
      * intros ([| y before] & after & Hl & Hall & Hc).
        -- injection Hl as <- _. congruence.
        -- injection Hl as <- ->. apply Forall_cons in Hall as [_ Hall].
           by exists before, after.
Qed.

Lemma GetPodReadyCondition_spec (pod : Pod) (c : PodCondition) :
  podutils.GetPodReadyCondition pod = Some c <-> isReadyConditionOf pod c.
Proof.
  unfold podutils.GetPodReadyCondition, isReadyConditionOf. rewrite find_first.
  split; intros (before & after & Hl & Hall & Hc); exists before, after;
    (split; [done |]); split.
  - eapply Forall_impl; [exact Hall |]. intros c' Hc'. by apply String.eqb_neq.
  - by apply String.eqb_eq.
  - eapply Forall_impl; [exact Hall |]. intros c' Hc'. by apply String.eqb_neq.
  - by apply String.eqb_eq.
Qed.

(** [podutils.IsPodAvailable] with a threshold that is not zero: the pod has
    been Ready for more than the threshold. *)
Lemma IsPodAvailable_spec (pod : Pod) (minReadySeconds : Z) (now : Timestamp) :
  minReadySeconds <> 0 ->
  podutils.IsPodAvailable pod minReadySeconds now = true <->
  readyForMoreThan pod (minReadySeconds * Go.Second) now.
Proof.
  intros Hmin. unfold podutils.IsPodAvailable, podutils.IsPodReady, readyForMoreThan.
  destruct (podutils.GetPodReadyCondition pod) as [c |] eqn:Hc.
  - apply GetPodReadyCondition_spec in Hc as Hready.
    apply Z.eqb_neq in Hmin. rewrite Hmin. cbn [orb]. unfold Go.toDuration.
    destruct (String.eqb (pcStatus c) ConditionTrue) eqn:Hs; cbn [negb].
    + apply String.eqb_eq in Hs.
      rewrite andb_true_iff, negb_true_iff, Z.eqb_neq, Z.ltb_lt. split.
      * intros [Hset Hlong]. by exists c.
      * intros (c' & Hready' & _ & Hset & Hlong).
        apply GetPodReadyCondition_spec in Hready'.
        apply GetPodReadyCondition_spec in Hready.
        assert (c' = c) as -> by congruence. done.
    + apply String.eqb_neq in Hs. split; [discriminate |].
      intros (c' & Hready' & Hs' & _).
      apply GetPodReadyCondition_spec in Hready'.
      apply GetPodReadyCondition_spec in Hready.
      assert (c' = c) as -> by congruence. done.
  - cbn. split; [discriminate |]. intros (c & Hready & _).
    apply GetPodReadyCondition_spec in Hready. congruence.
Qed.

(** C3: with the [IsPodAvailable] of [podutils], the Available condition
    that [tabletAvailableStatus] computes is True exactly when the pod has
    no deletion timestamp and has been Ready for more than 30 seconds: the
    status of its Ready condition is True, and the last transition of the
    condition is set and lies more than 30 seconds before the current
    instant.  With a deletion timestamp it is False, however long the pod
    has been Ready; a pod that has been Ready for 30 seconds or less, the
    exact 30 seconds included, is not available; and the condition is never
    anything but True or False. *)
Theorem available_iff_ready_longer_than_threshold (resultBuilder : Builder)
  (pod : Pod) (now : Timestamp) (Hlib : followsPodutils) :
  let available := (tabletAvailableStatus resultBuilder pod now).1 in
  (available = ConditionTrue <->
   podDeletionTimestamp pod = None /\
   readyForMoreThan pod (30 * Go.Second) now) /\
  (podDeletionTimestamp pod <> None -> available = ConditionFalse) /\
  (podDeletionTimestamp pod = None ->
   readyForMoreThan pod (30 * Go.Second) now -> available = ConditionTrue) /\
  (forall c,
     isReadyConditionOf pod c ->
     now <= pcLastTransitionTime c + 30 * Go.Second ->
     available = ConditionFalse) /\
  (available = ConditionTrue \/ available = ConditionFalse).
Proof.
  intros available.
  pose proof (tabletAvailableStatus_true_iff resultBuilder pod now)
    as (_ & Hiff & Hdeleted & _ & Hcases).
  cbv zeta in Hiff, Hdeleted, Hcases. fold available in Hiff, Hdeleted, Hcases.
  rewrite Hlib in Hiff. change tabletAvailableSeconds with 30 in Hiff.
  rewrite IsPodAvailable_spec in Hiff by done.
  split; [exact Hiff |]. split; [exact Hdeleted |].
  split; [intros Hnone Hlong; by apply Hiff |]. split; [| exact Hcases].
  intros c Hc Hshort. destruct Hcases as [Htrue | Hfalse]; [| exact Hfalse].
  apply Hiff in Htrue as (_ & c' & Hc' & _ & _ & Hlong).
  apply GetPodReadyCondition_spec in Hc, Hc'.
  assert (c' = c) as -> by congruence. lia.
Qed.

(** What the function does to the result builder: a requeue is requested in
    one case only, the pod not deleted and not yet available, and the delay
    passed is [time.Duration(tabletAvailableSeconds)]. *)
Lemma tabletAvailableStatus_requeue (resultBuilder : Builder) (pod : Pod)
  (now : Timestamp) :
  (tabletAvailableStatus resultBuilder pod now).2 =
  if bool_decide (podDeletionTimestamp pod = None)
     && negb (IsPodAvailable pod tabletAvailableSeconds now)
  then Builder_RequeueAfter (Go.toDuration tabletAvailableSeconds) resultBuilder
  else resultBuilder.
Proof.
  unfold tabletAvailableStatus.
  destruct (podDeletionTimestamp pod); cbn; [done |].
  by destruct (IsPodAvailable pod tabletAvailableSeconds now).
Qed.

(** ** Resize propagation *)

Lemma checkConditions_find (conditions : list PVCCondition) :
  checkConditions conditions = true <->
  exists c,
    List.find
      (fun c => String.eqb (ccType c) PersistentVolumeClaimFileSystemResizePending)
      conditions = Some c /\
    ccStatus c = ConditionTrue.
Proof.
  induction conditions as [| c rest IH]; cbn.
  - split; [discriminate | by intros (c & ? & _)].
  - destruct (String.eqb (ccType c) _); cbn; [| exact IH].
    rewrite String.eqb_eq. split.
    + intros Hs. by exists c.
    + by intros (c' & [= <-] & Hs).
Qed.

Lemma checkPVCFileSystemResizeCondition_spec (pvc : PersistentVolumeClaim) :
  checkPVCFileSystemResizeCondition pvc = true <-> resizePending pvc.
Proof. apply checkConditions_find. Qed.

(** When no two conditions of a claim have the same type, as the API keeps
    them, the first condition of the type is the only one: the check holds
    exactly when the claim carries a FileSystemResizePending condition whose
    status is True. *)
Lemma resizePending_unique_types (pvc : PersistentVolumeClaim) :
  NoDup (ccType <$> pvcConditions pvc) ->
  resizePending pvc <->
  exists c,
    c ∈ pvcConditions pvc /\
    ccType c = PersistentVolumeClaimFileSystemResizePending /\
    ccStatus c = ConditionTrue.
Proof.
  unfold resizePending, resizePendingCondition.
  induction (pvcConditions pvc) as [| c rest IH]; cbn; intros Hnd.
  - split; [by intros (c & ? & _) | intros (c & Hin & _); by apply elem_of_nil in Hin].
  - apply NoDup_cons in Hnd as [Hfresh Hnd].
    destruct (String.eqb (ccType c) _) eqn:Hty.
    + apply String.eqb_eq in Hty. split.
      * intros (c' & [= <-] & Hs). exists c. split; [left |]; done.
      * intros (c' & Hin & Hty' & Hs). apply elem_of_cons in Hin as [-> | Hin].
        -- by exists c.
        -- exfalso. apply Hfresh. rewrite Hty, <- Hty'.
           by apply list_elem_of_fmap_2.
    + apply String.eqb_neq in Hty. rewrite (IH Hnd). split.
      * intros (c' & Hin & ?). exists c'. split; [by right | done].
      * intros (c' & Hin & Hty' & Hs). apply elem_of_cons in Hin as [-> | Hin];
          [congruence | by exists c'].
Qed.

(** C6: during a rolling recreate the resize annotation is written into the
    annotations of the tablet spec exactly when the five conditions hold: a
    data-volume claim is configured, the paired claim is fetched, the spec
    has a storage request, the claim requests a size of the same value, and
    the claim's FileSystemResizePending condition has status True.  The
    value written is the requested size.  In every other case the heap is
    returned as it was; the function has no error to return. *)
Theorem resize_annotation_written_iff (client : Client)
  (tabletSpec : vttablet.Spec) (pod : Pod) (h : Heap) (l : nat)
  (Hann : vttablet.Annotations tabletSpec = Some l) :
  (forall requested,
     resizeReady client tabletSpec pod requested ->
     updatePVCFilesystemResizeAnnotation client tabletSpec pod h =
     Some (assign l pvcFilesystemResizeAnnotation (qString requested) h) /\
     ((l < List.length h)%nat ->
      deref (assign l pvcFilesystemResizeAnnotation (qString requested) h)
        (vttablet.Annotations tabletSpec) !! pvcFilesystemResizeAnnotation =
      Some (qString requested))) /\
  ((forall requested, ~ resizeReady client tabletSpec pod requested) ->
   updatePVCFilesystemResizeAnnotation client tabletSpec pod h = Some h).
Proof.
  unfold resizeReady, updatePVCFilesystemResizeAnnotation. split.
  - intros requested (spec & pvc & -> & -> & -> & Hsize & Hpending).
    unfold currentDiskQuantity in Hsize. rewrite Hsize, Z.eqb_refl. cbn [negb].
    apply checkPVCFileSystemResizeCondition_spec in Hpending as ->. cbn [negb].
    rewrite Hann. split; [done |]. intros Hl. unfold assign. cbn.
    rewrite list_lookup_alter_eq.
    destruct (lookup_lt_is_Some_2 h l Hl) as [m ->]. cbn.
    by rewrite lookup_insert_eq.
  - intros Hnot.
    destruct (vttablet.DataVolumePVCSpec tabletSpec) as [spec |]; [| done].
    destruct (getPVC client _) as [? | pvc] eqn:Hget; [done |].
    destruct (pvcRequests spec !! ResourceStorage) as [requested |] eqn:Hreq;
      [| done].
    destruct (qValue _ =? qValue requested) eqn:Hsize; cbn [negb]; [| done].
    destruct (checkPVCFileSystemResizeCondition pvc) eqn:Hcheck; cbn [negb];
      [| done].
    exfalso. apply (Hnot requested). exists spec, pvc.
    repeat split; try done.
    + by apply Z.eqb_eq.
    + by apply checkPVCFileSystemResizeCondition_spec.
Qed.

(** ** Generation tracking *)

(** A [Status] call for a key of [tabletMap] succeeds, leaves [tabletMap]
    alone and folds the pod's generation, when it parses, into the lowest
    one. *)
Lemma podStatus_lowest (now : Timestamp) (key : ObjectKey) (pod : Pod)
  (st : PassState) :
  is_Some (tabletMap st !! key) ->
  exists st',
    podStatus now key pod st = Some st' /\
    tabletMap st' = tabletMap st /\
    planetscalev2.LowestPodGeneration (status st') =
    match Go.ParseInt (podAnnotation pod observedShardGenerationAnnotationKey) with
    | Some g => observeGeneration (planetscalev2.LowestPodGeneration (status st)) g
    | None => planetscalev2.LowestPodGeneration (status st)
    end.
Proof.
  intros [tablet Ht]. unfold podStatus. rewrite Ht. cbn [mbind option_bind].
  destruct (IsPodReady pod);
    [destruct (tabletAvailableStatus (resultBuilder st) pod now) as [av rb] |];
    (destruct (String.eqb _ "") eqn:Hempty;
     [ apply String.eqb_eq in Hempty; rewrite Hempty; eexists; by repeat split
     | destruct (Go.ParseInt _) as [g |]; [| eexists; by repeat split];
       unfold observeGeneration; cbn;
       destruct ((_ =? 0) || (g <? _)); eexists; by repeat split ]).
Qed.

Lemma podStatusAll_lowest (now : Timestamp) (pods : list (ObjectKey * Pod)) :
  forall st,
    Forall (fun kp => is_Some (tabletMap st !! kp.1)) pods ->
    exists st',
      podStatusAll now pods st = Some st' /\
      planetscalev2.LowestPodGeneration (status st') =
      fold_left observeGeneration (observedGenerations pods)
        (planetscalev2.LowestPodGeneration (status st)).
Proof.
  induction pods as [| [key pod] rest IH]; intros st Hkeys; cbn.
  - by exists st.
  - apply Forall_cons in Hkeys as [Hkey Hrest].
    destruct (podStatus_lowest now key pod st Hkey) as (st1 & -> & Hmap & Hlow).
    destruct (IH st1) as (st' & -> & Hlow').
    { by rewrite Hmap. }
    exists st'. split; [done |]. rewrite Hlow', Hlow.
    unfold observedGenerations. cbn.
    by destruct (Go.ParseInt _).
Qed.

Lemma observeGeneration_min (gens : list Z) :
  forall lowest,
    lowest <> 0 -> Forall (fun g => g <> 0) gens ->
    fold_left observeGeneration gens lowest = fold_left Z.min gens lowest.
Proof.
  induction gens as [| g rest IH]; intros lowest Hl Hg; cbn; [done |].
  apply Forall_cons in Hg as [Hg Hrest].
  assert (observeGeneration lowest g = Z.min lowest g) as ->.
  { unfold observeGeneration. destruct (Z.eqb_spec lowest 0); [done |]. cbn.
    destruct (Z.ltb_spec g lowest); lia. }
  apply IH; [lia | done].
Qed.

(** C5, as the code has it: starting from the unset sentinel 0, with pods
    whose annotation is absent or does not parse skipped without error, the
    lowest observed generation after the [Status] calls is the minimum of
    the generations read, provided none of them is 0; and it stays 0 when
    no pod has a generation that parses. *)
Theorem lowest_generation_is_minimum (now : Timestamp)
  (pods : list (ObjectKey * Pod)) (st : PassState)
  (Hkeys : Forall (fun kp => is_Some (tabletMap st !! kp.1)) pods)
  (Hunset : planetscalev2.LowestPodGeneration (status st) = 0)
  (Hnonzero : Forall (fun g => g <> 0) (observedGenerations pods)) :
  lowestIsMinimum now pods st /\
  (observedGenerations pods = [] ->
   exists st',
     podStatusAll now pods st = Some st' /\
     planetscalev2.LowestPodGeneration (status st') = 0).
Proof.
  destruct (podStatusAll_lowest now pods st Hkeys) as (st' & Hrun & Hlow).
  rewrite Hunset in Hlow. split.
  - exists st'. split; [done |]. rewrite Hlow.
    destruct (observedGenerations pods) as [| g rest]; [done |].
    apply Forall_cons in Hnonzero as [Hg Hrest]. cbn.
    change (observeGeneration 0 g) with g.
    by apply observeGeneration_min.
  - intros Hnone. exists st'. split; [done |]. by rewrite Hlow, Hnone.
Qed.

(** ** Status entries of the desired tablets *)

Lemma registerTablet_status (clusterName namespace : string)
  (acc : list ObjectKey * list ObjectKey * PassState) (t : vttablet.Spec) :
  planetscalev2.Tablets (status (registerTablet clusterName namespace acc t).2) =
  <[vttablet.AliasStr t :=
      NewVitessTabletStatus (vttablet.Type_ t) (vttablet.Index t)]>
    (planetscalev2.Tablets (status acc.2)).
Proof.
  destruct acc as [[pvcKeys podKeys] st]. unfold registerTablet.
  by destruct (vttablet.DataVolumePVCSpec t).
Qed.

(** The loop registers one pod key per tablet, and every key it registers,
    of a pod or of a claim, is bound in [tabletMap]. *)
Lemma registerTablet_keys (clusterName namespace : string)
  (tablets : list vttablet.Spec) :
  forall acc,
    let r := fold_left (registerTablet clusterName namespace) tablets acc in
    List.length r.1.2 = (List.length acc.1.2 + List.length tablets)%nat /\
    ((forall key, key ∈ acc.1.1 ++ acc.1.2 -> is_Some (tabletMap acc.2 !! key)) ->
     forall key, key ∈ r.1.1 ++ r.1.2 -> is_Some (tabletMap r.2 !! key)).
Proof.
  induction tablets as [| t rest IH]; intros acc; cbn.
  - split; [lia | done].
  - destruct (IH (registerTablet clusterName namespace acc t)) as [Hlen Hkeys].
    split.
    + rewrite Hlen. destruct acc as [[pvcKeys podKeys] st]. unfold registerTablet.
      destruct (vttablet.DataVolumePVCSpec t); cbn; rewrite length_app; cbn; lia.
    + intros Hacc. apply Hkeys. clear Hkeys Hlen IH.
      destruct acc as [[pvcKeys podKeys] st]. cbn in Hacc. unfold registerTablet.
      destruct (vttablet.DataVolumePVCSpec t); cbn; intros key Hin;
        (destruct (decide (key = {| Namespace := namespace;
             Name := vttablet_PodName clusterName (vttablet.Alias t) |}))
           as [-> | Hne];
         [ rewrite lookup_insert_eq; by eexists
         | rewrite lookup_insert_ne by done; apply Hacc;
           rewrite ?elem_of_app, ?list_elem_of_singleton in Hin;
           rewrite elem_of_app; intuition congruence ]).
Qed.

Lemma registerTablet_others (clusterName namespace : string)
  (tablets : list vttablet.Spec) (a : string) :
  forall acc,
    Forall (fun t => vttablet.AliasStr t <> a) tablets ->
    planetscalev2.Tablets
      (status (fold_left (registerTablet clusterName namespace) tablets acc).2)
    !! a = planetscalev2.Tablets (status acc.2) !! a.
Proof.
  induction tablets as [| t rest IH]; intros acc Hne; cbn; [done |].
  apply Forall_cons in Hne as [Hne Hrest].
  rewrite IH by done. rewrite registerTablet_status.
  by rewrite lookup_insert_ne.
Qed.

(** After the loop, the entry of every tablet's alias is a new status, of
    the last tablet that has this alias. *)
Lemma registerTablet_seeds (clusterName namespace : string)
  (tablets : list vttablet.Spec) :
  forall acc t,
    t ∈ tablets ->
    exists t',
      t' ∈ tablets /\ vttablet.AliasStr t' = vttablet.AliasStr t /\
      planetscalev2.Tablets
        (status (fold_left (registerTablet clusterName namespace) tablets acc).2)
      !! vttablet.AliasStr t =
      Some (NewVitessTabletStatus (vttablet.Type_ t') (vttablet.Index t')).
Proof.
  induction tablets as [| t0 rest IH]; intros acc t Hin; cbn.
  - by apply elem_of_nil in Hin.
  - destruct (decide (Exists (fun t' => vttablet.AliasStr t' = vttablet.AliasStr t) rest))
      as [Hex | Hnone].
    + apply Exists_exists in Hex as (t1 & Hin1 & Heq1).
      destruct (IH (registerTablet clusterName namespace acc t0) t1 Hin1)
        as (t' & Hin' & Heq' & Hlook).
      exists t'. split; [by right |]. split; [congruence |].
      by rewrite <- Heq1.
    + apply elem_of_cons in Hin as [-> | Hin].
      * exists t0. split; [by left |]. split; [done |].
        rewrite registerTablet_others.
        -- rewrite registerTablet_status. by rewrite lookup_insert_eq.
        -- apply Forall_forall. intros t' Hin' Heq. apply Hnone.
           apply Exists_exists. eauto.
      * exfalso. apply Hnone. apply Exists_exists. eauto.
Qed.

(** No callback removes an entry of the tablet status map, and none changes
    [tabletMap]. *)
Lemma callbackStep_keeps (client : Client) (topo : Toposerver)
  (vts : planetscalev2.VitessShard) (now : Timestamp) (st st' : PassState) :
  callbackStep client topo vts now st st' ->
  tabletMap st' = tabletMap st /\
  forall a,
    is_Some (planetscalev2.Tablets (status st) !! a) ->
    is_Some (planetscalev2.Tablets (status st') !! a).
Proof.
  assert (forall a b s (m : gmap string planetscalev2.VitessTabletStatus),
            is_Some (m !! a) -> is_Some (<[b := s]> m !! a)) as Hins.
  { intros a b s m Hsome. destruct (decide (b = a)) as [-> | Hne].
    - rewrite lookup_insert_eq. by eexists.
    - by rewrite lookup_insert_ne. }
  intros Hstep. destruct Hstep as
    [ key obj st st' H | key obj st st' H | key obj st st' H
    | key obj obj' st st' H | key obj st st' H | key obj o st | key obj st ].
  - unfold pvcNew in H. destruct (tabletMap st !! key); [| done].
    cbn in H. injection H as _ <-. split; [done |]. cbn. auto.
  - unfold pvcStatus in H. destruct (tabletMap st !! key); [| done].
    cbn in H. injection H as <-. split; [done |]. cbn. auto.
  - unfold podNew in H. destruct (tabletMap st !! key); [| done].
    cbn in H. injection H as _ <-. split; [done |]. cbn. auto.
  - unfold podUpdateRollingRecreate in H. destruct (tabletMap st !! key); [| done].
    cbn in H. destruct (updatePVCFilesystemResizeAnnotation _ _ _ _); [| done].
    cbn in H. injection H as _ <-. by split.
  - unfold podStatus in H. destruct (tabletMap st !! key); [| done].
    cbn [mbind option_bind] in H.
    destruct (IsPodReady obj);
      [destruct (tabletAvailableStatus (resultBuilder st) obj now) |];
      (destruct (String.eqb _ "");
       [| destruct (Go.ParseInt _); [destruct ((_ =? 0) || (_ <? _)) |]]);
      injection H as <-; (split; [done |]); cbn; auto.
  - by split.
  - unfold podPrepareForTurndown.
    destruct (negb (drain_Finished obj)); [by split |].
    destruct (isTabletPrimary _ _ _ _ _) as [[isPrimary err] calls].
    destruct err; [by split |]. destruct isPrimary; [by split |].
    destruct (negb _); by split.
Qed.

Lemma putTabletStatus_lookup (a : string)
  (s : planetscalev2.VitessTabletStatus) (st : PassState) :
  planetscalev2.Tablets (status (putTabletStatus a s st)) !! a = Some s.
Proof. unfold putTabletStatus. cbn. apply lookup_insert_eq. Qed.

(** The [New] callbacks, for a key of [tabletMap]: the entry of the tablet
    is written with the conditions of a missing object set to False. *)
Lemma new_callbacks_set_false (st : PassState) (key : ObjectKey)
  (t : vttablet.Spec) :
  tabletMap st !! key = Some t ->
  (exists obj st' s,
     pvcNew key st = Some (obj, st') /\
     planetscalev2.Tablets (status st') !! vttablet.AliasStr t = Some s /\
     planetscalev2.DataVolumeBound s = ConditionFalse) /\
  (exists obj st' s,
     podNew key st = Some (obj, st') /\
     planetscalev2.Tablets (status st') !! vttablet.AliasStr t = Some s /\
     planetscalev2.Running s = ConditionFalse /\
     planetscalev2.Ready s = ConditionFalse /\
     planetscalev2.Available s = ConditionFalse).
Proof.
  intros Ht. unfold pvcNew, podNew. rewrite Ht. cbn. split.
  - do 3 eexists. split; [done |]. by rewrite putTabletStatus_lookup.
  - do 3 eexists. split; [done |]. by rewrite putTabletStatus_lookup.
Qed.

(** ** The desired-state compiler *)

Lemma wrap32_id (z : Z) : Go.MinInt32 <= z <= Go.MaxInt32 -> Go.wrap32 z = z.
Proof.
  unfold Go.wrap32, Go.MinInt32, Go.MaxInt32. intros Hz.
  rewrite Z.mod_small by lia. lia.
Qed.

Lemma wrap32_range (z : Z) : Go.inInt32 (Go.wrap32 z).
Proof.
  unfold Go.inInt32, Go.wrap32, Go.MinInt32, Go.MaxInt32.
  pose proof (Z.mod_pos_bound (z + 2 ^ 31) (2 ^ 32)). lia.
Qed.

(** Below [MaxInt32] the loop ends and is the fold over the indices. *)
Lemma forInt32_seqZ {St : Type} (body : Z -> St -> St) (n : Z) :
  n < Go.MaxInt32 ->
  forall (fuel : nat) (i : Z) (s : St),
    Go.MinInt32 <= i -> (Z.to_nat (n - i + 1) < fuel)%nat ->
    Go.forInt32 fuel i n body s =
    Some (fold_left (fun s j => body j s) (seqZ i (n - i + 1)) s).
Proof.
  intros Hn. induction fuel as [| fuel IH]; intros i s Hi Hfuel; [lia |].
  cbn. destruct (Z.leb_spec i n).
  - rewrite wrap32_id by (unfold Go.MinInt32, Go.MaxInt32 in *; lia).
    rewrite IH by (unfold Go.MinInt32 in *; lia).
    rewrite (seqZ_cons i) by lia. cbn. do 3 f_equal; lia.
  - by rewrite seqZ_nil by lia.
Qed.

(** At [MaxInt32] the condition never fails: no bound suffices. *)
Lemma forInt32_MaxInt32 {St : Type} (body : Z -> St -> St) (fuel : nat) :
  forall (i : Z) (s : St),
    Go.inInt32 i -> Go.forInt32 fuel i Go.MaxInt32 body s = None.
Proof.
  induction fuel as [| fuel IH]; intros i s Hi; cbn; [done |].
  destruct (Z.leb_spec i Go.MaxInt32) as [_ | Hgt].
  - apply IH, wrap32_range.
  - unfold Go.inInt32 in Hi. lia.
Qed.

Lemma poolSpecs_fold (fuel : nat) (vts : planetscalev2.VitessShard)
  (parentLabels : MapRef) (keyspaceName : string)
  (pools : list planetscalev2.VitessShardTabletPool) :
  Forall
    (fun pool =>
       planetscalev2.Replicas pool < Go.MaxInt32 /\
       0 `max` planetscalev2.Replicas pool < Z.of_nat fuel) pools ->
  forall st,
    poolSpecs fuel vts parentLabels keyspaceName pools st =
    Some (shardFold vts parentLabels keyspaceName pools st).
Proof.
  induction pools as [| pool rest IH]; intros Hok st; cbn; [done |].
  apply Forall_cons in Hok as [[Hmax Hfuel] Hrest].
  rewrite forInt32_seqZ; [| done | unfold Go.MinInt32; lia | lia].
  rewrite IH by done. unfold shardFold. cbn. unfold poolFold at 2, poolIndices.
  by replace (planetscalev2.Replicas pool - 1 + 1)
    with (planetscalev2.Replicas pool) by lia.
Qed.

Lemma alter_last {A : Type} (f : A -> A) (h : list A) (m : A) :
  alter f (List.length h) (h ++ [m]) = h ++ [f m].
Proof. rewrite <- (Nat.add_0_r (List.length h)). by rewrite alter_app_r. Qed.

Lemma deref_app (h ext : Heap) (r : MapRef) :
  validRef h r -> deref (h ++ ext) r = deref h r.
Proof. destruct r as [l |]; [| done]. cbn. intros Hl. by rewrite lookup_app_l. Qed.

Lemma validRef_app (h ext : Heap) (r : MapRef) :
  validRef h r -> validRef (h ++ ext) r.
Proof. destruct r as [l |]; [| done]. cbn. rewrite length_app. lia. Qed.

Lemma deref_last (h : Heap) (m : gmap string string) :
  deref (h ++ [m]) (Some (List.length h)) = m.
Proof. cbn. by rewrite list_lookup_middle. Qed.


Lemma stepInputsValid_app (h ext : Heap) vts parentLabels pool backupLocation :
  stepInputsValid h vts parentLabels pool backupLocation ->
  stepInputsValid (h ++ ext) vts parentLabels pool backupLocation.
Proof.
  unfold stepInputsValid, validPool.
  intros (? & ? & ? & (? & ? & ?) & ?). repeat split; by apply validRef_app.
Qed.

Lemma tabletContent_app (h ext : Heap) vts parentLabels keyspaceName pool
  backupLocation i :
  stepInputsValid h vts parentLabels pool backupLocation ->
  tabletContent (h ++ ext) vts parentLabels keyspaceName pool backupLocation i =
  tabletContent h vts parentLabels keyspaceName pool backupLocation i.
Proof.
  unfold stepInputsValid, validPool, tabletContent.
  intros (? & ? & ? & (? & ? & ?) & Hbl).
  rewrite !deref_app by done.
  destruct backupLocation as [bl |]; [| done].
  cbn in Hbl. by rewrite !deref_app by done.
Qed.

(** One turn of the inner loop: the spec appended holds the next three
    addresses, where the heap now has its labels, extra flags and
    annotations; the heap of before is a prefix of the heap of after. *)
Lemma tabletSpec_step vts parentLabels keyspaceName pool backupLocation i
  (tablets : list vttablet.Spec) (h : Heap) :
  stepInputsValid h vts parentLabels pool backupLocation ->
  let c := tabletContent h vts parentLabels keyspaceName pool backupLocation i in
  let n := List.length h in
  tabletSpec vts parentLabels keyspaceName pool backupLocation i (tablets, h) =
  (tablets ++
   [ tabletRecord vts keyspaceName pool backupLocation i
       (Go.index (deref h (planetscalev2.ZoneMap (planetscalev2.Spec vts)))
          (planetscalev2.Cell pool))
       (Some n) (Some (S n)) (Some (S (S n))) ],
   h ++ [scLabels c; scExtraFlags c; scAnnotations c]).
Proof.
  intros (Hpl & Hglobal & Hzone & (Hflags & Hann & Hxl) & Hbl) c n.
  unfold tabletSpec, make, update_StringMap, update_Annotations, assign, assignAll.
  destruct backupLocation as [bl |]; cbv zeta;
    repeat (rewrite ?alter_last;
            rewrite ?deref_app by (repeat apply validRef_app; assumption)).
  all: rewrite !length_app; cbn [List.length]; rewrite <- !(assoc_L (++)); cbn [app].
  all: replace (List.length h + 1)%nat with (S n) by (subst n; lia).
  all: replace (S n + 1)%nat with (S (S n)) by lia.
  all: reflexivity.
Qed.

Lemma content_app (h ext : Heap) (t : vttablet.Spec) :
  validSpec h t -> content (h ++ ext) t = content h t.
Proof.
  intros (? & ? & ? & ? & ?). unfold content. by rewrite !deref_app by done.
Qed.

Lemma validSpec_app (h ext : Heap) (t : vttablet.Spec) :
  validSpec h t -> validSpec (h ++ ext) t.
Proof.
  intros (? & ? & ? & ? & ?). repeat split; by apply validRef_app.
Qed.

(** The spec appended by one turn, read through the heap of after, has the
    contents computed from the inputs. *)
Lemma tabletRecord_content vts parentLabels keyspaceName pool backupLocation i
  (h : Heap) :
  stepInputsValid h vts parentLabels pool backupLocation ->
  let c := tabletContent h vts parentLabels keyspaceName pool backupLocation i in
  let n := List.length h in
  let h' := h ++ [scLabels c; scExtraFlags c; scAnnotations c] in
  let t :=
    tabletRecord vts keyspaceName pool backupLocation i
      (Go.index (deref h (planetscalev2.ZoneMap (planetscalev2.Spec vts)))
         (planetscalev2.Cell pool))
      (Some n) (Some (S n)) (Some (S (S n))) in
  validSpec h' t /\ content h' t = c.
Proof.
  intros (Hpl & Hglobal & Hzone & (Hflags & Hann & Hxl) & Hbl) c n h' t.
  split.
  - unfold validSpec, t, h'. cbn. rewrite !length_app. cbn.
    repeat split; try (subst n; lia).
    + by apply (validRef_app h _ _ Hxl).
    + by apply (validRef_app h _ _ Hbl).
  - unfold content, t, h'. cbn [tabletRecord vttablet.Labels vttablet.Vttablet
      vttablet.Annotations vttablet.ExtraLabels vttablet.BackupLocation
      planetscalev2.ExtraFlags].
    rewrite (deref_app h _ _ Hxl), (deref_app h _ _ Hbl).
    assert (deref (h ++ [scLabels c; scExtraFlags c; scAnnotations c]) (Some n)
            = scLabels c) as ->.
    { cbn. subst n. by rewrite lookup_app_r, Nat.sub_diag by lia. }
    assert (deref (h ++ [scLabels c; scExtraFlags c; scAnnotations c]) (Some (S n))
            = scExtraFlags c) as ->.
    { cbn. subst n. rewrite lookup_app_r by lia.
      by replace (S (List.length h) - List.length h)%nat with 1%nat by lia. }
    assert (deref (h ++ [scLabels c; scExtraFlags c; scAnnotations c])
              (Some (S (S n))) = scAnnotations c) as ->.
    { cbn. subst n. rewrite lookup_app_r by lia.
      by replace (S (S (List.length h)) - List.length h)%nat with 2%nat by lia. }
    reflexivity.
Qed.

(** The inner loop over any list of indices. *)
Lemma tabletSpec_fold vts parentLabels keyspaceName pool backupLocation
  (indices : list Z) :
  forall (tablets : list vttablet.Spec) (h : Heap),
    stepInputsValid h vts parentLabels pool backupLocation ->
    exists new ext,
      fold_left
        (fun s i =>
           tabletSpec vts parentLabels keyspaceName pool backupLocation i s)
        indices (tablets, h) = (tablets ++ new, h ++ ext) /\
      Forall (validSpec (h ++ ext)) new /\
      content (h ++ ext) <$> new =
      tabletContent h vts parentLabels keyspaceName pool backupLocation
      <$> indices /\
      identity <$> new =
      (fun i =>
         (planetscalev2.Cell pool, planetscalev2.Type_ pool, i,
          vttablet_UID (planetscalev2.Cell pool) keyspaceName
            (planetscalev2.KeyRange (planetscalev2.Spec vts))
            (planetscalev2.Type_ pool) (Go.uint32 i))) <$> indices /\
      Forall (fun t => vttablet.BackupLocation t = backupLocation /\
                       planetscalev2.vttabletRest (vttablet.Vttablet t) =
                       planetscalev2.vttabletRest (planetscalev2.Vttablet pool) /\
                       exists l, planetscalev2.ExtraFlags (vttablet.Vttablet t) = Some l /\
                                 (List.length h <= l)%nat) new.
Proof.
  induction indices as [| i rest IH]; intros tablets h Hvalid; cbn [fold_left].
  - exists [], []. by rewrite !app_nil_r.
  - rewrite tabletSpec_step by done.
    destruct (tabletRecord_content vts parentLabels keyspaceName pool
                backupLocation i h Hvalid) as [Hvt Hct].
    set (c := tabletContent h vts parentLabels keyspaceName pool backupLocation i)
      in *.
    set (ms := [scLabels c; scExtraFlags c; scAnnotations c]) in *.
    set (t := tabletRecord _ _ _ _ _ _ _ _ _) in *.
    destruct (IH (tablets ++ [t]) (h ++ ms)) as (new & ext & -> & Hv & Hc & Hid & Hcopy).
    { by apply stepInputsValid_app. }
    exists (t :: new), (ms ++ ext).
    rewrite <- !(assoc_L (++)). cbn [app]. split; [done |].
    rewrite <- (assoc_L (++)) in Hv, Hc. split; [| split; [| split]].
    + apply Forall_cons. split; [| done].
      rewrite (assoc_L (++)). by apply validSpec_app.
    + cbn [fmap list_fmap]. f_equal.
      * rewrite (assoc_L (++)). by rewrite content_app.
      * rewrite Hc. apply list_fmap_ext. intros _ j _.
        by apply tabletContent_app.
    + cbn. by f_equal.
    + apply Forall_cons. split.
      * split; [done |]. split; [done |]. exists (S (List.length h)). split; [done | lia].
      * eapply Forall_impl; [exact Hcopy |]. intros t' (? & ? & l & ? & Hl).
        split; [done |]. split; [done |]. exists l. split; [done |].
        rewrite length_app in Hl. lia.
Qed.


Lemma backupLocation_valid (h : Heap) (spec : planetscalev2.VitessShardSpec)
  (name : string) :
  Forall (fun bl => validRef h (planetscalev2.blAnnotations bl))
    (planetscalev2.BackupLocations spec) ->
  validRef h
    (bl ← planetscalev2.BackupLocation spec name; planetscalev2.blAnnotations bl).
Proof.
  intros Hall. unfold planetscalev2.BackupLocation.
  destruct (List.find _ _) as [bl |] eqn:Hfind; [| done]. cbn.
  apply find_some in Hfind as [Hin _].
  rewrite Forall_forall in Hall. apply Hall. by apply list_elem_of_In.
Qed.

(** The outer loop over any list of pools. *)
Lemma shardFold_spec vts parentLabels keyspaceName
  (pools : list planetscalev2.VitessShardTabletPool) :
  forall (tablets : list vttablet.Spec) (h : Heap),
    validRef h parentLabels ->
    validRef h (planetscalev2.ExtraVitessFlags (planetscalev2.Spec vts)) ->
    validRef h (planetscalev2.ZoneMap (planetscalev2.Spec vts)) ->
    Forall (fun bl => validRef h (planetscalev2.blAnnotations bl))
      (planetscalev2.BackupLocations (planetscalev2.Spec vts)) ->
    Forall (validPool h) pools ->
    exists new ext,
      shardFold vts parentLabels keyspaceName pools (tablets, h) =
      (tablets ++ new, h ++ ext) /\
      Forall (validSpec (h ++ ext)) new /\
      content (h ++ ext) <$> new =
      (pool ← pools;
       tabletContent h vts parentLabels keyspaceName pool
         (planetscalev2.BackupLocation (planetscalev2.Spec vts)
            (planetscalev2.BackupLocationName pool))
       <$> poolIndices pool) /\
      identity <$> new =
      (pool ← pools;
       (fun i =>
          (planetscalev2.Cell pool, planetscalev2.Type_ pool, i,
           vttablet_UID (planetscalev2.Cell pool) keyspaceName
             (planetscalev2.KeyRange (planetscalev2.Spec vts))
             (planetscalev2.Type_ pool) (Go.uint32 i))) <$> poolIndices pool) /\
      Forall (copiedFrom h vts pools) new.
Proof.
  induction pools as [| pool rest IH];
    intros tablets h Hpl Hglobal Hzone Hbls Hpools; cbn [shardFold fold_left].
  - exists [], []. by rewrite !app_nil_r.
  - apply Forall_cons in Hpools as [Hpool Hrest].
    assert (stepInputsValid h vts parentLabels pool
              (planetscalev2.BackupLocation (planetscalev2.Spec vts)
                 (planetscalev2.BackupLocationName pool))) as Hstep.
    { repeat split; try done; try apply Hpool. by apply backupLocation_valid. }
    unfold poolFold at 2.
    destruct (tabletSpec_fold vts parentLabels keyspaceName pool _
                (poolIndices pool) tablets h Hstep)
      as (new1 & ext1 & -> & Hv1 & Hc1 & Hid1 & Hcopy1).
    destruct (IH (tablets ++ new1) (h ++ ext1))
      as (new2 & ext2 & Hfold & Hv2 & Hc2 & Hid2 & Hcopy2).
    { by apply validRef_app. } { by apply validRef_app. } { by apply validRef_app. }
    { eapply Forall_impl; [exact Hbls |]. intros bl. apply validRef_app. }
    { eapply Forall_impl; [exact Hrest |]. intros p (? & ? & ?).
      repeat split; by apply validRef_app. }
    unfold shardFold in Hfold. rewrite Hfold.
    exists (new1 ++ new2), (ext1 ++ ext2).
    rewrite <- !(assoc_L (++)). split; [done |].
    rewrite <- (assoc_L (++)) in Hv2, Hc2. split; [| split; [| split]].
    + apply Forall_app. split; [| done].
      eapply Forall_impl; [exact Hv1 |]. intros t Ht.
      rewrite (assoc_L (++)). by apply validSpec_app.
    + rewrite fmap_app. cbn [mbind list_bind]. f_equal.
      * rewrite <- Hc1. apply Forall_fmap_ext_1.
        eapply Forall_impl; [exact Hv1 |]. intros t Ht. cbn.
        rewrite (assoc_L (++)). by apply content_app.
      * rewrite Hc2. clear -Hrest Hpl Hglobal Hzone Hbls.
        induction rest as [| p rest IHrest]; [done |]. cbn [mbind list_bind].
        apply Forall_cons in Hrest as [Hp Hrest]. f_equal; [| by apply IHrest].
        apply list_fmap_ext. intros _ j _. apply tabletContent_app.
        repeat split; try done; try apply Hp. by apply backupLocation_valid.
    + rewrite fmap_app. cbn [mbind list_bind]. by f_equal.
    + apply Forall_app. split.
      * eapply Forall_impl; [exact Hcopy1 |]. intros t (? & ? & ?).
        exists pool. split; [by left | done].
      * eapply Forall_impl; [exact Hcopy2 |].
        intros t (p & Hin & ? & ? & l & ? & Hl).
        exists p. split; [by right |]. split; [done |]. split; [done |].
        exists l. split; [done |]. rewrite length_app in Hl. lia.
Qed.


Lemma uint32_index (pool : planetscalev2.VitessShardTabletPool) (i : Z) :
  planetscalev2.Replicas pool < Go.MaxInt32 -> i ∈ poolIndices pool ->
  Go.uint32 i = i.
Proof.
  unfold poolIndices, Go.uint32, Go.MaxInt32. intros Hmax Hin.
  apply elem_of_seqZ in Hin. apply Z.mod_small. lia.
Qed.

(** [vttabletSpecs] on valid inputs, with pools below [MaxInt32] and enough
    fuel: it returns, the heap of before is a prefix of the heap of after,
    and the specs are those of the pools in order, each pool with the
    indices from 1 to its replicas. *)
Lemma vttabletSpecs_run (fuel : nat) (vts : planetscalev2.VitessShard)
  (parentLabels : MapRef) (h : Heap) :
  validInputs h vts parentLabels -> replicasBelow fuel vts ->
  let keyspaceName :=
    Go.index (deref h (planetscalev2.Labels vts)) KeyspaceLabel in
  let keyRange := planetscalev2.KeyRange (planetscalev2.Spec vts) in
  let pools := planetscalev2.TabletPools (planetscalev2.Spec vts) in
  exists tablets ext,
    vttabletSpecs fuel vts parentLabels h = Some (tablets, h ++ ext) /\
    Forall (validSpec (h ++ ext)) tablets /\
    content (h ++ ext) <$> tablets = expectedContents h vts parentLabels /\
    identity <$> tablets =
    (pool ← pools; identityOf keyspaceName keyRange pool <$> poolIndices pool) /\
    Forall (copiedFrom h vts pools) tablets.
Proof.
  intros (Hpl & Hlabels & Hglobal & Hzone & Hpools & Hbls) Hfuel
    keyspaceName keyRange pools.
  unfold vttabletSpecs. fold keyspaceName pools.
  rewrite poolSpecs_fold by exact Hfuel.
  destruct (shardFold_spec vts parentLabels keyspaceName pools [] h
              Hpl Hglobal Hzone Hbls Hpools)
    as (tablets & ext & -> & Hv & Hc & Hid & Hcopy).
  exists tablets, ext. split; [done |]. split; [done |]. split; [done |].
  split; [| done]. rewrite Hid. apply Forall_bind_ext.
  unfold replicasBelow in Hfuel. fold pools in Hfuel.
  eapply Forall_impl; [exact Hfuel |]. intros pool [Hmax _].
  apply Forall_fmap_ext_1, Forall_forall. intros i Hin.
  unfold identityOf. by rewrite (uint32_index pool i Hmax Hin).
Qed.

Lemma NoDup_fmap_eq {A B : Type} (f : A -> B) (l : list A) (x y : A) :
  NoDup (f <$> l) -> x ∈ l -> y ∈ l -> f x = f y -> x = y.
Proof.
  intros Hnd [i Hi]%list_elem_of_lookup [j Hj]%list_elem_of_lookup Heq.
  assert (i = j) as ->.
  { apply (NoDup_lookup (f <$> l) i j (f x)); [done | |];
      rewrite list_lookup_fmap; [by rewrite Hi | by rewrite Hj, Heq]. }
  congruence.
Qed.

(** With pools of distinct (cell, type) and a UID that does not collide on
    the shard's identities, the UIDs of the pools are pairwise apart. *)
Lemma poolUIDs_apart (keyspaceName : string)
  (keyRange : planetscalev2.VitessKeyRange)
  (pools : list planetscalev2.VitessShardTabletPool) :
  NoDup ((fun p => (planetscalev2.Cell p, planetscalev2.Type_ p)) <$> pools) ->
  uidInjectiveOn keyspaceName keyRange pools ->
  noReuseAcrossPools keyspaceName keyRange pools /\
  NoDup (pool ← pools; poolUIDs keyspaceName keyRange pool).
Proof.
  intros Hpools Hinj.
  assert (forall p q u, p ∈ pools -> q ∈ pools ->
            u ∈ poolUIDs keyspaceName keyRange p ->
            u ∈ poolUIDs keyspaceName keyRange q -> p = q) as Hsame.
  { intros p q u Hp Hq (i & -> & Hi)%list_elem_of_fmap (j & Heq & Hj)%list_elem_of_fmap.
    destruct (Hinj p q i j Hp Hq Hi Hj Heq) as (Hcell & Htype & _).
    apply (NoDup_fmap_eq _ pools p q Hpools Hp Hq). by rewrite Hcell, Htype. }
  split.
  - intros i j p q u Hne Hi Hj Hu Hu'.
    assert (p = q) as ->.
    { apply (Hsame p q u); [by eapply list_elem_of_lookup_2 .. | done | done]. }
    apply Hne. eapply NoDup_lookup; [by eapply NoDup_fmap_1 | done | done].
  - apply NoDup_bind; [exact Hsame | | by eapply NoDup_fmap_1].
    intros p Hp. unfold poolUIDs. apply NoDup_fmap_2_strong; [| apply NoDup_seqZ].
    intros i j Hi Hj Heq. by destruct (Hinj p p i j Hp Hp Hi Hj Heq) as (_ & _ & ?).
Qed.

(** C7, as the code has it: for a shard whose pools ask for fewer than
    [MaxInt32] replicas, the compiler returns and gives each pool, in
    order, the indices 1 to its replica count with no gap, the UID of each
    tablet being [vttablet.UID] of (cell, keyspace, key range, pool type,
    index).  No UID of one pool is assigned in another pool, and no UID is
    assigned twice, provided that no two pools have the same cell and type
    and that [vttablet.UID] does not collide on the identities of the
    shard. *)
Theorem ordinals_one_to_replicas (fuel : nat) (vts : planetscalev2.VitessShard)
  (parentLabels : MapRef) (h : Heap)
  (Hvalid : validInputs h vts parentLabels) (Hfuel : replicasBelow fuel vts) :
  let keyspaceName :=
    Go.index (deref h (planetscalev2.Labels vts)) KeyspaceLabel in
  let keyRange := planetscalev2.KeyRange (planetscalev2.Spec vts) in
  let pools := planetscalev2.TabletPools (planetscalev2.Spec vts) in
  exists tablets h',
    vttabletSpecs fuel vts parentLabels h = Some (tablets, h') /\
    identity <$> tablets =
    (pool ← pools;
     identityOf keyspaceName keyRange pool
     <$> seqZ 1 (planetscalev2.Replicas pool)) /\
    (NoDup ((fun p => (planetscalev2.Cell p, planetscalev2.Type_ p)) <$> pools) ->
     uidInjectiveOn keyspaceName keyRange pools ->
     noReuseAcrossPools keyspaceName keyRange pools /\
     NoDup ((fun t => topodatapb.Uid (vttablet.Alias t)) <$> tablets)).
Proof.
  intros keyspaceName keyRange pools.
  destruct (vttabletSpecs_run fuel vts parentLabels h Hvalid Hfuel)
    as (tablets & ext & Hrun & _ & _ & Hid & _).
  fold keyspaceName keyRange pools in Hid.
  exists tablets, (h ++ ext). split; [done |]. split; [exact Hid |].
  intros Hpools Hinj.
  destruct (poolUIDs_apart keyspaceName keyRange pools Hpools Hinj)
    as [Hapart Hnodup].
  split; [done |].
  replace ((fun t => topodatapb.Uid (vttablet.Alias t)) <$> tablets)
    with (snd <$> (identity <$> tablets))
    by (rewrite <- list_fmap_compose; by apply list_fmap_ext).
  rewrite Hid.
  replace (snd <$> (pool ← pools;
                    identityOf keyspaceName keyRange pool <$> poolIndices pool))
    with (pool ← pools; poolUIDs keyspaceName keyRange pool); [done |].
  clear. induction pools as [| p rest IH]; [done |].
  cbn [mbind list_bind]. rewrite fmap_app, <- IH. f_equal.
  unfold poolUIDs. rewrite <- list_fmap_compose. by apply list_fmap_ext.
Qed.

(** On a pool of [MaxInt32] replicas the inner loop never ends: the
    increment of the index wraps around, and no bound suffices. *)
Lemma vttabletSpecs_MaxInt32 (fuel : nat) (vts : planetscalev2.VitessShard)
  (parentLabels : MapRef) (h : Heap) pool rest :
  planetscalev2.TabletPools (planetscalev2.Spec vts) = pool :: rest ->
  planetscalev2.Replicas pool = Go.MaxInt32 ->
  vttabletSpecs fuel vts parentLabels h = None.
Proof.
  intros Hpools Hmax. unfold vttabletSpecs. rewrite Hpools. cbn [poolSpecs].
  rewrite Hmax, forInt32_MaxInt32; [done |].
  unfold Go.inInt32, Go.MinInt32, Go.MaxInt32. lia.
Qed.

Lemma validInputs_app (h ext : Heap) vts parentLabels :
  validInputs h vts parentLabels -> validInputs (h ++ ext) vts parentLabels.
Proof.
  intros (? & ? & ? & ? & Hpools & Hbls).
  repeat split; try by apply validRef_app.
  - eapply Forall_impl; [exact Hpools |]. intros p (? & ? & ?).
    repeat split; by apply validRef_app.
  - eapply Forall_impl; [exact Hbls |]. intros bl. apply validRef_app.
Qed.

Lemma expectedContents_app (h ext : Heap) vts parentLabels :
  validInputs h vts parentLabels ->
  expectedContents (h ++ ext) vts parentLabels =
  expectedContents h vts parentLabels.
Proof.
  intros (Hpl & Hlabels & Hglobal & Hzone & Hpools & Hbls).
  unfold expectedContents. rewrite (deref_app h ext _ Hlabels).
  apply Forall_bind_ext. eapply Forall_impl; [exact Hpools |]. intros p Hp.
  apply list_fmap_ext. intros _ i _. apply tabletContent_app.
  repeat split; try done; try apply Hp. by apply backupLocation_valid.
Qed.

(** In the extra flags of a tablet the pool's flags override the global
    ones. *)
Lemma tabletContent_extraFlags (h : Heap) vts parentLabels keyspaceName pool
  backupLocation i (k : string) :
  scExtraFlags
    (tabletContent h vts parentLabels keyspaceName pool backupLocation i) !! k =
  match deref h (planetscalev2.ExtraFlags (planetscalev2.Vttablet pool)) !! k with
  | Some v => Some v
  | None =>
      deref h (planetscalev2.ExtraVitessFlags (planetscalev2.Spec vts)) !! k
  end.
Proof.
  unfold tabletContent. cbn [scExtraFlags].
  rewrite (right_id_L ∅ (∪)), lookup_union.
  by destruct (deref h (planetscalev2.ExtraFlags _) !! k),
       (deref h (planetscalev2.ExtraVitessFlags _) !! k).
Qed.


(** C9: the compiler is deterministic and leaves its inputs alone.  Run on
    valid inputs, and run again on the same shard and labels in the heap the
    first run left, it returns both times, and the two lists of specs are
    the same, spec by spec in the same order, once their maps are read
    through the heap; in particular the aliases are the same.  Every map
    that existed before is unchanged after both runs: the runs only add maps
    to the heap.  The template of a pool is copied: a spec has the
    template's other fields, and its extra flags are a map that did not
    exist before, holding the global flags overridden by the pool's. *)
Theorem vttabletSpecs_deterministic (fuel : nat)
  (vts : planetscalev2.VitessShard) (parentLabels : MapRef) (h : Heap)
  (Hvalid : validInputs h vts parentLabels) (Hfuel : replicasBelow fuel vts) :
  exists tablets1 ext1 tablets2 ext2,
    vttabletSpecs fuel vts parentLabels h = Some (tablets1, h ++ ext1) /\
    vttabletSpecs fuel vts parentLabels (h ++ ext1) =
    Some (tablets2, (h ++ ext1) ++ ext2) /\
    content ((h ++ ext1) ++ ext2) <$> tablets2 =
    content (h ++ ext1) <$> tablets1 /\
    content ((h ++ ext1) ++ ext2) <$> tablets1 =
    content (h ++ ext1) <$> tablets1 /\
    (fun t => (vttablet.Alias t, vttablet.AliasStr t)) <$> tablets2 =
    (fun t => (vttablet.Alias t, vttablet.AliasStr t)) <$> tablets1 /\
    content (h ++ ext1) <$> tablets1 = expectedContents h vts parentLabels /\
    (forall l m, h !! l = Some m -> ((h ++ ext1) ++ ext2) !! l = Some m) /\
    Forall
      (copiedFrom h vts (planetscalev2.TabletPools (planetscalev2.Spec vts)))
      tablets1.
Proof.
  destruct (vttabletSpecs_run fuel vts parentLabels h Hvalid Hfuel)
    as (tablets1 & ext1 & Hrun1 & Hv1 & Hc1 & _ & Hcopy).
  destruct (vttabletSpecs_run fuel vts parentLabels (h ++ ext1)
              (validInputs_app h ext1 vts parentLabels Hvalid) Hfuel)
    as (tablets2 & ext2 & Hrun2 & _ & Hc2 & _ & _).
  rewrite (expectedContents_app h ext1 vts parentLabels Hvalid) in Hc2.
  exists tablets1, ext1, tablets2, ext2.
  assert (content ((h ++ ext1) ++ ext2) <$> tablets2 =
          content (h ++ ext1) <$> tablets1) as Hsame by congruence.
  split; [done |]. split; [done |]. split; [done |]. split.
  { apply Forall_fmap_ext_1. eapply Forall_impl; [exact Hv1 |].
    intros t Ht. by apply content_app. }
  split.
  { apply (f_equal (fmap (fun c => (vttablet.Alias (scFields c),
                                    vttablet.AliasStr (scFields c))))) in Hsame.
    by rewrite <- !list_fmap_compose in Hsame. }
  split; [done |]. split; [| done].
  intros l m Hl. rewrite <- (assoc_L (++)). rewrite lookup_app_l; [done |].
  by eapply lookup_lt_Some.
Qed.

(** The UID does not collide on the identities of a shard when the UIDs of
    its pools, listed pool by pool, are all different: a check by
    computation. *)
Lemma uidInjectiveOn_NoDup (keyspaceName : string)
  (keyRange : planetscalev2.VitessKeyRange)
  (pools : list planetscalev2.VitessShardTabletPool) :
  NoDup (pool ← pools; poolUIDs keyspaceName keyRange pool) ->
  uidInjectiveOn keyspaceName keyRange pools.
Proof.
  induction pools as [| a rest IH]; intros Hnd p q i j Hp Hq Hi Hj Heq.
  - by apply elem_of_nil in Hp.
  - cbn [mbind list_bind] in Hnd.
    apply NoDup_app in Hnd as (Ha & Hapart & Hrest).
    assert (forall r k, r ∈ rest -> k ∈ poolIndices r ->
              vttablet_UID (planetscalev2.Cell r) keyspaceName keyRange
                (planetscalev2.Type_ r) k
              ∈ (pool ← rest; poolUIDs keyspaceName keyRange pool)) as Hin.
    { intros r k Hr Hk. apply list_elem_of_bind. exists r. split; [| done].
      unfold poolUIDs. apply list_elem_of_fmap. by exists k. }
    assert (forall k, k ∈ poolIndices a ->
              vttablet_UID (planetscalev2.Cell a) keyspaceName keyRange
                (planetscalev2.Type_ a) k ∈ poolUIDs keyspaceName keyRange a)
      as Hina.
    { intros k Hk. unfold poolUIDs. apply list_elem_of_fmap. by exists k. }
    apply elem_of_cons in Hp as [-> | Hp]; apply elem_of_cons in Hq as [-> | Hq].
    + split; [done |]. split; [done |].
      by apply (NoDup_fmap_eq _ (poolIndices a) i j Ha Hi Hj).
    + exfalso. apply (Hapart _ (Hina i Hi)). rewrite Heq. by apply Hin.
    + exfalso. apply (Hapart _ (Hina j Hj)). rewrite <- Heq. by apply Hin.
    + by apply (IH Hrest p q i j).
Qed.

(** ** Status entries of the desired tablets, from valid inputs *)

(** [reconcileTablets] up to the loop, on valid inputs: the desired tablets
    are computed, and they are those of the pools. *)
Lemma desiredTablets_run (fuel : nat) (vts : planetscalev2.VitessShard) (h : Heap) :
  validInputs h vts None -> replicasBelow fuel vts ->
  let keyspaceName :=
    Go.index (deref h (planetscalev2.Labels vts)) KeyspaceLabel in
  let keyRange := planetscalev2.KeyRange (planetscalev2.Spec vts) in
  let pools := planetscalev2.TabletPools (planetscalev2.Spec vts) in
  exists tablets h',
    desiredTablets fuel vts h =
    Some (Go.index (deref h (planetscalev2.Labels vts)) ClusterLabel, tablets, h') /\
    identity <$> tablets =
    (pool ← pools; identityOf keyspaceName keyRange pool <$> poolIndices pool).
Proof.
  intros Hvalid Hfuel keyspaceName keyRange pools. unfold desiredTablets, make.
  set (m := <[ShardLabel := _]> _).
  assert (validInputs (h ++ [m]) vts (Some (List.length h))) as Hvalid'.
  { destruct (validInputs_app h [m] vts None Hvalid) as (_ & Hrest).
    split; [| exact Hrest]. cbn. rewrite length_app. cbn. lia. }
  destruct (vttabletSpecs_run fuel vts (Some (List.length h)) (h ++ [m])
              Hvalid' Hfuel) as (tablets & ext & Hrun & _ & _ & Hid & _).
  rewrite Hrun. cbn [mbind option_bind].
  exists tablets, ((h ++ [m]) ++ ext). split; [done |].
  rewrite Hid. destruct Hvalid as (_ & Hlabels & _).
  by rewrite (deref_app h [m] _ Hlabels).
Qed.

(** The tablets that the loop binds in [tabletMap] have the aliases of the
    tablets of the list. *)
Lemma registerTablet_values (clusterName namespace : string)
  (tablets : list vttablet.Spec) :
  forall acc key t,
    tabletMap (fold_left (registerTablet clusterName namespace) tablets acc).2
    !! key = Some t ->
    (exists t0, t0 ∈ tablets /\ vttablet.AliasStr t0 = vttablet.AliasStr t) \/
    tabletMap acc.2 !! key = Some t.
Proof.
  induction tablets as [| t0 rest IH]; intros acc key t Hlook; cbn in Hlook.
  - by right.
  - destruct (IH _ key t Hlook) as [(t1 & Hin & Heq) | Hprev].
    + left. exists t1. split; [by right | done].
    + destruct acc as [[pvcKeys podKeys] st]. unfold registerTablet in Hprev.
      destruct (vttablet.DataVolumePVCSpec t0); cbn in Hprev;
        (destruct (decide (key = {| Namespace := namespace;
             Name := vttablet_PodName clusterName (vttablet.Alias t0) |}))
           as [-> | Hne];
         [ rewrite lookup_insert_eq in Hprev; injection Hprev as <-;
           left; exists t0; split; [by left | done]
         | rewrite lookup_insert_ne in Hprev by done; by right ]).
Qed.

(** No callback changes the pool type or the index of an entry of the
    tablet status map. *)
Lemma callbackStep_keeps_identity (client : Client) (topo : Toposerver)
  (vts : planetscalev2.VitessShard) (now : Timestamp) (st st' : PassState) :
  callbackStep client topo vts now st st' ->
  forall a s,
    planetscalev2.Tablets (status st) !! a = Some s ->
    exists s',
      planetscalev2.Tablets (status st') !! a = Some s' /\
      planetscalev2.PoolType s' = planetscalev2.PoolType s /\
      planetscalev2.Index s' = planetscalev2.Index s.
Proof.
  assert (forall (st : PassState) a b s f,
            planetscalev2.Tablets (status st) !! a = Some s ->
            (forall x, planetscalev2.PoolType (f x) = planetscalev2.PoolType x /\
                       planetscalev2.Index (f x) = planetscalev2.Index x) ->
            exists s',
              <[b := f (tabletStatusOf st b)]>
                (planetscalev2.Tablets (status st)) !! a = Some s' /\
              planetscalev2.PoolType s' = planetscalev2.PoolType s /\
              planetscalev2.Index s' = planetscalev2.Index s) as Hins.
  { intros st0 a b s f Hlook Hf. destruct (decide (b = a)) as [-> | Hne].
    - rewrite lookup_insert_eq. eexists. split; [done |].
      unfold tabletStatusOf. rewrite Hlook. cbn. apply Hf.
    - rewrite lookup_insert_ne by done. by exists s. }
  intros Hstep a s Hlook. destruct Hstep as
    [ key obj st st' H | key obj st st' H | key obj st st' H
    | key obj obj' st st' H | key obj st st' H | key obj o st | key obj st ].
  - unfold pvcNew in H. destruct (tabletMap st !! key) as [t |]; [| done].
    cbn in H. injection H as _ <-. cbn.
    by apply (Hins st a _ s (setDataVolumeBound ConditionFalse)).
  - unfold pvcStatus in H. destruct (tabletMap st !! key) as [t |]; [| done].
    cbn in H. injection H as <-. cbn.
    by apply (Hins st a _ s (setDataVolumeBound _)).
  - unfold podNew in H. destruct (tabletMap st !! key) as [t |]; [| done].
    cbn in H. injection H as _ <-. cbn.
    by apply (Hins st a _ s
                (fun x => setAvailable ConditionFalse
                            (setReady ConditionFalse
                               (setRunning ConditionFalse x)))).
  - unfold podUpdateRollingRecreate in H.
    destruct (tabletMap st !! key); [| done].
    cbn in H. destruct (updatePVCFilesystemResizeAnnotation _ _ _ _); [| done].
    cbn in H. injection H as _ <-. by exists s.
  - unfold podStatus in H. destruct (tabletMap st !! key) as [t |]; [| done].
    cbn [mbind option_bind] in H.
    destruct (IsPodReady obj);
      [destruct (tabletAvailableStatus (resultBuilder st) obj now) as [av rb] |];
      (destruct (String.eqb _ "");
       [| destruct (Go.ParseInt _); [destruct ((_ =? 0) || (_ <? _)) |]]);
      injection H as <-; cbn;
      first
        [ by apply (Hins st a _ s
                      (fun x => setPendingChanges _
                                  (setAvailable av
                                     (setReady ConditionTrue (setRunning _ x)))))
        | by apply (Hins st a _ s
                      (fun x => setPendingChanges _ (setRunning _ x))) ].
  - cbn. by exists s.
  - unfold podPrepareForTurndown.
    destruct (negb (drain_Finished obj)); [by exists s |].
    destruct (isTabletPrimary _ _ _ _ _) as [[isPrimary err] calls].
    destruct err; [by exists s |]. destruct isPrimary; [by exists s |].
    destruct (negb _); by exists s.
Qed.

(** The [New] callbacks, for a key of [tabletMap] whose tablet has an entry:
    the conditions of the missing object are set to False in the entry, and
    the rest of the entry and the other entries are as they were. *)
Lemma new_callbacks_entry (st : PassState) (key : ObjectKey)
  (t : vttablet.Spec) (old : planetscalev2.VitessTabletStatus) :
  tabletMap st !! key = Some t ->
  planetscalev2.Tablets (status st) !! vttablet.AliasStr t = Some old ->
  (exists obj st' s,
     pvcNew key st = Some (obj, st') /\
     planetscalev2.Tablets (status st') !! vttablet.AliasStr t = Some s /\
     planetscalev2.DataVolumeBound s = ConditionFalse /\
     planetscalev2.Running s = planetscalev2.Running old /\
     planetscalev2.Ready s = planetscalev2.Ready old /\
     planetscalev2.Available s = planetscalev2.Available old /\
     planetscalev2.PoolType s = planetscalev2.PoolType old /\
     planetscalev2.Index s = planetscalev2.Index old /\
     planetscalev2.PendingChanges s = planetscalev2.PendingChanges old /\
     (forall a, a <> vttablet.AliasStr t ->
        planetscalev2.Tablets (status st') !! a =
        planetscalev2.Tablets (status st) !! a)) /\
  (exists obj st' s,
     podNew key st = Some (obj, st') /\
     planetscalev2.Tablets (status st') !! vttablet.AliasStr t = Some s /\
     planetscalev2.Running s = ConditionFalse /\
     planetscalev2.Ready s = ConditionFalse /\
     planetscalev2.Available s = ConditionFalse /\
     planetscalev2.DataVolumeBound s = planetscalev2.DataVolumeBound old /\
     planetscalev2.PoolType s = planetscalev2.PoolType old /\
     planetscalev2.Index s = planetscalev2.Index old /\
     planetscalev2.PendingChanges s = planetscalev2.PendingChanges old /\
     (forall a, a <> vttablet.AliasStr t ->
        planetscalev2.Tablets (status st') !! a =
        planetscalev2.Tablets (status st) !! a)).
Proof.
  intros Ht Hold. unfold pvcNew, podNew. rewrite Ht. cbn [mbind option_bind].
  unfold tabletStatusOf. rewrite Hold. cbn [default].
  split; do 3 eexists; (split; [reflexivity |]);
    (split; [rewrite putTabletStatus_lookup; reflexivity |]); cbn;
    repeat (split; [reflexivity |]); intros a Ha; by rewrite lookup_insert_ne.
Qed.

(** C8: on valid inputs the start of [reconcileTablets], which reads no
    object of the cluster, returns: the desired tablets are those of the
    pools, and the status map has an entry for each, a new status with the
    pool type and the index of the tablet.  In every state of the pass,
    whatever exists in the cluster, every desired tablet still has its entry
    with that pool type and index; and for every key asked for, the [New]
    callback of a missing object sets the conditions of the object to False
    in the entry of the tablet (DataVolumeBound for a claim; Running, Ready
    and Available for a pod) and keeps the rest of the entry, its pool type
    and index among it, and the other entries. *)
Theorem desired_tablets_always_listed (fuel : nat)
  (vts : planetscalev2.VitessShard) (status0 : planetscalev2.VitessShardStatus)
  (h : Heap)
  (Hvalid : validInputs h vts None) (Hfuel : replicasBelow fuel vts) :
  let seed := fun t =>
    NewVitessTabletStatus (vttablet.Type_ t) (vttablet.Index t) in
  exists clusterName tablets h' pvcKeys podKeys st0,
    desiredTablets fuel vts h = Some (clusterName, tablets, h') /\
    identity <$> tablets =
    (pool ← planetscalev2.TabletPools (planetscalev2.Spec vts);
     identityOf (Go.index (deref h (planetscalev2.Labels vts)) KeyspaceLabel)
       (planetscalev2.KeyRange (planetscalev2.Spec vts)) pool
     <$> poolIndices pool) /\
    reconcileTabletsStart fuel vts status0 h = Some (pvcKeys, podKeys, st0) /\
    List.length podKeys = List.length tablets /\
    (forall t, t ∈ tablets ->
       exists t',
         t' ∈ tablets /\ vttablet.AliasStr t' = vttablet.AliasStr t /\
         planetscalev2.Tablets (status st0) !! vttablet.AliasStr t =
         Some (seed t')) /\
    (forall client topo now st,
       passState client topo vts now st0 st ->
       (forall t, t ∈ tablets ->
          exists t' s,
            t' ∈ tablets /\ vttablet.AliasStr t' = vttablet.AliasStr t /\
            planetscalev2.Tablets (status st) !! vttablet.AliasStr t = Some s /\
            planetscalev2.PoolType s = planetscalev2.PoolType (seed t') /\
            planetscalev2.Index s = planetscalev2.Index (seed t')) /\
       (forall key, key ∈ podKeys ->
          exists t t' old obj st' s,
            tabletMap st !! key = Some t /\
            t' ∈ tablets /\ vttablet.AliasStr t' = vttablet.AliasStr t /\
            planetscalev2.Tablets (status st) !! vttablet.AliasStr t = Some old /\
            podNew key st = Some (obj, st') /\
            planetscalev2.Tablets (status st') !! vttablet.AliasStr t = Some s /\
            planetscalev2.Running s = ConditionFalse /\
            planetscalev2.Ready s = ConditionFalse /\
            planetscalev2.Available s = ConditionFalse /\
            planetscalev2.DataVolumeBound s = planetscalev2.DataVolumeBound old /\
            planetscalev2.PendingChanges s = planetscalev2.PendingChanges old /\
            planetscalev2.PoolType s = planetscalev2.PoolType (seed t') /\
            planetscalev2.Index s = planetscalev2.Index (seed t') /\
            (forall a, a <> vttablet.AliasStr t ->
               planetscalev2.Tablets (status st') !! a =
               planetscalev2.Tablets (status st) !! a)) /\
       (forall key, key ∈ pvcKeys ->
          exists t t' old obj st' s,
            tabletMap st !! key = Some t /\
            t' ∈ tablets /\ vttablet.AliasStr t' = vttablet.AliasStr t /\
            planetscalev2.Tablets (status st) !! vttablet.AliasStr t = Some old /\
            pvcNew key st = Some (obj, st') /\
            planetscalev2.Tablets (status st') !! vttablet.AliasStr t = Some s /\
            planetscalev2.DataVolumeBound s = ConditionFalse /\
            planetscalev2.Running s = planetscalev2.Running old /\
            planetscalev2.Ready s = planetscalev2.Ready old /\
            planetscalev2.Available s = planetscalev2.Available old /\
            planetscalev2.PendingChanges s = planetscalev2.PendingChanges old /\
            planetscalev2.PoolType s = planetscalev2.PoolType (seed t') /\
            planetscalev2.Index s = planetscalev2.Index (seed t') /\
            (forall a, a <> vttablet.AliasStr t ->
               planetscalev2.Tablets (status st') !! a =
               planetscalev2.Tablets (status st) !! a))).
Proof.
  intros seed.
  destruct (desiredTablets_run fuel vts h Hvalid Hfuel)
    as (tablets & h' & Hdesired & Hid).
  unfold reconcileTabletsStart. rewrite Hdesired. cbn [mbind option_bind].
  set (clusterName := Go.index _ ClusterLabel) in *.
  set (acc0 := ([], [], startState status0 h')
               : list ObjectKey * list ObjectKey * PassState).
  pose proof (registerTablet_keys clusterName (planetscalev2.vtsNamespace vts)
                tablets acc0) as [Hlen Hkeys].
  pose proof (registerTablet_seeds clusterName (planetscalev2.vtsNamespace vts)
                tablets acc0) as Hseeds.
  pose proof (registerTablet_values clusterName (planetscalev2.vtsNamespace vts)
                tablets acc0) as Hvalues.
  destruct (fold_left _ tablets acc0) as [[pvcKeys podKeys] st0].
  cbn in Hlen, Hkeys, Hseeds, Hvalues.
  exists clusterName, tablets, h', pvcKeys, podKeys, st0.
  split; [done |]. split; [exact Hid |]. split; [done |]. split; [done |].
  split; [exact Hseeds |].
  intros client topo now st Hpass.
  assert (tabletMap st = tabletMap st0 /\
          forall a s0,
            planetscalev2.Tablets (status st0) !! a = Some s0 ->
            exists s,
              planetscalev2.Tablets (status st) !! a = Some s /\
              planetscalev2.PoolType s = planetscalev2.PoolType s0 /\
              planetscalev2.Index s = planetscalev2.Index s0)
    as [Hmap Hkept].
  { induction Hpass as [| st1 st2 Hpass [IHmap IHkept] Hstep].
    - split; [done |]. intros a s0 Hs0. by exists s0.
    - destruct (callbackStep_keeps _ _ _ _ _ _ Hstep) as [Hmap2 _].
      split; [congruence |]. intros a s0 Hs0.
      destruct (IHkept a s0 Hs0) as (s1 & Hs1 & Hp1 & Hi1).
      destruct (callbackStep_keeps_identity _ _ _ _ _ _ Hstep a s1 Hs1)
        as (s2 & Hs2 & Hp2 & Hi2).
      exists s2. split; [done |]. split; congruence. }
  assert (forall t, t ∈ tablets ->
            exists t' s,
              t' ∈ tablets /\ vttablet.AliasStr t' = vttablet.AliasStr t /\
              planetscalev2.Tablets (status st) !! vttablet.AliasStr t = Some s /\
              planetscalev2.PoolType s = planetscalev2.PoolType (seed t') /\
              planetscalev2.Index s = planetscalev2.Index (seed t')) as Hlisted.
  { intros t Hin. destruct (Hseeds t Hin) as (t' & Hin' & Heq & Hlook).
    destruct (Hkept _ _ Hlook) as (s & Hs & Hp & Hi). by exists t', s. }
  assert (forall key, key ∈ pvcKeys ++ podKeys ->
            exists t t' old,
              tabletMap st !! key = Some t /\
              t' ∈ tablets /\ vttablet.AliasStr t' = vttablet.AliasStr t /\
              planetscalev2.Tablets (status st) !! vttablet.AliasStr t = Some old /\
              planetscalev2.PoolType old = planetscalev2.PoolType (seed t') /\
              planetscalev2.Index old = planetscalev2.Index (seed t')) as Hbound.
  { intros key Hin. destruct (Hkeys ltac:(intros k Hk; by apply elem_of_nil in Hk)
                                key Hin) as [t Ht].
    destruct (Hvalues key t Ht) as [(t0 & Hin0 & Heq0) | Hempty];
      [| cbn in Hempty; by rewrite lookup_empty in Hempty].
    destruct (Hlisted t0 Hin0) as (t' & old & Hin' & Heq' & Hold & Hp & Hi).
    exists t, t', old. rewrite Hmap. split; [done |]. split; [done |].
    split; [congruence |]. rewrite <- Heq0. done. }
  split; [exact Hlisted |]. split.
  - intros key Hin.
    destruct (Hbound key) as (t & t' & old & Ht & Hin' & Heq & Hold & Hp & Hi).
    { apply elem_of_app. by right. }
    destruct (new_callbacks_entry st key t old Ht Hold)
      as [_ (obj & st' & s & Hnew & Hlook & Hr & Hy & Hav & Hb & Hpt & Hix & Hpc
             & Hothers)].
    exists t, t', old, obj, st', s. repeat (split; [done |]).
    split; [congruence |]. split; [congruence | done].
  - intros key Hin.
    destruct (Hbound key) as (t & t' & old & Ht & Hin' & Heq & Hold & Hp & Hi).
    { apply elem_of_app. by left. }
    destruct (new_callbacks_entry st key t old Ht Hold)
      as [(obj & st' & s & Hnew & Hlook & Hb & Hr & Hy & Hav & Hpt & Hix & Hpc
           & Hothers) _].
    exists t, t', old, obj, st', s. repeat (split; [done |]).
    split; [congruence |]. split; [congruence | done].
Qed.

End Properties.

(** * The properties on the sample environment *)

(** The gates of the pod turndown on sample pods: a draining pod is refused
    with no call to the topology service; the drained primary is refused
    whether the tablets are ready or not; a drained replica is refused
    while a tablet is not ready, and authorized once all are. *)
Example turndown_gates_sample :
  let turndown := fun topo pod st =>
    podPrepareForTurndown (E := Sample.externals) topo Sample.shard2
      (Sample.key "1") pod st in
  let reason := fun r : option planetscalev2.OrphanStatus * Pod * PassState =>
    planetscalev2.Reason <$> r.1.1 in
  let primary := Sample.topoWith (Some Sample.alias1) in
  let st := Sample.started Sample.shard2 in
  reason (turndown primary Sample.drainingPod st) = Some "Draining" /\
  topoCalls (turndown primary Sample.drainingPod st).2 = [] /\
  reason (turndown primary Sample.drainedPod st) = Some "Primary" /\
  reason (turndown primary Sample.drainedPod Sample.observed) = Some "Primary" /\
  topoCalls (turndown primary Sample.drainedPod st).2
  = [CallOpen "global"; CallGetShard "commerce" "x-80"; CallClose] /\
  reason (turndown Sample.topoDown Sample.drainedPod st) = Some "PrimaryUnknown" /\
  reason (turndown Sample.topoNoShard Sample.drainedPod st) = Some "PrimaryUnknown" /\
  reason (turndown (Sample.topoWith None) Sample.drainedPod st)
  = Some "ShardNotHealthy" /\
  reason (turndown (Sample.topoWith None) Sample.drainedPod Sample.observed) = None.
Proof. vm_compute. repeat split. Qed.

(** C2 on a sample: the shard record cannot be read, the drained pod is
    kept with PrimaryUnknown. *)
Lemma primary_lookup_failure_witness :
  (podPrepareForTurndown (E := Sample.externals) Sample.topoNoShard
     Sample.shard2 (Sample.key "1") Sample.drainedPod
     (Sample.started Sample.shard2)).1.1 =
  Some (planetscalev2.NewOrphanStatus "PrimaryUnknown"
          "unable to determine whether this tablet is the primary").
Proof.
  destruct (primary_lookup_failure_fails_closed (E := Sample.externals)
              Sample.topoNoShard Sample.shard2 (Sample.key "1")
              Sample.drainedPod (Sample.started Sample.shard2))
    as (_ & _ & Hunknown & _).
  - right. do 2 eexists. split; reflexivity.
  - apply Hunknown. vm_compute. reflexivity.
Defined.

(** The availability of the spec's three pods: Ready for 29 seconds, for
    40 seconds, and for 40 seconds with a deletion timestamp. *)
Example availability_sample :
  let available := fun readySince deleted now =>
    (tabletAvailableStatus (E := Sample.externals) emptyBuilder
       (Sample.pod "p" readySince None deleted ∅ ∅) now).1 in
  available (10 * Go.Second) None (39 * Go.Second) = ConditionFalse /\
  available (10 * Go.Second) None (50 * Go.Second) = ConditionTrue /\
  available (10 * Go.Second) (Some (45 * Go.Second)) (50 * Go.Second)
  = ConditionFalse.
Proof. vm_compute. repeat split. Qed.

(** The availability of the sample environment is the one of
    [podutils]. *)
Lemma sample_follows_podutils : followsPodutils (E := Sample.externals).
Proof.
  intros pod minReadySeconds now. cbn.
  unfold Sample.isPodAvailable, podutils.IsPodAvailable, podutils.IsPodReady,
    Sample.readyCondition, podutils.GetPodReadyCondition, podutils.PodReady,
    Go.toDuration.
  destruct (List.find _ (podConditions pod)) as [c |]; [| reflexivity].
  by destruct (String.eqb (pcStatus c) ConditionTrue).
Qed.

(** C3 on a sample: a pod Ready since instant 10 s, not being deleted, is
    available at instant 50 s. *)
Lemma available_witness :
  (tabletAvailableStatus (E := Sample.externals) emptyBuilder
     (Sample.pod "p" (10 * Go.Second) None None ∅ ∅) (50 * Go.Second)).1 =
  ConditionTrue.
Proof.
  apply (proj2 (proj1 (available_iff_ready_longer_than_threshold
                         (E := Sample.externals) emptyBuilder
                         (Sample.pod "p" (10 * Go.Second) None None ∅ ∅)
                         (50 * Go.Second) sample_follows_podutils))).
  split; [reflexivity |].
  exists {| pcType := "Ready"; pcStatus := ConditionTrue;
            pcLastTransitionTime := 10 * Go.Second |}.
  split.
  - exists [ {| pcType := "Initialized"; pcStatus := ConditionTrue;
                pcLastTransitionTime := 1 |} ], [].
    split; [reflexivity |]. split; [| reflexivity].
    repeat constructor. discriminate.
  - split; [reflexivity |]. unfold Go.Second. cbn. lia.
Defined.

(** C3 fails as stated: a pod that has been Ready for exactly 30 seconds,
    and is not being deleted, has been Ready for at least the threshold and
    is not available: the library asks for the end of the 30 seconds to be
    before the current instant. *)
Lemma available_at_threshold_counterexample :
  let pod30 := Sample.pod "p" (10 * Go.Second) None None ∅ ∅ in
  let now := 40 * Go.Second in
  followsPodutils (E := Sample.externals) /\
  podDeletionTimestamp pod30 = None /\
  readyForAtLeast pod30 (30 * Go.Second) now /\
  (tabletAvailableStatus (E := Sample.externals) emptyBuilder pod30 now).1 =
  ConditionFalse /\
  ~ availableAtThreshold (E := Sample.externals).
Proof.
  cbv zeta.
  assert (readyForAtLeast (Sample.pod "p" (10 * Go.Second) None None ∅ ∅)
            (30 * Go.Second) (40 * Go.Second)) as Hready.
  { exists {| pcType := "Ready"; pcStatus := ConditionTrue;
              pcLastTransitionTime := 10 * Go.Second |}.
    split.
    - exists [ {| pcType := "Initialized"; pcStatus := ConditionTrue;
                  pcLastTransitionTime := 1 |} ], [].
      split; [reflexivity |]. split; [| reflexivity].
      repeat constructor. discriminate.
    - split; [reflexivity |]. unfold Go.Second. cbn. lia. }
  assert ((tabletAvailableStatus (E := Sample.externals) emptyBuilder
             (Sample.pod "p" (10 * Go.Second) None None ∅ ∅)
             (40 * Go.Second)).1 = ConditionFalse) as Hfalse
    by (vm_compute; reflexivity).
  split; [exact sample_follows_podutils |]. split; [reflexivity |].
  split; [exact Hready |]. split; [exact Hfalse |].
  intros Hclaim.
  pose proof (proj2 (Hclaim emptyBuilder
                       (Sample.pod "p" (10 * Go.Second) None None ∅ ∅)
                       (40 * Go.Second)) (conj eq_refl Hready)) as Htrue.
  rewrite Hfalse in Htrue. discriminate Htrue.
Qed.

(** C4 at a pod that has been Ready for 29 seconds: Available is False and
    a requeue is requested, but the delay passed to the result builder is
    [time.Duration(30)], 30 nanoseconds, and not the 30 seconds of the
    threshold. *)
Theorem requeue_delay_is_not_the_threshold :
  let pod29 := Sample.pod "p" (10 * Go.Second) None None ∅ ∅ in
  let r :=
    tabletAvailableStatus (E := Sample.externals) emptyBuilder pod29
      (39 * Go.Second) in
  r.1 = ConditionFalse /\
  requeueAfterCalls r.2 = [30 * Go.Nanosecond] /\
  requeueAfterCalls r.2 <> [tabletAvailableSeconds * Go.Second].
Proof. vm_compute. repeat split. discriminate. Qed.

(** C6 on a sample: the claim requests the spec's 10Gi and its resize is
    pending on the filesystem, so the annotation is written with 10Gi. *)
Lemma resize_annotation_witness :
  updatePVCFilesystemResizeAnnotation (E := Sample.externals)
    (Sample.clusterWithClaim (Sample.claim Sample.tenGi Sample.resizePendingTrue))
    Sample.tablet1 Sample.drainedPod Sample.heap2 =
  Some (assign 6 "planetscale.com/pvc-filesystem-resize" "10Gi" Sample.heap2).
Proof.
  refine (proj1 (proj1 (resize_annotation_written_iff (E := Sample.externals)
            (Sample.clusterWithClaim
               (Sample.claim Sample.tenGi Sample.resizePendingTrue))
            Sample.tablet1 Sample.drainedPod Sample.heap2 6 _) Sample.tenGi _)).
  - vm_compute. reflexivity.
  - exists {| pvcRequests := {[ ResourceStorage := Sample.tenGi ]};
              pvcTemplateRest := "" |},
      (Sample.claim Sample.tenGi Sample.resizePendingTrue).
    split; [vm_compute; reflexivity |]. split; [reflexivity |].
    split; [vm_compute; reflexivity |]. split; [reflexivity |].
    exists {| ccType := PersistentVolumeClaimFileSystemResizePending;
              ccStatus := ConditionTrue |}.
    split; reflexivity.
Defined.

(** A claim whose requested size is not the spec's, a claim without the
    condition, one whose condition is False, and no claim at all: the heap
    is returned as it was. *)
Example resize_annotation_skipped :
  let run := fun client =>
    updatePVCFilesystemResizeAnnotation (E := Sample.externals) client
      Sample.tablet1 Sample.drainedPod Sample.heap2 in
  run (Sample.clusterWithClaim (Sample.claim Sample.fiveGi Sample.resizePendingTrue))
  = Some Sample.heap2 /\
  run (Sample.clusterWithClaim (Sample.claim Sample.tenGi [])) = Some Sample.heap2 /\
  run (Sample.clusterWithClaim
         (Sample.claim Sample.tenGi
            [ {| ccType := PersistentVolumeClaimFileSystemResizePending;
                 ccStatus := ConditionFalse |} ])) = Some Sample.heap2 /\
  run Sample.emptyCluster = Some Sample.heap2.
Proof. cbv zeta. repeat split; compute_done. Qed.

(** C5 on the spec's example: pods with observed generations 5, 7, 3 and
    one with no annotation record 3. *)
Lemma lowest_generation_witness :
  lowestIsMinimum (E := Sample.externals) (60 * Go.Second)
    [ Sample.tabletPod "1" (Some "5"); Sample.tabletPod "2" (Some "7");
      Sample.tabletPod "3" (Some "3"); Sample.tabletPod "4" None ]
    (Sample.started Sample.shard4) /\
  lowestOf
    (observedGenerations
       [ Sample.tabletPod "1" (Some "5"); Sample.tabletPod "2" (Some "7");
         Sample.tabletPod "3" (Some "3"); Sample.tabletPod "4" None ]) = 3.
Proof.
  split; [| vm_compute; reflexivity].
  apply (lowest_generation_is_minimum (E := Sample.externals)).
  - repeat constructor; vm_compute; eexists; reflexivity.
  - vm_compute. reflexivity.
  - vm_compute. repeat constructor; discriminate.
Defined.

(** Pods whose annotation is absent or does not parse leave the sentinel. *)
Example lowest_generation_unset :
  planetscalev2.LowestPodGeneration
    (status
       (default (Sample.started Sample.shard4)
          (podStatusAll (E := Sample.externals) (60 * Go.Second)
             [ Sample.tabletPod "1" None; Sample.tabletPod "2" (Some "seven");
               Sample.tabletPod "3" (Some "1.5") ]
             (Sample.started Sample.shard4)))) = 0.
Proof. vm_compute. reflexivity. Qed.

(** C5 fails as stated: a pod whose annotation parses to 0 sets the field
    back to the sentinel, and the next generation read overwrites it: after
    generations 0 and 5 the field is 5, and the minimum of the generations
    read is 0. *)
Lemma lowest_generation_zero_counterexample :
  let pods := [ Sample.tabletPod "1" (Some "0"); Sample.tabletPod "2" (Some "5") ] in
  let st := Sample.started Sample.shard2 in
  planetscalev2.LowestPodGeneration (status st) = 0 /\
  observedGenerations pods = [0; 5] /\
  (exists st',
     podStatusAll (E := Sample.externals) (60 * Go.Second) pods st = Some st' /\
     planetscalev2.LowestPodGeneration (status st') = 5) /\
  ~ lowestIsMinimum (E := Sample.externals) (60 * Go.Second) pods st.
Proof.
  cbv zeta. split; [compute_done |]. split; [compute_done |].
  destruct (podStatusAll_lowest (E := Sample.externals) (60 * Go.Second)
              [ Sample.tabletPod "1" (Some "0"); Sample.tabletPod "2" (Some "5") ]
              (Sample.started Sample.shard2)) as (st' & Hrun & Hlow).
  { repeat constructor; vm_compute; eexists; reflexivity. }
  assert (planetscalev2.LowestPodGeneration (status st') = 5) as Hfive.
  { rewrite Hlow. compute_done. }
  split.
  - exists st'. split; [exact Hrun | exact Hfive].
  - intros (st'' & Hrun' & Hmin).
    assert (st'' = st') as -> by congruence.
    assert (lowestOf (observedGenerations
              [ Sample.tabletPod "1" (Some "0"); Sample.tabletPod "2" (Some "5") ])
            = 0) as Hzero by compute_done.
    rewrite Hfive, Hzero in Hmin. discriminate Hmin.
Qed.

(** The end-to-end example of the spec: one pool of two replicas in us-east
    and no object in the cluster.  Two claims and two pods are asked for,
    the one cell is deployed, and once the [New] callbacks have run for the
    missing claim and pod of the first tablet, its entry reports false
    conditions and the status map has the two entries. *)
Example end_to_end_sample :
  ('(pvcKeys, podKeys, st0) ←
     reconcileTabletsStart (E := Sample.externals) 5 Sample.shard2
       Sample.emptyStatus Sample.heap0;
   '(_, st1) ← pvcNew (E := Sample.externals) (Sample.key "1") st0;
   '(_, st2) ← podNew (E := Sample.externals) (Sample.key "1") st1;
   Some (pvcKeys, podKeys, elements (deployedCells st0),
         planetscalev2.Tablets (status st2) !! "us-east-0007087141",
         dom (planetscalev2.Tablets (status st2)))) =
  Some ([Sample.key "1"; Sample.key "2"], [Sample.key "1"; Sample.key "2"],
        ["us-east"],
        Some {| planetscalev2.PoolType := "replica";
                planetscalev2.Index := 1;
                planetscalev2.Running := ConditionFalse;
                planetscalev2.Ready := ConditionFalse;
                planetscalev2.Available := ConditionFalse;
                planetscalev2.DataVolumeBound := ConditionFalse;
                planetscalev2.PendingChanges := "" |},
        {[ "us-east-0007087141"; "us-east-0007087142" ]}).
Proof. compute_done. Qed.

(** The sample shards point into the sample heap. *)
Lemma sample_inputs_valid (pools : list planetscalev2.VitessShardTabletPool) :
  Forall (fun p => exists cell poolType replicas, p = Sample.pool cell poolType replicas)
    pools ->
  validInputs Sample.heap0 (Sample.shard pools) (Some 0%nat).
Proof.
  intros Hpools. repeat split; cbn; try lia; [| constructor].
  eapply Forall_impl; [exact Hpools |].
  intros p (cell & poolType & replicas & ->). repeat split; cbn; lia.
Qed.

(** C8 on the sample shard of two replicas: the pass starts with two pod
    keys and a new status entry for each of the two desired tablets, of the
    pool type and index of the tablet. *)
Lemma desired_tablets_listed_witness :
  exists tablets pvcKeys podKeys st0,
    reconcileTabletsStart (E := Sample.externals) 5 Sample.shard2
      Sample.emptyStatus Sample.heap0 = Some (pvcKeys, podKeys, st0) /\
    List.length podKeys = List.length tablets /\
    (fun t => (vttablet.Type_ t, vttablet.Index t)) <$> tablets =
    [("replica", 1); ("replica", 2)] /\
    forall t, t ∈ tablets ->
      exists t',
        t' ∈ tablets /\ vttablet.AliasStr t' = vttablet.AliasStr t /\
        planetscalev2.Tablets (status st0) !! vttablet.AliasStr t =
        Some (@NewVitessTabletStatus Sample.externals
                (vttablet.Type_ t') (vttablet.Index t')).
Proof.
  destruct (desired_tablets_always_listed (E := Sample.externals) 5 Sample.shard2
              Sample.emptyStatus Sample.heap0)
    as (clusterName & tablets & h' & pvcKeys & podKeys & st0 & _ & Hid & Hstart
        & Hlen & Hseed & _).
  - destruct (sample_inputs_valid [Sample.pool "us-east" "replica" 2])
      as (_ & Hrest); [repeat constructor; by do 3 eexists |].
    split; [exact I | exact Hrest].
  - repeat constructor; vm_compute; reflexivity.
  - exists tablets, pvcKeys, podKeys, st0. split; [exact Hstart |].
    split; [exact Hlen |]. split; [| exact Hseed].
    apply (f_equal (fmap (fun x : string * string * Z * Z => (x.1.1.2, x.1.2))))
      in Hid.
    rewrite <- list_fmap_compose in Hid. exact Hid.
Defined.

(** C7 on a sample: two pools in two cells get the indices 1, 2 and 1, and
    three distinct UIDs. *)
Lemma ordinals_witness :
  exists tablets h',
    vttabletSpecs (E := Sample.externals) 5 (Sample.shard Sample.twoCells)
      (Some 0%nat) Sample.heap0 = Some (tablets, h') /\
    (fun t => (topodatapb.Cell (vttablet.Alias t), vttablet.Index t))
    <$> tablets = [("us-east", 1); ("us-east", 2); ("eu-west-1", 1)] /\
    NoDup ((fun t => topodatapb.Uid (vttablet.Alias t)) <$> tablets).
Proof.
  destruct (ordinals_one_to_replicas (E := Sample.externals) 5
              (Sample.shard Sample.twoCells) (Some 0%nat) Sample.heap0)
    as (tablets & h' & Hrun & Hid & Huids).
  - apply sample_inputs_valid. repeat constructor; by do 3 eexists.
  - repeat constructor; vm_compute; reflexivity.
  - exists tablets, h'. split; [exact Hrun |]. split.
    + apply (f_equal (fmap (fun x : string * string * Z * Z => (x.1.1.1, x.1.2))))
        in Hid.
      rewrite <- list_fmap_compose in Hid. exact Hid.
    + apply Huids.
      * compute_done.
      * apply (uidInjectiveOn_NoDup (E := Sample.externals)). compute_done.
Defined.

(** C7 fails as stated: with two pools of the same cell and type, the
    tablet of index 1 of each gets the same UID, whatever function computes
    the UID. *)
Lemma uid_reuse_counterexample :
  (exists t1 t2 h',
     vttabletSpecs (E := Sample.externals) 5 (Sample.shard Sample.duplicatePools)
       (Some 0%nat) Sample.heap0 = Some ([t1; t2], h') /\
     vttablet.Index t1 = 1 /\ vttablet.Index t2 = 1 /\
     topodatapb.Uid (vttablet.Alias t1) = topodatapb.Uid (vttablet.Alias t2)) /\
  ~ (exists E : Externals,
       noReuseAcrossPools (E := E) "commerce"
         {| planetscalev2.krStart := ""; planetscalev2.krEnd := "80" |}
         Sample.duplicatePools).
Proof.
  split.
  - destruct (vttabletSpecs_run (E := Sample.externals) 5
                (Sample.shard Sample.duplicatePools) (Some 0%nat) Sample.heap0)
      as (tablets & ext & Hrun & _ & _ & Hid & _).
    { apply sample_inputs_valid. repeat constructor; by do 3 eexists. }
    { repeat constructor; vm_compute; reflexivity. }
    destruct tablets as [| t1 [| t2 [| t3 rest]]]; try discriminate Hid.
    exists t1, t2, (Sample.heap0 ++ ext). split; [exact Hrun |].
    injection Hid as Hcell1 Htype1 Hindex1 Huid1 Hcell2 Htype2 Hindex2 Huid2.
    split; [exact Hindex1 |]. split; [exact Hindex2 |].
    rewrite Huid1, Huid2. reflexivity.
  - intros [E Hno].
    apply (Hno 0%nat 1%nat (Sample.pool "us-east" "replica" 1)
             (Sample.pool "us-east" "replica" 1)
             (vttablet_UID "us-east" "commerce"
                {| planetscalev2.krStart := ""; planetscalev2.krEnd := "80" |}
                "replica" 1));
      [lia | reflexivity | reflexivity | |]; apply list_elem_of_here.
Qed.

(** C9 on the sample shard: two runs, the same specs, the input heap
    unchanged. *)
Lemma deterministic_witness :
  exists tablets1 h1 tablets2 h2,
    vttabletSpecs (E := Sample.externals) 5 Sample.shard2 (Some 0%nat)
      Sample.heap0 = Some (tablets1, h1) /\
    vttabletSpecs (E := Sample.externals) 5 Sample.shard2 (Some 0%nat) h1 =
    Some (tablets2, h2) /\
    content h2 <$> tablets2 = content h1 <$> tablets1 /\
    (forall l m, Sample.heap0 !! l = Some m -> h2 !! l = Some m).
Proof.
  destruct (vttabletSpecs_deterministic (E := Sample.externals) 5 Sample.shard2
              (Some 0%nat) Sample.heap0)
    as (tablets1 & ext1 & tablets2 & ext2 & Hrun1 & Hrun2 & Hsame & _ & _ & _
        & Hkept & _).
  - apply sample_inputs_valid. repeat constructor; by do 3 eexists.
  - repeat constructor; vm_compute; reflexivity.
  - exists tablets1, (Sample.heap0 ++ ext1), tablets2,
      ((Sample.heap0 ++ ext1) ++ ext2).
    split; [exact Hrun1 |]. split; [exact Hrun2 |]. split; [exact Hsame |].
    exact Hkept.
Defined.

(** The extra flags of a tablet of the sample shard: the pool's [log_dir]
    overrides the global one, the global [v] is kept, and the maps of the
    shard and of the pool are as they were. *)
Example extra_flags_sample :
  ('(tablets, h') ←
     vttabletSpecs (E := Sample.externals) 5 Sample.shard2 (Some 0%nat)
       Sample.heap0;
   t ← head tablets;
   Some (deref h' (planetscalev2.ExtraFlags (vttablet.Vttablet t)),
         deref h' (Some 1%nat), deref h' (Some 2%nat))) =
  Some ({[ "v" := "1"; "log_dir" := "/pool" ]},
        {[ "v" := "1"; "log_dir" := "/global" ]},
        {[ "log_dir" := "/pool" ]}).
Proof. compute_done. Qed.

(** The turndown of a claim in the three states of its pod. *)
Example pvc_turndown_sample :
  let claim := Sample.claim Sample.tenGi [] in
  pvcPrepareForTurndown Sample.emptyCluster (Sample.key "1") claim = None /\
  planetscalev2.Reason
  <$> pvcPrepareForTurndown (Sample.clusterWithPod Sample.drainingPod)
        (Sample.key "1") claim = Some "PodExists" /\
  planetscalev2.Reason
  <$> pvcPrepareForTurndown Sample.unreachableCluster (Sample.key "1") claim
  = Some "PodExists".
Proof. vm_compute. repeat split. Qed.

(** * Further properties of the callbacks and of the compiler *)

Section Further.
Context {E : Externals}.

Lemma digitOf_pretty_N_char (d : N) :
  (d < 10)%N -> Go.digitOf (pretty_N_char d) = Some (Z.of_N d).
Proof.
  intros Hd.
  assert (d = 0 \/ d = 1 \/ d = 2 \/ d = 3 \/ d = 4 \/ d = 5 \/ d = 6 \/ d = 7
          \/ d = 8 \/ d = 9)%N as Hcases by lia.
  repeat destruct Hcases as [-> | Hcases]; try subst d; reflexivity.
Qed.

(** Parsing the digits that [pretty] puts in front of [s] adds the number
    printed to the front of the parse of [s]. *)
Lemma parseDigits_pretty_N_go (x : N) :
  forall s, Go.parseDigits 0 (pretty_N_go x s) = Go.parseDigits (Z.of_N x) s.
Proof.
  induction (N.lt_wf_0 x) as [x _ IH]. intros s.
  destruct (decide (x = 0)%N) as [-> | Hx].
  - by rewrite pretty_N_go_0.
  - rewrite pretty_N_go_step by lia.
    rewrite IH by (apply N.div_lt; lia).
    cbn [Go.parseDigits].
    rewrite digitOf_pretty_N_char by (apply N.mod_lt; lia).
    f_equal. rewrite (N.div_mod x 10) at 3 by lia. lia.
Qed.

Lemma ParseInt_digits (s : string) (u : Z) :
  u <> 0 -> Go.parseDigits 0 s = Some u ->
  Go.ParseInt s =
  if (Go.MinInt64 <=? u) && (u <=? Go.MaxInt64) then Some u else None.
Proof.
  intros Hu Hparse. destruct s as [| c rest]; [cbn in Hparse; congruence |].
  unfold Go.ParseInt.
  assert (Ascii.eqb c "+" = false /\ Ascii.eqb c "-" = false) as [-> ->].
  { cbn [Go.parseDigits] in Hparse.
    split; apply Ascii.eqb_neq; intros ->; cbn in Hparse; discriminate Hparse. }
  by rewrite Hparse.
Qed.

(** [strconv.ParseInt] reads back what [strconv.FormatInt] wrote, for every
    [int64]. *)
Lemma ParseInt_FormatInt (n : Z) :
  Go.MinInt64 <= n <= Go.MaxInt64 -> Go.ParseInt (Go.FormatInt n) = Some n.
Proof.
  intros Hn. unfold Go.FormatInt, pretty, pretty_Z.
  destruct n as [| p | p]; [reflexivity | |].
  - change (pretty p) with (pretty_N (N.pos p)).
    unfold pretty_N. rewrite decide_False by done.
    rewrite (ParseInt_digits _ (Z.pos p)); [| done |].
    + destruct (Z.leb_spec Go.MinInt64 (Z.pos p)), (Z.leb_spec (Z.pos p) Go.MaxInt64);
        try reflexivity; lia.
    + by rewrite parseDigits_pretty_N_go.
  - change (pretty p) with (pretty_N (N.pos p)).
    unfold pretty_N. rewrite decide_False by done.
    pose proof (parseDigits_pretty_N_go (N.pos p) "") as Hparse.
    cbn [Go.parseDigits Z.of_N] in Hparse.
    destruct (pretty_N_go (N.pos p) "") as [| c rest] eqn:Hstr;
      [cbn in Hparse; congruence |].
    change ("-" +:+ String c rest) with (String "-" (String c rest)).
    unfold Go.ParseInt.
    change (Ascii.eqb "-" "+") with false. change (Ascii.eqb "-" "-") with true.
    cbv iota beta.
    rewrite Hparse. change (- Z.pos p) with (Z.neg p).
    destruct (Z.leb_spec Go.MinInt64 (Z.neg p)), (Z.leb_spec (Z.neg p) Go.MaxInt64);
      try reflexivity; lia.
Qed.


Lemma podAnnotation_set (k v : string) (pod : Pod) :
  podAnnotation (setPodAnnotation k v pod) k = v.
Proof. unfold podAnnotation, setPodAnnotation, Go.index. cbn. by rewrite lookup_insert_eq. Qed.

(** X1: an in-place update stamps the pod with the generation of the shard,
    and the [Status] callback reads the same generation back from it: the
    annotation parses to the generation, and it is folded into the lowest
    observed generation. *)
Theorem stamped_generation_is_observed (vts : planetscalev2.VitessShard)
  (now : Timestamp) (key : ObjectKey) (newObj : Pod) (st : PassState)
  (Hkey : is_Some (tabletMap st !! key))
  (Hgen : Go.MinInt64 <= planetscalev2.Generation vts <= Go.MaxInt64) :
  exists pod st',
    podUpdateInPlace vts key newObj st = Some pod /\
    Go.ParseInt (podAnnotation pod observedShardGenerationAnnotationKey) =
    Some (planetscalev2.Generation vts) /\
    podStatus now key pod st = Some st' /\
    planetscalev2.LowestPodGeneration (status st') =
    observeGeneration (planetscalev2.LowestPodGeneration (status st))
      (planetscalev2.Generation vts).
Proof.
  destruct Hkey as [tablet Ht]. unfold podUpdateInPlace. rewrite Ht.
  cbn [mbind option_bind].
  set (pod := setPodAnnotation _ _ _).
  assert (Go.ParseInt (podAnnotation pod observedShardGenerationAnnotationKey) =
          Some (planetscalev2.Generation vts)) as Hparse.
  { unfold pod. rewrite podAnnotation_set. by apply ParseInt_FormatInt. }
  destruct (podStatus_lowest now key pod st) as (st' & Hstatus & _ & Hlow);
    [by eexists |].
  exists pod, st'. rewrite Hparse in Hlow. done.
Qed.

(** X2: what the [Status] callback of the pods writes into the entry of the
    tablet.  Running follows the phase.  Ready and Available are written
    only for a Ready pod; for a pod that is not Ready they stay what the
    entry had, and the result builder is not touched.  PendingChanges is the
    scheduled annotation, verbatim.  The other fields of the entry, the
    other entries, [tabletMap], the heap and the orphans are as before. *)
Theorem podStatus_projection (now : Timestamp) (key : ObjectKey) (pod : Pod)
  (st : PassState) (tablet : vttablet.Spec)
  (Hkey : tabletMap st !! key = Some tablet) :
  let old := tabletStatusOf st (vttablet.AliasStr tablet) in
  exists st' new,
    podStatus now key pod st = Some st' /\
    planetscalev2.Tablets (status st') !! vttablet.AliasStr tablet = Some new /\
    planetscalev2.Running new =
    (if bool_decide (podPhase pod = PodRunning) then ConditionTrue
     else ConditionFalse) /\
    (IsPodReady pod = true ->
     planetscalev2.Ready new = ConditionTrue /\
     (planetscalev2.Available new, resultBuilder st') =
     tabletAvailableStatus (resultBuilder st) pod now) /\
    (IsPodReady pod = false ->
     planetscalev2.Ready new = planetscalev2.Ready old /\
     planetscalev2.Available new = planetscalev2.Available old /\
     resultBuilder st' = resultBuilder st) /\
    planetscalev2.PendingChanges new =
    podAnnotation pod rollout_ScheduledAnnotation /\
    planetscalev2.DataVolumeBound new = planetscalev2.DataVolumeBound old /\
    planetscalev2.PoolType new = planetscalev2.PoolType old /\
    planetscalev2.Index new = planetscalev2.Index old /\
    (forall a, a <> vttablet.AliasStr tablet ->
       planetscalev2.Tablets (status st') !! a =
       planetscalev2.Tablets (status st) !! a) /\
    planetscalev2.OrphanedTablets (status st') =
    planetscalev2.OrphanedTablets (status st) /\
    tabletMap st' = tabletMap st /\ heap st' = heap st /\
    deployedCells st' = deployedCells st.
Proof.
  intros old. unfold podStatus. rewrite Hkey. cbn [mbind option_bind].
  fold old.
  assert (forall (m : gmap string planetscalev2.VitessTabletStatus) a b s,
            a <> b -> <[b := s]> m !! a = m !! a) as Hne.
  { intros m a b s Hab. by rewrite lookup_insert_ne. }
  destruct (IsPodReady pod) eqn:Hready;
    [destruct (tabletAvailableStatus (resultBuilder st) pod now) as [av rb] eqn:Hav |];
    (destruct (String.eqb _ "");
     [| destruct (Go.ParseInt _); [destruct ((_ =? 0) || (_ <? _)) |]]);
    do 2 eexists; (split; [reflexivity |]); cbn;
    (split; [apply lookup_insert_eq |]); cbn;
    (split; [by destruct (bool_decide _) |]);
    (split; [try discriminate; by intros _ |]);
    (split; [try discriminate; by intros _ |]);
    repeat (split; [done |]); (split; [| done]); intros a Ha; by apply Hne.
Qed.

(** X3: the [Status] callback of the claims sets DataVolumeBound in the entry
    of the tablet, True exactly for a claim whose phase is Bound; it changes
    nothing else of the entry and nothing else of the state. *)
Theorem pvcStatus_projection (key : ObjectKey) (curObj : PersistentVolumeClaim)
  (st : PassState) (tablet : vttablet.Spec)
  (Hkey : tabletMap st !! key = Some tablet) :
  let old := tabletStatusOf st (vttablet.AliasStr tablet) in
  exists st',
    pvcStatus key curObj st = Some st' /\
    planetscalev2.Tablets (status st') !! vttablet.AliasStr tablet =
    Some (setDataVolumeBound
            (if bool_decide (pvcPhase curObj = ClaimBound) then ConditionTrue
             else ConditionFalse) old) /\
    (forall a, a <> vttablet.AliasStr tablet ->
       planetscalev2.Tablets (status st') !! a =
       planetscalev2.Tablets (status st) !! a) /\
    planetscalev2.LowestPodGeneration (status st') =
    planetscalev2.LowestPodGeneration (status st) /\
    planetscalev2.OrphanedTablets (status st') =
    planetscalev2.OrphanedTablets (status st) /\
    tabletMap st' = tabletMap st /\ heap st' = heap st /\
    deployedCells st' = deployedCells st /\
    resultBuilder st' = resultBuilder st.
Proof.
  intros old. unfold pvcStatus. rewrite Hkey. cbn [mbind option_bind].
  eexists. split; [reflexivity |]. cbn.
  split; [by rewrite lookup_insert_eq |].
  split; [| done]. intros a Ha. by rewrite lookup_insert_ne.
Qed.

(** X4: the [OrphanStatus] callback records the status under the alias of
    the pod and keeps the cell of the pod among the deployed cells; the
    other orphans, the deployed cells of before and the tablet status map
    are kept: no tablet status is created for an object that is only kept
    from turndown. *)
Theorem podOrphanStatus_records (key : ObjectKey) (curObj : Pod)
  (orphanStatus : planetscalev2.OrphanStatus) (st : PassState) :
  let st' := podOrphanStatus key curObj orphanStatus st in
  let alias := vttablet_AliasFromPod curObj in
  planetscalev2.OrphanedTablets (status st') !! TabletAliasString alias =
  Some orphanStatus /\
  (forall a, a <> TabletAliasString alias ->
     planetscalev2.OrphanedTablets (status st') !! a =
     planetscalev2.OrphanedTablets (status st) !! a) /\
  topodatapb.Cell alias ∈ deployedCells st' /\
  deployedCells st ⊆ deployedCells st' /\
  planetscalev2.Tablets (status st') = planetscalev2.Tablets (status st) /\
  planetscalev2.LowestPodGeneration (status st') =
  planetscalev2.LowestPodGeneration (status st) /\
  tabletMap st' = tabletMap st /\ heap st' = heap st.
Proof.
  intros st' alias. unfold st', podOrphanStatus. fold alias. cbn.
  split; [by rewrite lookup_insert_eq |].
  split; [intros a Ha; by rewrite lookup_insert_ne |].
  split; [set_solver |]. split; [set_solver |]. done.
Qed.

Lemma registerTablet_step (clusterName namespace : string)
  (pvcKeys podKeys : list ObjectKey) (st : PassState) (t : vttablet.Spec) :
  let key := podKeyOf clusterName namespace t in
  registerTablet clusterName namespace (pvcKeys, podKeys, st) t =
  (if decide (hasDataVolume t) then pvcKeys ++ [key] else pvcKeys,
   podKeys ++ [key],
   putTabletStatus (vttablet.AliasStr t)
     (NewVitessTabletStatus (vttablet.Type_ t) (vttablet.Index t))
     (setDeployedCells
        ({[ topodatapb.Cell (vttablet.Alias t) ]} ∪ deployedCells st)
        (setTabletMap
           (<[key := if decide (hasDataVolume t)
                     then setDataVolumePVCName (Name key) t else t]>
              (tabletMap st)) st))).
Proof.
  intros key. unfold registerTablet, hasDataVolume. fold key.
  destruct (vttablet.DataVolumePVCSpec t) as [spec |].
  - rewrite !decide_True by (by eexists). reflexivity.
  - rewrite !decide_False by (intros [? ?]; discriminate). reflexivity.
Qed.

Lemma registerTablet_fold (clusterName namespace : string)
  (tablets : list vttablet.Spec) :
  forall pvcKeys podKeys st,
    let r := fold_left (registerTablet clusterName namespace) tablets
               (pvcKeys, podKeys, st) in
    r.1.2 = podKeys ++ (podKeyOf clusterName namespace <$> tablets) /\
    r.1.1 = pvcKeys ++
            (podKeyOf clusterName namespace <$> filter hasDataVolume tablets) /\
    deployedCells r.2 =
    list_to_set ((fun t => topodatapb.Cell (vttablet.Alias t)) <$> tablets)
    ∪ deployedCells st /\
    ((forall key t,
        key ∈ podKeys -> tabletMap st !! key = Some t ->
        hasDataVolume t -> vttablet.DataVolumePVCName t = Name key) ->
     forall key t,
       key ∈ r.1.2 -> tabletMap r.2 !! key = Some t ->
       hasDataVolume t -> vttablet.DataVolumePVCName t = Name key) /\
    heap r.2 = heap st /\ resultBuilder r.2 = resultBuilder st.
Proof.
  induction tablets as [| t rest IH]; intros pvcKeys podKeys st; cbn [fold_left].
  - cbn. rewrite !app_nil_r. repeat split; try done.
    apply set_eq. intros x. rewrite elem_of_union, elem_of_empty. tauto.
  - rewrite registerTablet_step. cbv zeta.
    set (key := podKeyOf clusterName namespace t).
    set (stored := if decide (hasDataVolume t)
                   then setDataVolumePVCName (Name key) t else t).
    match goal with
    | |- context [fold_left _ rest (?a, ?b, ?c)] =>
        destruct (IH a b c) as (Hpods & Hpvcs & Hcells & Hnames & Hheap & Hrb)
    end.
    clear IH.
    split; [rewrite Hpods; by rewrite <- (assoc_L (++)) |]. split.
    { rewrite Hpvcs, filter_cons. destruct (decide (hasDataVolume t)); [| done].
      by rewrite <- (assoc_L (++)). }
    split.
    { rewrite Hcells. cbn. apply set_eq. intros x. rewrite !elem_of_union. tauto. }
    split; [| split; [by rewrite Hheap | by rewrite Hrb]].
    intros Hacc. apply Hnames. cbn.
    intros k t' Hin Hlook Hvol.
    destruct (decide (k = key)) as [-> | Hne].
    + rewrite lookup_insert_eq in Hlook. injection Hlook as <-.
      unfold stored in *. destruct (decide (hasDataVolume t)) as [| Hno]; [done |].
      by destruct Hno.
    + rewrite lookup_insert_ne in Hlook by done. apply Hacc; [| done | done].
      apply elem_of_app in Hin as [Hin | Hin%list_elem_of_singleton]; done.
Qed.

(** X5: the loop over the desired tablets registers the key of every tablet
    as a pod key, in order, and as a claim key exactly for the tablets that
    have a data volume, so every claim key is a pod key; it deploys exactly
    the cells of the tablets; and a registered tablet with a data volume has
    the name of its pod as the name of its claim. *)
Theorem registered_keys (clusterName namespace : string)
  (tablets : list vttablet.Spec) (st0 : PassState) :
  let r := fold_left (registerTablet clusterName namespace) tablets ([], [], st0) in
  r.1.2 = podKeyOf clusterName namespace <$> tablets /\
  r.1.1 = podKeyOf clusterName namespace <$> filter hasDataVolume tablets /\
  r.1.1 ⊆ r.1.2 /\
  deployedCells r.2 =
  list_to_set ((fun t => topodatapb.Cell (vttablet.Alias t)) <$> tablets)
  ∪ deployedCells st0 /\
  (forall key t,
     key ∈ r.1.2 -> tabletMap r.2 !! key = Some t ->
     hasDataVolume t -> vttablet.DataVolumePVCName t = Name key) /\
  heap r.2 = heap st0 /\ resultBuilder r.2 = resultBuilder st0.
Proof.
  intros r.
  destruct (registerTablet_fold clusterName namespace tablets [] [] st0)
    as (Hpods & Hpvcs & Hcells & Hnames & Hheap & Hrb).
  fold r in Hpods, Hpvcs, Hcells, Hnames, Hheap, Hrb. cbn [app] in Hpods, Hpvcs.
  split; [done |]. split; [done |]. split.
  { rewrite Hpods, Hpvcs. intros key (t & -> & Hin)%list_elem_of_fmap.
    apply list_elem_of_fmap. exists t. split; [done |].
    by apply list_elem_of_filter in Hin as [_ Hin]. }
  split; [done |]. split; [| done].
  apply Hnames. intros key t Hin. by apply elem_of_nil in Hin.
Qed.

(** X6: the calls of the primary lookup.  The topology service is opened
    once; when that fails nothing more is called and the answer is true with
    the error.  On an open connection the shard record is read once and the
    connection is closed, whether the read fails (true, with the error) or
    not; the tablet is then the primary exactly when the record's primary
    alias is set and equal to its alias. *)
Theorem topo_connection_is_closed (topo : Toposerver)
  (vts : planetscalev2.VitessShard) (h : Heap) (a : topodatapb.TabletAlias)
  (calls : list TopoCall) :
  let ls := planetscalev2.GlobalLockserver (planetscalev2.Spec vts) in
  let ks := Go.index (deref h (planetscalev2.Labels vts)) KeyspaceLabel in
  let name := planetscalev2.Name (planetscalev2.Spec vts) in
  let r := isTabletPrimary topo vts h a calls in
  (forall err,
     Open topo ls = inl err -> r = (true, Some err, calls ++ [CallOpen ls])) /\
  (forall ts,
     Open topo ls = inr ts ->
     r.2 = calls ++ [CallOpen ls; CallGetShard ks name; CallClose] /\
     (forall err, GetShard ts ks name = inl err -> r.1 = (true, Some err)) /\
     (forall shard,
        GetShard ts ks name = inr shard ->
        r.1 = (bool_decide (PrimaryAlias shard = Some a), None))).
Proof.
  intros ls ks name r.
  pose proof (isTabletPrimary_cases topo vts h a calls) as Hc.
  cbv zeta in Hc. fold ls ks name r in Hc.
  split.
  - intros err Hopen. by rewrite Hopen in Hc.
  - intros ts Hopen. rewrite Hopen in Hc.
    destruct (GetShard ts ks name) as [err | shard]; rewrite Hc; cbn.
    + split; [done |]. split; [by intros ? [= <-] | discriminate].
    + split; [done |]. split; [discriminate |]. intros ? [= <-]. f_equal.
      unfold TabletAliasEqual. destruct (PrimaryAlias shard) as [p |].
      * apply bool_decide_ext. split; congruence.
      * symmetry. by apply bool_decide_eq_false.
Qed.

Lemma poolSpecs_MaxInt32 (fuel : nat) (vts : planetscalev2.VitessShard)
  (parentLabels : MapRef) (keyspaceName : string)
  (pools : list planetscalev2.VitessShardTabletPool) :
  Exists (fun pool => planetscalev2.Replicas pool = Go.MaxInt32) pools ->
  forall st, poolSpecs fuel vts parentLabels keyspaceName pools st = None.
Proof.
  induction pools as [| pool rest IH]; intros Hex st.
  - by apply Exists_nil in Hex.
  - cbn [poolSpecs]. apply Exists_cons in Hex as [Hmax | Hrest].
    + rewrite Hmax, forInt32_MaxInt32; [done |].
      unfold Go.inInt32, Go.MinInt32, Go.MaxInt32. lia.
    + destruct (Go.forInt32 _ _ _ _ _); [by apply IH | done].
Qed.

(** X7: a shard with a pool of [MaxInt32] replicas is never compiled: the
    index of the inner loop is an [int32] compared with [<=], its increment
    wraps around at the maximum, and the loop does not end within any
    bound. *)
Theorem vttabletSpecs_diverges_at_MaxInt32 (vts : planetscalev2.VitessShard)
  (Hmax :
     Exists (fun pool => planetscalev2.Replicas pool = Go.MaxInt32)
       (planetscalev2.TabletPools (planetscalev2.Spec vts))) :
  forall fuel parentLabels h, vttabletSpecs fuel vts parentLabels h = None.
Proof. intros fuel parentLabels h. by apply poolSpecs_MaxInt32. Qed.

Lemma length_bind_sum {A B : Type} (f : A -> list B) (l : list A) :
  List.length (l ≫= f) = sum_list ((fun x => List.length (f x)) <$> l).
Proof.
  induction l as [| x l IH]; [done |].
  rewrite bind_cons, length_app, IH. reflexivity.
Qed.

(** X8: the number of specs is the sum of the replica counts of the pools;
    a pool with zero or a negative count contributes none. *)
Theorem vttabletSpecs_count (fuel : nat) (vts : planetscalev2.VitessShard)
  (parentLabels : MapRef) (h : Heap)
  (Hvalid : validInputs h vts parentLabels) (Hfuel : replicasBelow fuel vts) :
  exists tablets h',
    vttabletSpecs fuel vts parentLabels h = Some (tablets, h') /\
    List.length tablets =
    replicaCount (planetscalev2.TabletPools (planetscalev2.Spec vts)).
Proof.
  destruct (vttabletSpecs_run fuel vts parentLabels h Hvalid Hfuel)
    as (tablets & ext & Hrun & _ & _ & Hid & _).
  exists tablets, (h ++ ext). split; [done |].
  apply (f_equal List.length) in Hid. rewrite length_fmap in Hid. rewrite Hid.
  rewrite length_bind_sum. unfold replicaCount. f_equal.
  apply list_fmap_ext. intros _ pool _. rewrite length_fmap.
  unfold poolIndices. by rewrite length_seqZ.
Qed.

Lemma tabletContent_labels (h : Heap) vts parentLabels keyspaceName pool
  backupLocation i (k : string) :
  let c := tabletContent h vts parentLabels keyspaceName pool backupLocation i in
  scLabels c !! k = tabletLabel (deref h parentLabels) (scFields c) k.
Proof.
  cbv zeta. unfold tabletContent, tabletLabel.
  cbn [scLabels scFields eraseRefs tabletRecord vttablet.Index vttablet.Type_
       vttablet.Alias topodatapb.Uid topodatapb.Cell].
  rewrite (right_id_L ∅ (∪)).
  repeat (case_decide; [subst; by rewrite lookup_insert_eq |
                        rewrite lookup_insert_ne by done]).
  reflexivity.
Qed.

(** X9: the labels of every spec, read key by key: the tablet index label
    holds the index, and below it the type, UID and cell labels hold the
    type, the UID and the cell of the tablet; every other key has the value
    it has in the parent labels. *)
Theorem vttabletSpecs_labels (fuel : nat) (vts : planetscalev2.VitessShard)
  (parentLabels : MapRef) (h : Heap)
  (Hvalid : validInputs h vts parentLabels) (Hfuel : replicasBelow fuel vts) :
  exists tablets h',
    vttabletSpecs fuel vts parentLabels h = Some (tablets, h') /\
    Forall
      (fun t =>
         forall k,
           deref h' (vttablet.Labels t) !! k =
           tabletLabel (deref h parentLabels) t k)
      tablets.
Proof.
  destruct (vttabletSpecs_run fuel vts parentLabels h Hvalid Hfuel)
    as (tablets & ext & Hrun & _ & Hc & _ & _).
  exists tablets, (h ++ ext). split; [done |].
  assert (Forall
            (fun c => forall k,
               scLabels c !! k = tabletLabel (deref h parentLabels) (scFields c) k)
            (expectedContents h vts parentLabels)) as Hall.
  { unfold expectedContents. apply Forall_bind, Forall_forall. intros pool _.
    cbn. apply Forall_fmap, Forall_forall. intros i _ k.
    apply tabletContent_labels. }
  rewrite <- Hc in Hall. apply Forall_fmap in Hall.
  eapply Forall_impl; [exact Hall |]. intros t Ht k. exact (Ht k).
Qed.

(** X10: the deletion of an undesired pod is authorized exactly when its
    drain has finished, the topology service opens and returns the shard
    record, the primary alias of the record is not the alias of the pod, and
    every entry of the tablet status map is Ready; with no entry at all the
    last condition holds.  An authorized pod is returned as it was.  Whatever
    the answer, the callback changes nothing of the state but the log of the
    calls to the topology service, which it only extends. *)
Theorem turndown_authorized_iff (topo : Toposerver)
  (vts : planetscalev2.VitessShard) (key : ObjectKey) (curObj : Pod)
  (st : PassState) :
  let r := podPrepareForTurndown topo vts key curObj st in
  let alias := vttablet_AliasFromPod curObj in
  (r.1.1 = None <->
   drain_Finished curObj = true /\
   (exists ts shard,
      Open topo (planetscalev2.GlobalLockserver (planetscalev2.Spec vts)) = inr ts /\
      GetShard ts
        (Go.index (deref (heap st) (planetscalev2.Labels vts)) KeyspaceLabel)
        (planetscalev2.Name (planetscalev2.Spec vts)) = inr shard /\
      PrimaryAlias shard <> Some alias) /\
   map_Forall (fun _ tablet => planetscalev2.Ready tablet = ConditionTrue)
     (planetscalev2.Tablets (status st))) /\
  (r.1.1 = None -> r.1.2 = curObj) /\
  heap r.2 = heap st /\ tabletMap r.2 = tabletMap st /\
  status r.2 = status st /\ deployedCells r.2 = deployedCells st /\
  resultBuilder r.2 = resultBuilder st /\
  topoCalls st `prefix_of` topoCalls r.2.
Proof.
  intros r alias. subst r. unfold podPrepareForTurndown. fold alias.
  pose proof (isTabletPrimary_cases topo vts (heap st) alias (topoCalls st)) as Hc.
  cbv zeta in Hc.
  destruct (drain_Finished curObj); cbn [negb].
  2:{ cbn. split; [| by repeat split].
      split; [discriminate | by intros [? _]]. }
  destruct (Open topo _) as [err | ts] eqn:Hopen.
  { rewrite Hc. cbn. split; [| repeat split; try done; by eexists].
    split; [discriminate | by intros (_ & (? & ? & ? & _) & _)]. }
  destruct (GetShard ts _ _) as [err | shard] eqn:Hget; rewrite Hc.
  { cbn. split; [| repeat split; try done; by eexists].
    split; [discriminate |]. intros (_ & (ts' & shard' & [= <-] & Hg & _) & _).
    rewrite Hget in Hg. discriminate Hg. }
  assert (TabletAliasEqual (PrimaryAlias shard) alias = false <->
          PrimaryAlias shard <> Some alias) as Hprim.
  { unfold TabletAliasEqual. destruct (PrimaryAlias shard) as [p |].
    - rewrite bool_decide_eq_false. split; congruence.
    - split; [discriminate | done]. }
  cbn -[TabletAliasEqual].
  change (allTabletsReady (setTopoCalls _ st)) with (allTabletsReady st).
  destruct (TabletAliasEqual (PrimaryAlias shard) alias) eqn:Heq.
  { cbn. split; [| repeat split; try done; by eexists].
    split; [discriminate |].
    intros (_ & (ts' & shard' & [= <-] & Hg & Hne) & _).
    rewrite Hget in Hg. injection Hg as <-. by apply Hprim in Hne. }
  unfold allTabletsReady. case_bool_decide as Hall; cbn.
  - split; [| repeat split; try done; by eexists].
    split; [| done]. intros _. split; [done |]. split; [| done].
    exists ts, shard. split; [done |]. split; [done |]. by apply Hprim.
  - split; [| repeat split; try done; by eexists].
    split; [discriminate |]. by intros (_ & _ & ?).
Qed.

Lemma assign_twice (l : nat) (k v : string) (h : Heap) :
  assign l k v (assign l k v h) = assign l k v h.
Proof.
  unfold assign. apply list_eq. intros i.
  destruct (decide (i = l)) as [-> | Hne].
  - rewrite !list_lookup_alter_eq. destruct (h !! l) as [m |]; [| done].
    cbn. by rewrite insert_insert_eq.
  - by rewrite !list_lookup_alter_ne.
Qed.

(** X11: what the update of the resize annotation does to the maps.  When it
    returns, no map is added or removed, every map but the annotations of
    the tablet spec is as before, and in the annotations every key but the
    resize annotation has the value it had; run again on the result, it
    changes nothing more.  It does not return only when the five conditions
    hold and the annotations of the spec are a nil map: the assignment
    panics. *)
Theorem resize_annotation_frame (client : Client) (tabletSpec : vttablet.Spec)
  (pod : Pod) (h : Heap) :
  match updatePVCFilesystemResizeAnnotation client tabletSpec pod h with
  | Some h' =>
      List.length h' = List.length h /\
      (forall r, r <> vttablet.Annotations tabletSpec -> deref h' r = deref h r) /\
      (forall k, k <> pvcFilesystemResizeAnnotation ->
         deref h' (vttablet.Annotations tabletSpec) !! k =
         deref h (vttablet.Annotations tabletSpec) !! k) /\
      updatePVCFilesystemResizeAnnotation client tabletSpec pod h' = Some h'
  | None =>
      vttablet.Annotations tabletSpec = None /\
      exists requested, resizeReady client tabletSpec pod requested
  end.
Proof.
  unfold updatePVCFilesystemResizeAnnotation, resizeReady.
  destruct (vttablet.DataVolumePVCSpec tabletSpec) as [spec |]; [| done].
  destruct (getPVC client _) as [? | pvc] eqn:Hget; [done |].
  destruct (pvcRequests spec !! ResourceStorage) as [requested |] eqn:Hreq;
    [| done].
  destruct (qValue _ =? qValue requested) eqn:Hsize; cbn [negb]; [| done].
  destruct (checkPVCFileSystemResizeCondition pvc) eqn:Hcheck; cbn [negb];
    [| done].
  destruct (vttablet.Annotations tabletSpec) as [l |] eqn:Hann.
  - split; [apply length_alter |]. split; [| split].
    + intros [l' |] Hne; [| done]. cbn. unfold assign.
      rewrite list_lookup_alter_ne; [done | congruence].
    + intros k Hk. cbn. unfold assign. rewrite list_lookup_alter_eq.
      destruct (h !! l) as [m |]; [| done]. cbn. by rewrite lookup_insert_ne.
    + by rewrite assign_twice.
  - split; [done |]. exists requested, spec, pvc.
    split; [done |]. split; [done |]. split; [done |].
    split; [by apply Z.eqb_eq |].
    by apply checkPVCFileSystemResizeCondition_spec.
Qed.

Lemma Forall2_bind_fmap {A B C : Type} (R : C -> A -> Prop) (f : A -> B -> C)
  (g : A -> list B) (l : list A) :
  (forall a b, a ∈ l -> b ∈ g a -> R (f a b) a) ->
  Forall2 R (a ← l; f a <$> g a) (a ← l; (fun _ => a) <$> g a).
Proof.
  induction l as [| a l IH]; intros HR; [constructor |].
  rewrite !bind_cons. apply Forall2_app.
  - apply Forall2_fmap, Forall_Forall2_diag, Forall_forall. intros b Hb.
    apply HR; [left | done].
  - apply IH. intros a' b Ha' Hb. apply HR; [by right | done].
Qed.

(** X12: the precedence of the merged maps.  Tablet by tablet, each with
    its pool: an annotation has the value of the pool's backup location if
    that sets the key, else the pool's, else the drain annotation; an extra
    flag has the pool's value if the pool sets the key, else the
    shard's. *)
Theorem vttabletSpecs_overrides (fuel : nat) (vts : planetscalev2.VitessShard)
  (parentLabels : MapRef) (h : Heap)
  (Hvalid : validInputs h vts parentLabels) (Hfuel : replicasBelow fuel vts) :
  exists tablets h',
    vttabletSpecs fuel vts parentLabels h = Some (tablets, h') /\
    Forall2
      (fun t pool =>
         forall k,
           deref h' (vttablet.Annotations t) !! k = mergedAnnotation h vts pool k /\
           deref h' (planetscalev2.ExtraFlags (vttablet.Vttablet t)) !! k =
           mergedFlag h vts pool k)
      tablets
      (tabletPools (planetscalev2.TabletPools (planetscalev2.Spec vts))).
Proof.
  destruct (vttabletSpecs_run fuel vts parentLabels h Hvalid Hfuel)
    as (tablets & ext & Hrun & _ & Hc & _ & _).
  exists tablets, (h ++ ext). split; [done |].
  assert (Forall2
            (fun c pool =>
               forall k,
                 scAnnotations c !! k = mergedAnnotation h vts pool k /\
                 scExtraFlags c !! k = mergedFlag h vts pool k)
            (expectedContents h vts parentLabels)
            (tabletPools (planetscalev2.TabletPools (planetscalev2.Spec vts))))
    as Hall.
  { unfold expectedContents, tabletPools. apply Forall2_bind_fmap.
    intros pool i _ _ k. split; [| apply tabletContent_extraFlags].
    unfold tabletContent, mergedAnnotation. cbn [scAnnotations].
    destruct (planetscalev2.BackupLocation _ _) as [bl |]; cbn [mbind option_bind].
    - rewrite !lookup_union.
      destruct (deref h (planetscalev2.blAnnotations bl) !! k) as [v |];
        [by rewrite union_Some_l |].
      rewrite (left_id_L None (∪)).
      destruct (deref h (planetscalev2.Annotations pool) !! k) as [v |];
        [by rewrite union_Some_l |].
      rewrite (left_id_L None (∪)).
      case_decide as Hk; subst;
        by rewrite ?lookup_singleton_eq, ?lookup_singleton_ne by done.
    - cbn [deref]. rewrite lookup_empty, lookup_union.
      destruct (deref h (planetscalev2.Annotations pool) !! k) as [v |];
        [by rewrite union_Some_l |].
      rewrite (left_id_L None (∪)).
      case_decide as Hk; subst;
        by rewrite ?lookup_singleton_eq, ?lookup_singleton_ne by done. }
  rewrite <- Hc in Hall. by apply Forall2_fmap_l in Hall.
Qed.

(** X13: the start of a pass on valid inputs.  As many pod keys are asked
    for as the pools have replicas, all in the namespace of the shard; the
    cells deployed are the cells of the pools that ask for at least one
    tablet, so a pool scaled to zero deploys no cell; and nothing is
    requested of the result builder yet. *)
Theorem start_of_pass (fuel : nat) (vts : planetscalev2.VitessShard)
  (status0 : planetscalev2.VitessShardStatus) (h : Heap)
  (Hvalid : validInputs h vts None) (Hfuel : replicasBelow fuel vts) :
  let pools := planetscalev2.TabletPools (planetscalev2.Spec vts) in
  exists pvcKeys podKeys st0,
    reconcileTabletsStart fuel vts status0 h = Some (pvcKeys, podKeys, st0) /\
    List.length podKeys = replicaCount pools /\
    Forall (fun key => Namespace key = planetscalev2.vtsNamespace vts) podKeys /\
    pvcKeys ⊆ podKeys /\
    deployedCells st0 = populatedCells pools /\
    resultBuilder st0 = emptyBuilder.
Proof.
  intros pools.
  destruct (desiredTablets_run fuel vts h Hvalid Hfuel)
    as (tablets & h' & Hdesired & Hid).
  unfold reconcileTabletsStart. rewrite Hdesired. cbn [mbind option_bind].
  set (clusterName := Go.index _ ClusterLabel).
  destruct (registerTablet_fold clusterName (planetscalev2.vtsNamespace vts)
              tablets [] [] (startState status0 h'))
    as (Hpods & Hpvcs & Hcells & _ & _ & Hrb).
  destruct (fold_left _ tablets _) as [[pvcKeys podKeys] st0].
  cbn [fst snd app] in Hpods, Hpvcs, Hcells, Hrb.
  exists pvcKeys, podKeys, st0. split; [done |].
  fold pools in Hid. split; [| split; [| split; [| split]]].
  - rewrite Hpods, length_fmap.
    apply (f_equal List.length) in Hid. rewrite length_fmap in Hid. rewrite Hid.
    rewrite length_bind_sum. unfold replicaCount. f_equal.
    apply list_fmap_ext. intros _ pool _. rewrite length_fmap.
    unfold poolIndices. by rewrite length_seqZ.
  - rewrite Hpods. apply Forall_fmap, Forall_forall. by intros t _.
  - rewrite Hpods, Hpvcs. intros key (t & -> & Hin)%list_elem_of_fmap.
    apply list_elem_of_fmap. exists t. split; [done |].
    by apply list_elem_of_filter in Hin as [_ Hin].
  - rewrite Hcells. cbn.
    apply (f_equal (fmap (fun x : string * string * Z * Z => x.1.1.1))) in Hid.
    rewrite <- list_fmap_compose in Hid.
    change ((fun x : string * string * Z * Z => x.1.1.1) ∘ identity)
      with (fun t => topodatapb.Cell (vttablet.Alias t)) in Hid.
    rewrite Hid. unfold populatedCells. apply set_eq. intros c.
    rewrite elem_of_union, !elem_of_list_to_set, elem_of_empty.
    rewrite !list_elem_of_fmap. split.
    + intros [(x & -> & Hx) | []].
      apply list_elem_of_bind in Hx as (pool & Hx & Hpool).
      apply list_elem_of_fmap in Hx as (i & -> & Hi).
      exists pool. split; [done |]. apply list_elem_of_filter. split; [| done].
      unfold poolIndices in Hi. apply elem_of_seqZ in Hi. lia.
    + intros (pool & -> & Hpool). left.
      apply list_elem_of_filter in Hpool as [Hpos Hpool].
      exists (identityOf
                (Go.index (deref h (planetscalev2.Labels vts)) KeyspaceLabel)
                (planetscalev2.KeyRange (planetscalev2.Spec vts)) pool 1).
      split; [done |]. apply list_elem_of_bind. exists pool. split; [| done].
      apply list_elem_of_fmap. exists 1. split; [done |].
      unfold poolIndices. apply elem_of_seqZ. lia.
  - by rewrite Hrb.
Qed.

Lemma resize_annotation_cases (client : Client) (tabletSpec : vttablet.Spec)
  (pod : Pod) (h : Heap) :
  (exists requested,
     resizeReady client tabletSpec pod requested /\
     updatePVCFilesystemResizeAnnotation client tabletSpec pod h =
     (l ← vttablet.Annotations tabletSpec;
      Some (assign l pvcFilesystemResizeAnnotation (qString requested) h))) \/
  ((forall requested, ~ resizeReady client tabletSpec pod requested) /\
   updatePVCFilesystemResizeAnnotation client tabletSpec pod h = Some h).
Proof.
  unfold updatePVCFilesystemResizeAnnotation, resizeReady.
  destruct (vttablet.DataVolumePVCSpec tabletSpec) as [spec |];
    [| right; split; [by intros ? (? & ? & ? & _) | done]].
  destruct (getPVC client _) as [? | pvc] eqn:Hget;
    [right; split; [| done]; intros ? (? & ? & _ & Hg & _); congruence |].
  destruct (pvcRequests spec !! ResourceStorage) as [requested |] eqn:Hreq;
    [| right; split; [| done];
       intros ? (? & ? & Hs & _ & Hr & _); congruence].
  destruct (qValue _ =? qValue requested) eqn:Hsize; cbn [negb].
  2:{ right. split; [| done].
      intros r (s' & p' & Hs & Hg & Hr & Hv & _).
      assert (s' = spec) as -> by congruence.
      assert (p' = pvc) as -> by congruence.
      assert (r = requested) as -> by congruence.
      apply Z.eqb_neq in Hsize. by apply Hsize. }
  destruct (checkPVCFileSystemResizeCondition pvc) eqn:Hcheck; cbn [negb].
  2:{ right. split; [| done].
      intros r (s' & p' & _ & Hg & _ & _ & Hp).
      assert (p' = pvc) as -> by congruence.
      apply checkPVCFileSystemResizeCondition_spec in Hp. congruence. }
  left. exists requested. split.
  - exists spec, pvc. split; [done |]. split; [done |]. split; [done |].
    split; [by apply Z.eqb_eq |].
    by apply checkPVCFileSystemResizeCondition_spec.
  - by destruct (vttablet.Annotations tabletSpec).
Qed.

(** X14: a rolling recreate updates the resize annotation first and builds
    the pod from the maps as they are after it.  For a tablet of the pass
    whose annotations are a map of the heap, the callback returns; when the
    five conditions of the resize hold, the annotations that the pod is
    built from already hold the requested size under the resize key, and
    otherwise the pod is built from the maps as they were.  Only the heap
    of the state changes. *)
Theorem rolling_recreate_reads_updated_annotations (client : Client)
  (key : ObjectKey) (newObj : Pod) (st : PassState) (tablet : vttablet.Spec)
  (l : nat)
  (Hkey : tabletMap st !! key = Some tablet)
  (Hann : vttablet.Annotations tablet = Some l)
  (Hl : (l < List.length (heap st))%nat) :
  exists h',
    podUpdateRollingRecreate client key newObj st =
    Some (vttablet_UpdatePod newObj tablet h', setHeap h' st) /\
    (forall requested,
       resizeReady client tablet newObj requested ->
       deref h' (vttablet.Annotations tablet) !! pvcFilesystemResizeAnnotation =
       Some (qString requested)) /\
    ((forall requested, ~ resizeReady client tablet newObj requested) ->
     h' = heap st).
Proof.
  unfold podUpdateRollingRecreate. rewrite Hkey. cbn [mbind option_bind].
  destruct (resize_annotation_cases client tablet newObj (heap st))
    as [(requested & Hready & ->) | [Hnot ->]].
  - rewrite Hann. cbn [mbind option_bind]. eexists. split; [reflexivity |].
    split; [| intros Hnot; by destruct (Hnot requested)].
    intros requested' Hready'.
    assert (requested' = requested) as ->.
    { destruct Hready as (s1 & p1 & Hs1 & Hg1 & Hr1 & _).
      destruct Hready' as (s2 & p2 & Hs2 & Hg2 & Hr2 & _). congruence. }
    unfold assign. cbn. rewrite list_lookup_alter_eq.
    destruct (lookup_lt_is_Some_2 (heap st) l Hl) as [m ->]. cbn.
    by rewrite lookup_insert_eq.
  - cbn [mbind option_bind]. eexists. split; [reflexivity |].
    split; [| done]. intros requested Hready. by destruct (Hnot requested).
Qed.

End Further.

(** * Further properties on the sample environment *)

(** The first tablet of the sample shard is registered under its key. *)
Lemma sample_tablet1_registered :
  tabletMap (Sample.started Sample.shard2) !! Sample.key "1" = Some Sample.tablet1.
Proof.
  assert (is_Some (tabletMap (Sample.started Sample.shard2) !! Sample.key "1"))
    as [t Ht] by (vm_compute; eexists; reflexivity).
  unfold Sample.tablet1. rewrite Ht. reflexivity.
Qed.

(** X1 on the sample shard, whose generation is 4: the pod updated in place
    carries 4, and the status pass records it. *)
Lemma stamped_generation_witness :
  exists pod st',
    podUpdateInPlace (E := Sample.externals) Sample.shard2 (Sample.key "1")
      Sample.drainedPod (Sample.started Sample.shard2) = Some pod /\
    Go.ParseInt (podAnnotation pod observedShardGenerationAnnotationKey) = Some 4 /\
    podStatus (E := Sample.externals) (60 * Go.Second) (Sample.key "1") pod
      (Sample.started Sample.shard2) = Some st' /\
    planetscalev2.LowestPodGeneration (status st') = 4.
Proof.
  destruct (stamped_generation_is_observed (E := Sample.externals) Sample.shard2
              (60 * Go.Second) (Sample.key "1") Sample.drainedPod
              (Sample.started Sample.shard2))
    as (pod & st' & Hupdate & Hparse & Hstatus & Hlow).
  - vm_compute. eexists. reflexivity.
  - vm_compute. split; discriminate.
  - exists pod, st'. split; [exact Hupdate |]. split; [exact Hparse |].
    split; [exact Hstatus |]. rewrite Hlow. vm_compute. reflexivity.
Defined.

(** X2 on the sample shard: a running, Ready pod of the first tablet. *)
Lemma podStatus_projection_witness :
  exists st' new,
    podStatus (E := Sample.externals) (60 * Go.Second) (Sample.key "1")
      Sample.drainedPod (Sample.started Sample.shard2) = Some st' /\
    planetscalev2.Tablets (status st') !! vttablet.AliasStr Sample.tablet1 =
    Some new /\
    planetscalev2.Running new = ConditionTrue /\
    planetscalev2.Ready new = ConditionTrue /\
    planetscalev2.PendingChanges new = "".
Proof.
  pose proof (podStatus_projection (E := Sample.externals) (60 * Go.Second)
                (Sample.key "1") Sample.drainedPod (Sample.started Sample.shard2)
                Sample.tablet1 sample_tablet1_registered) as Hp.
  cbv zeta in Hp.
  destruct Hp as (st' & new & Hrun & Hlook & Hrunning & Hready & _ & Hpending & _).
  exists st', new. split; [exact Hrun |]. split; [exact Hlook |].
  split; [rewrite Hrunning; vm_compute; reflexivity |].
  split; [apply Hready; vm_compute; reflexivity |].
  rewrite Hpending. vm_compute. reflexivity.
Defined.

(** X3 on the sample shard: a bound claim of the first tablet. *)
Lemma pvcStatus_projection_witness :
  exists st',
    pvcStatus (Sample.key "1")
      (Sample.claim Sample.tenGi []) (Sample.started Sample.shard2) = Some st' /\
    planetscalev2.DataVolumeBound
    <$> planetscalev2.Tablets (status st') !! vttablet.AliasStr Sample.tablet1 =
    Some ConditionTrue.
Proof.
  pose proof (pvcStatus_projection (Sample.key "1")
                (Sample.claim Sample.tenGi []) (Sample.started Sample.shard2)
                Sample.tablet1 sample_tablet1_registered) as Hp.
  cbv zeta in Hp. destruct Hp as (st' & Hrun & Hlook & _).
  exists st'. split; [exact Hrun |]. rewrite Hlook. reflexivity.
Defined.

(** X7 on a sample: a pool of [MaxInt32] replicas after a pool of two. *)
Lemma diverges_at_MaxInt32_witness :
  vttabletSpecs (E := Sample.externals) 1000
    (Sample.shard [Sample.pool "us-east" "replica" 2;
                   Sample.pool "us-east" "rdonly" Go.MaxInt32])
    (Some 0%nat) Sample.heap0 = None.
Proof.
  apply (vttabletSpecs_diverges_at_MaxInt32 (E := Sample.externals)).
  apply Exists_cons_tl, Exists_cons_hd. reflexivity.
Defined.

(** X8 on the sample shard of two cells: three tablets. *)
Lemma vttabletSpecs_count_witness :
  exists tablets h',
    vttabletSpecs (E := Sample.externals) 5 (Sample.shard Sample.twoCells)
      (Some 0%nat) Sample.heap0 = Some (tablets, h') /\
    List.length tablets = 3%nat.
Proof.
  destruct (vttabletSpecs_count (E := Sample.externals) 5
              (Sample.shard Sample.twoCells) (Some 0%nat) Sample.heap0)
    as (tablets & h' & Hrun & Hlen).
  - apply sample_inputs_valid. repeat constructor; by do 3 eexists.
  - repeat constructor; vm_compute; reflexivity.
  - exists tablets, h'. split; [exact Hrun |]. rewrite Hlen.
    vm_compute. reflexivity.
Defined.

(** X9 on the sample shard: every tablet has the type label of its pool and
    the cluster label of the parent labels. *)
Lemma vttabletSpecs_labels_witness :
  exists tablets h',
    vttabletSpecs (E := Sample.externals) 5 Sample.shard2 (Some 0%nat)
      Sample.heap0 = Some (tablets, h') /\
    Forall
      (fun t =>
         deref h' (vttablet.Labels t) !! "planetscale.com/tablet-type" =
         Some (vttablet.Type_ t) /\
         deref h' (vttablet.Labels t) !! "planetscale.com/cluster" =
         Some "example")
      tablets.
Proof.
  destruct (vttabletSpecs_labels (E := Sample.externals) 5 Sample.shard2
              (Some 0%nat) Sample.heap0)
    as (tablets & h' & Hrun & Hlabels).
  - apply sample_inputs_valid. repeat constructor; by do 3 eexists.
  - repeat constructor; vm_compute; reflexivity.
  - exists tablets, h'. split; [exact Hrun |].
    eapply Forall_impl; [exact Hlabels |]. intros t Ht.
    split; rewrite Ht; vm_compute; reflexivity.
Defined.

(** X12 on the sample shard: the merged maps of its tablets. *)
Lemma vttabletSpecs_overrides_witness :
  exists tablets h',
    vttabletSpecs (E := Sample.externals) 5 Sample.shard2 (Some 0%nat)
      Sample.heap0 = Some (tablets, h') /\
    Forall2
      (fun t pool =>
         forall k,
           deref h' (vttablet.Annotations t) !! k =
           mergedAnnotation (E := Sample.externals) Sample.heap0 Sample.shard2
             pool k /\
           deref h' (planetscalev2.ExtraFlags (vttablet.Vttablet t)) !! k =
           mergedFlag Sample.heap0 Sample.shard2 pool k)
      tablets
      (tabletPools (planetscalev2.TabletPools (planetscalev2.Spec Sample.shard2))).
Proof.
  apply (vttabletSpecs_overrides (E := Sample.externals) 5 Sample.shard2
           (Some 0%nat) Sample.heap0).
  - apply sample_inputs_valid. repeat constructor; by do 3 eexists.
  - repeat constructor; vm_compute; reflexivity.
Defined.

(** X13 on the sample shard: two pod keys and the one cell. *)
Lemma start_of_pass_witness :
  exists pvcKeys podKeys st0,
    reconcileTabletsStart (E := Sample.externals) 5 Sample.shard2
      Sample.emptyStatus Sample.heap0 = Some (pvcKeys, podKeys, st0) /\
    List.length podKeys = 2%nat /\
    "us-east" ∈ deployedCells st0 /\
    resultBuilder st0 = emptyBuilder.
Proof.
  destruct (start_of_pass (E := Sample.externals) 5 Sample.shard2
              Sample.emptyStatus Sample.heap0)
    as (pvcKeys & podKeys & st0 & Hstart & Hlen & _ & _ & Hcells & Hrb).
  - destruct (sample_inputs_valid [Sample.pool "us-east" "replica" 2])
      as (_ & Hrest); [repeat constructor; by do 3 eexists |].
    split; [exact I | exact Hrest].
  - repeat constructor; vm_compute; reflexivity.
  - exists pvcKeys, podKeys, st0. split; [exact Hstart |].
    split; [rewrite Hlen; vm_compute; reflexivity |].
    split; [rewrite Hcells; compute_done | exact Hrb].
Defined.

(** X14 on the sample shard: the claim requests the 10Gi of the spec and its
    resize is pending, so the recreated pod is built from annotations that
    hold 10Gi. *)
Lemma rolling_recreate_witness :
  exists h',
    podUpdateRollingRecreate (E := Sample.externals)
      (Sample.clusterWithClaim (Sample.claim Sample.tenGi Sample.resizePendingTrue))
      (Sample.key "1") Sample.drainedPod (Sample.started Sample.shard2) =
    Some (Sample.drainedPod, setHeap h' (Sample.started Sample.shard2)) /\
    deref h' (vttablet.Annotations Sample.tablet1)
    !! "planetscale.com/pvc-filesystem-resize" = Some "10Gi".
Proof.
  destruct (rolling_recreate_reads_updated_annotations (E := Sample.externals)
              (Sample.clusterWithClaim
                 (Sample.claim Sample.tenGi Sample.resizePendingTrue))
              (Sample.key "1") Sample.drainedPod (Sample.started Sample.shard2)
              Sample.tablet1 6 sample_tablet1_registered)
    as (h' & Hrun & Hset & _).
  - vm_compute. reflexivity.
  - compute_done.
  - exists h'. split; [exact Hrun |].
    apply (Hset Sample.tenGi).
    exists {| pvcRequests := {[ ResourceStorage := Sample.tenGi ]};
              pvcTemplateRest := "" |},
      (Sample.claim Sample.tenGi Sample.resizePendingTrue).
    split; [vm_compute; reflexivity |]. split; [reflexivity |].
    split; [vm_compute; reflexivity |]. split; [reflexivity |].
    exists {| ccType := PersistentVolumeClaimFileSystemResizePending;
              ccStatus := ConditionTrue |}.
    split; reflexivity.
Defined.
